(** * django-binder: field filters and history tracking (binder/models.py)

    A shallow embedding of the filter classes of [binder/models.py]
    ([FieldFilter] and its subclasses) and of the history signal handlers
    ([history_obj_post_init], [history_obj_post_save]), with the properties
    the specification states about them.
    - A Python [str] is a [string] (a sequence of one-byte characters); the
      development covers ASCII input, so [\d] is [0-9].
    - A method that can raise returns a [result]; a method of a filter
      object takes [self] and returns the result together with the object
      after the call, since [ArrayFieldFilter.get_field_filter] stores
      [self._field_filter].
    - What the module imports from Django and from the rest of Binder
      ([float], [parse_date], [parse_datetime], [get_fixed_timezone],
      [jsonloads]) is a field of the class [Runtime]; every theorem about
      the filters holds for every runtime.
    - [ChoiceEnum], the case-folding fields, [BinderModel.full_clean],
      [BinderModel.save], [BinderModel.binder_serialize_m2m_field] and the
      installation of the signal handlers have modules of their own.
    - The definitions come first, the properties after them. *)

From Stdlib Require Import String Ascii List ZArith Bool Lia PeanoNat.
From Stdlib Require Import SpecFloat.
From Stdlib Require Import Sorted Permutation.
Import ListNotations.

Set Warnings "-register-all".

Local Open Scope list_scope.
Local Open Scope string_scope.

(* ================================================================== *)
(** ** Python strings *)

Module PyStr.

Definition is_digit (c : ascii) : bool :=
  let n := nat_of_ascii c in (48 <=? n)%nat && (n <=? 57)%nat.

Definition is_alpha (c : ascii) : bool :=
  let n := nat_of_ascii c in
  ((65 <=? n)%nat && (n <=? 90)%nat) || ((97 <=? n)%nat && (n <=? 122)%nat).

(** The characters [int()] skips around a numeral in a [str] of one-byte
    characters: tab, LF, VT, FF, CR and space. *)
Definition is_space (c : ascii) : bool :=
  let n := nat_of_ascii c in
  ((9 <=? n)%nat && (n <=? 13)%nat) || (n =? 32)%nat.

Definition digit_val (c : ascii) : Z := Z.of_nat (nat_of_ascii c) - 48.

Fixpoint all_digits (s : string) : bool :=
  match s with
  | EmptyString => true
  | String c r => is_digit c && all_digits r
  end.

(** [s.split(sep)] for a one-character separator: never the empty list. *)
Fixpoint split (sep : ascii) (s : string) : list string :=
  match s with
  | EmptyString => [EmptyString]
  | String c r =>
      if Ascii.eqb c sep then EmptyString :: split sep r
      else match split sep r with
           | h :: t => String c h :: t
           | [] => [String c EmptyString]
           end
  end.

Fixpoint replicate (n : nat) (c : ascii) : string :=
  match n with
  | O => EmptyString
  | S k => String c (replicate k c)
  end.

(** [s.ljust(width, fill)] *)
Definition ljust (width : nat) (fill : ascii) (s : string) : string :=
  s ++ replicate (width - String.length s) fill.

(** [s[i:j]] for [0 <= i <= j] *)
Definition slice (i j : nat) (s : string) : string := substring i (j - i) s.

Definition startswith (c : ascii) (s : string) : bool :=
  match s with
  | String c' _ => Ascii.eqb c' c
  | EmptyString => false
  end.

Fixpoint lstrip (s : string) : string :=
  match s with
  | String c r => if is_space c then lstrip r else s
  | EmptyString => EmptyString
  end.

Fixpoint rstrip (s : string) : string :=
  match s with
  | EmptyString => EmptyString
  | String c r =>
      match rstrip r with
      | EmptyString => if is_space c then EmptyString else String c EmptyString
      | r' => String c r'
      end
  end.

(** The digits of a numeral, left to right; a single underscore may sit
    between two digits.  [after_digit] tells whether the previous
    character was a digit. *)
Fixpoint int_digits (acc : Z) (after_digit : bool) (s : string) : option Z :=
  match s with
  | EmptyString => if after_digit then Some acc else None
  | String c r =>
      if is_digit c then int_digits (10 * acc + digit_val c) true r
      else if Ascii.eqb c "_" then
        if after_digit then int_digits acc false r else None
      else None
  end.

(** [int(s)]: [None] stands for [ValueError]. *)
Definition int (s : string) : option Z :=
  match rstrip (lstrip s) with
  | String "+" r => int_digits 0 false r
  | String "-" r => option_map Z.opp (int_digits 0 false r)
  | t => int_digits 0 false t
  end.

(** Decimal value of a string of digits. *)
Fixpoint digits_value (acc : Z) (s : string) : Z :=
  match s with
  | EmptyString => acc
  | String c r => digits_value (10 * acc + digit_val c) r
  end.

End PyStr.

(* ================================================================== *)
(** ** Values, exceptions and the runtime *)

(** [datetime.tzinfo] as this module builds it: [timezone.utc] or what
    [timezone.get_fixed_timezone] returns for an offset in minutes. *)
Inductive tzinfo :=
| UTC
| FixedOffset (minutes : Z).

Record date := mkDate { year : Z; month : Z; day : Z }.

Record time := mkTime {
  hour : Z; minute : Z; second : Z; microsecond : Z; tz : option tzinfo }.

Record datetime := mkDateTime { dt_date : date; dt_time : time }.

(** The Python values a filter hands to [Q]. *)
Inductive pyval :=
| VNone
| VBool (b : bool)
| VInt (z : Z)
| VFloat (f : spec_float)
| VStr (s : string)
| VDate (d : date)
| VDateTime (d : datetime)
| VTime (t : time)
| VList (l : list pyval)
| VDict (items : list (string * pyval)).

(** [type(v)] *)
Inductive pytype :=
| TNoneType | TBoolT | TIntT | TFloatT | TStrT | TDateT | TDateTimeT | TTimeT
| TListT | TDictT.

Definition type_of (v : pyval) : pytype :=
  match v with
  | VNone => TNoneType
  | VBool _ => TBoolT
  | VInt _ => TIntT
  | VFloat _ => TFloatT
  | VStr _ => TStrT
  | VDate _ => TDateT
  | VDateTime _ => TDateTimeT
  | VTime _ => TTimeT
  | VList _ => TListT
  | VDict _ => TDictT
  end.

Definition pytype_eq_dec (a b : pytype) : {a = b} + {a <> b}.
Proof. decide equality. Defined.

(** [isinstance(v, date) and not isinstance(v, datetime)]: [datetime] is a
    subclass of [date]. *)
Definition is_bare_date (v : pyval) : bool :=
  match v with
  | VDate _ => true
  | _ => false
  end.

Inductive exn :=
| BinderRequestError (msg : string)
| ValidationError (msg : string)
| ValueError
| TypeError
| IndexError
| AttributeError
| OtherError (name : string).

Inductive result (A : Type) :=
| Ok (a : A)
| Raise (e : exn).
Arguments Ok {A} a.
Arguments Raise {A} e.

Definition result_map {A B} (f : A -> B) (r : result A) : result B :=
  match r with
  | Ok a => Ok (f a)
  | Raise e => Raise e
  end.

(** A list comprehension over a function that can raise: elements are
    evaluated left to right and the first exception ends the loop. *)
Fixpoint map_result {A B} (f : A -> result B) (l : list A) : result (list B) :=
  match l with
  | [] => Ok []
  | x :: r =>
      match f x with
      | Raise e => Raise e
      | Ok y => result_map (cons y) (map_result f r)
      end
  end.

(** [datetime.time(hour, minute, second, microsecond, tzinfo)]: the
    constructor raises [ValueError] outside these ranges. *)
Definition py_time (h m s us : Z) (z : tzinfo) : result time :=
  if ((0 <=? h) && (h <=? 23) && (0 <=? m) && (m <=? 59) &&
      (0 <=? s) && (s <=? 59) && (0 <=? us) && (us <=? 999999))%Z
  then Ok (mkTime h m s us (Some z))
  else Raise ValueError.

(** What [binder/models.py] imports and calls.
    - [py_float]: the builtin [float] on a [str]; [None] is [ValueError].
    - [parse_date], [parse_datetime]: [django.utils.dateparse]; they return
      [None] on input that is not well formatted and raise on input that is
      well formatted but no date.
    - [get_fixed_timezone]: [django.utils.timezone].
    - [jsonloads]: [binder.json.jsonloads], applied to the UTF-8 bytes of
      the string. *)
Class Runtime := {
  py_float : string -> option spec_float;
  parse_date : string -> result (option date);
  parse_datetime : string -> result (option datetime);
  get_fixed_timezone : Z -> result tzinfo;
  jsonloads : string -> result pyval
}.

(* ================================================================== *)
(** ** Fields and filter classes *)

(** The field classes the filters name, and any other class. *)
Inductive field_cls :=
| IntegerField | ForeignKey | AutoField | ManyToOneRel | ManyToManyField
| ManyToManyRel | FloatField | DateField | DateTimeField | TimeField
| BooleanField | CharField | TextField | UUIDField | ArrayField | JSONField
| OtherField (cls_name : string).

Definition field_cls_eq_dec (a b : field_cls) : {a = b} + {a <> b}.
Proof. decide equality. apply string_dec. Defined.

Definition field_cls_eqb (a b : field_cls) : bool :=
  if field_cls_eq_dec a b then true else false.

(** [cls.__name__] *)
Definition field_cls_name (c : field_cls) : string :=
  match c with
  | IntegerField => "IntegerField" | ForeignKey => "ForeignKey"
  | AutoField => "AutoField" | ManyToOneRel => "ManyToOneRel"
  | ManyToManyField => "ManyToManyField" | ManyToManyRel => "ManyToManyRel"
  | FloatField => "FloatField" | DateField => "DateField"
  | DateTimeField => "DateTimeField" | TimeField => "TimeField"
  | BooleanField => "BooleanField" | CharField => "CharField"
  | TextField => "TextField" | UUIDField => "UUIDField"
  | ArrayField => "ArrayField" | JSONField => "JSONField"
  | OtherField n => n
  end.

(** A model field: its class, [field.model.__name__], [field.name] and, for
    an [ArrayField], [field.base_field]. *)
Inductive Field :=
| mkField (field_class : field_cls) (model_name : string) (name : string)
          (base_field : option Field).

Definition field_class (f : Field) : field_cls :=
  match f with mkField c _ _ _ => c end.
Definition model_name (f : Field) : string :=
  match f with mkField _ m _ _ => m end.
Definition name (f : Field) : string :=
  match f with mkField _ _ n _ => n end.
Definition base_field (f : Field) : option Field :=
  match f with mkField _ _ _ b => b end.

(** The subclasses of [FieldFilter]. *)
Inductive filter_cls :=
| IntegerFieldFilter | FloatFieldFilter | DateFieldFilter
| DateTimeFieldFilter | TimeFieldFilter | BooleanFieldFilter
| TextFieldFilter | UUIDFieldFilter | ArrayFieldFilter | JSONFieldFilter.

Definition filter_cls_eq_dec (a b : filter_cls) : {a = b} + {a <> b}.
Proof. decide equality. Defined.

Definition filter_cls_name (c : filter_cls) : string :=
  match c with
  | IntegerFieldFilter => "IntegerFieldFilter"
  | FloatFieldFilter => "FloatFieldFilter"
  | DateFieldFilter => "DateFieldFilter"
  | DateTimeFieldFilter => "DateTimeFieldFilter"
  | TimeFieldFilter => "TimeFieldFilter"
  | BooleanFieldFilter => "BooleanFieldFilter"
  | TextFieldFilter => "TextFieldFilter"
  | UUIDFieldFilter => "UUIDFieldFilter"
  | ArrayFieldFilter => "ArrayFieldFilter"
  | JSONFieldFilter => "JSONFieldFilter"
  end.

(** [FieldFilter.__subclasses__()], in the order of definition. *)
Definition subclasses : list filter_cls :=
  [IntegerFieldFilter; FloatFieldFilter; DateFieldFilter; DateTimeFieldFilter;
   TimeFieldFilter; BooleanFieldFilter; TextFieldFilter; UUIDFieldFilter;
   ArrayFieldFilter; JSONFieldFilter].

(** The class attribute [fields]. *)
Definition fields (c : filter_cls) : list field_cls :=
  match c with
  | IntegerFieldFilter =>
      [IntegerField; ForeignKey; AutoField; ManyToOneRel; ManyToManyField;
       ManyToManyRel]
  | FloatFieldFilter => [FloatField]
  | DateFieldFilter => [DateField]
  | DateTimeFieldFilter => [DateTimeField]
  | TimeFieldFilter => [TimeField]
  | BooleanFieldFilter => [BooleanField]
  | TextFieldFilter => [CharField; TextField]
  | UUIDFieldFilter => [UUIDField]
  | ArrayFieldFilter => [ArrayField]
  | JSONFieldFilter => [JSONField]
  end.

(** A qualifier is [None] or a string. *)
Definition qualifier := option string.

Definition qualifier_eq_dec (a b : qualifier) : {a = b} + {a <> b}.
Proof. decide equality. apply string_dec. Defined.

(** [qualifier == s] *)
Definition qual_is (q : qualifier) (s : string) : bool :=
  match q with
  | Some t => String.eqb t s
  | None => false
  end.

(** [qualifier in ('in', 'range')] *)
Definition qual_multi (q : qualifier) : bool :=
  qual_is q "in" || qual_is q "range".

(** [x in l] on qualifiers *)
Definition qual_in (q : qualifier) (l : list qualifier) : bool :=
  if in_dec qualifier_eq_dec q l then true else false.

Definition numeric_qualifiers : list qualifier :=
  [None; Some "in"; Some "gt"; Some "gte"; Some "lt"; Some "lte";
   Some "range"; Some "isnull"].

(** The class attribute [allowed_qualifiers]. *)
Definition allowed_qualifiers (c : filter_cls) : list qualifier :=
  match c with
  | IntegerFieldFilter | FloatFieldFilter | DateFieldFilter
  | DateTimeFieldFilter | TimeFieldFilter => numeric_qualifiers
  | BooleanFieldFilter => [None]
  | TextFieldFilter =>
      [None; Some "in"; Some "iexact"; Some "contains"; Some "icontains";
       Some "startswith"; Some "istartswith"; Some "endswith";
       Some "iendswith"; Some "exact"; Some "isnull"]
  | UUIDFieldFilter =>
      [None; Some "in"; Some "iexact"; Some "contains"; Some "icontains";
       Some "startswith"; Some "istartswith"; Some "endswith";
       Some "iendswith"; Some "exact"]
  | ArrayFieldFilter =>
      [None; Some "contains"; Some "contained_by"; Some "overlap";
       Some "isnull"]
  | JSONFieldFilter =>
      [None; Some "contains"; Some "contained_by"; Some "has_key";
       Some "has_any_keys"; Some "has_keys"; Some "isnull"]
  end.

(** A filter object: its class, [self.field] and the attribute
    [self._field_filter] ([None] when it is unset or holds [None]). *)
Record filter := mkFilter {
  cls : filter_cls;
  field : Field;
  _field_filter : option filter_cls
}.

(** [Filter(field)] *)
Definition new_filter (c : filter_cls) (f : Field) : filter :=
  mkFilter c f None.

(** The predicate [Q] built from one keyword [key=value], and whether [~]
    negates it. *)
Record Q := mkQ { negated : bool; key : string; value : pyval }.

(* ================================================================== *)
(** ** The regular expressions of the filters *)

Module Re.
Import PyStr.

Definition newline : ascii := ascii_of_nat 10.

(** [$] without [re.MULTILINE]: the end of the string, or just before a
    newline that ends the string. *)
Definition at_end (s : string) : bool :=
  match s with
  | EmptyString => true
  | String c EmptyString => Ascii.eqb c newline
  | _ => false
  end.

(** Exactly [n] digits, and what follows them. *)
Fixpoint take_digits (n : nat) (s : string) : option (string * string) :=
  match n with
  | O => Some (EmptyString, s)
  | S k =>
      match s with
      | String c r =>
          if is_digit c then
            match take_digits k r with
            | Some (d, rest) => Some (String c d, rest)
            | None => None
            end
          else None
      | EmptyString => None
      end
  end.

(** The longest prefix of characters that satisfy [p], and what follows. *)
Fixpoint span (p : ascii -> bool) (s : string) : string * string :=
  match s with
  | String c r =>
      if p c then let (d, rest) := span p r in (String c d, rest)
      else (EmptyString, s)
  | EmptyString => (EmptyString, EmptyString)
  end.

(** One character out of [cs], and what follows. *)
Definition one_of (cs : list ascii) (s : string) : option (ascii * string) :=
  match s with
  | String c r => if existsb (Ascii.eqb c) cs then Some (c, r) else None
  | EmptyString => None
  end.

(** [[0-9]{4}-[0-9]{2}-[0-9]{2}] and what follows. *)
Definition ymd (s : string) : option string :=
  match take_digits 4 s with
  | Some (_, String "-" s1) =>
      match take_digits 2 s1 with
      | Some (_, String "-" s2) =>
          match take_digits 2 s2 with
          | Some (_, rest) => Some rest
          | None => None
          end
      | _ => None
      end
  | _ => None
  end.

(** [re.match('^[0-9]{4}-[0-9]{2}-[0-9]{2}$', v)] *)
Definition date_re (v : string) : bool :=
  match ymd v with
  | Some rest => at_end rest
  | None => false
  end.

(** [([.][0-9]+)?] followed by something that starts with no digit and
    no dot: the group is there exactly when a dot follows, and then
    takes every digit. *)
Definition opt_fraction (s : string) : option (option string * string) :=
  match s with
  | String "." r =>
      match span is_digit r with
      | (EmptyString, _) => None
      | (d, rest) => Some (Some d, rest)
      end
  | _ => Some (None, s)
  end.

(** [([A-Za-z]+|[+-][0-9]{1,4})$] *)
Definition dt_zone (s : string) : bool :=
  match one_of ["+"; "-"]%char s with
  | Some (_, r) =>
      let (d, rest) := span is_digit r in
      (1 <=? String.length d)%nat && (String.length d <=? 4)%nat && at_end rest
  | None =>
      let (a, rest) := span is_alpha s in
      (1 <=? String.length a)%nat && at_end rest
  end.

(** [re.match('^[0-9]{4}-[0-9]{2}-[0-9]{2}[T ][0-9]{2}:[0-9]{2}:[0-9]{2}([.][0-9]+)?([A-Za-z]+|[+-][0-9]{1,4})$', v)] *)
Definition datetime_re (v : string) : bool :=
  match ymd v with
  | Some s0 =>
      match one_of ["T"; " "]%char s0 with
      | Some (_, s1) =>
          match take_digits 2 s1 with
          | Some (_, String ":" s2) =>
              match take_digits 2 s2 with
              | Some (_, String ":" s3) =>
                  match take_digits 2 s3 with
                  | Some (_, s4) =>
                      match opt_fraction s4 with
                      | Some (_, s5) => dt_zone s5
                      | None => false
                      end
                  | None => false
                  end
              | _ => false
              end
          | _ => false
          end
      | None => false
      end
  | None => false
  end.

(** [(Z|[+-]\d{2}(?:\d{2})?)$]: the text of the group. *)
Definition time_zone (s : string) : option string :=
  match s with
  | String "Z" rest => if at_end rest then Some "Z" else None
  | String c r =>
      if existsb (Ascii.eqb c) ["+"; "-"]%char then
        let (d, rest) := span is_digit r in
        if ((String.length d =? 2)%nat || (String.length d =? 4)%nat)
           && at_end rest
        then Some (String c d) else None
      else None
  | EmptyString => None
  end.

(** [time_re.match(v)] and its [groups()]: hour, minute, second, the
    fraction ([None] when the group took no part) and the zone. *)
Definition time_re (v : string)
  : option (string * string * string * option string * string) :=
  match take_digits 2 v with
  | Some (h, String ":" s1) =>
      match take_digits 2 s1 with
      | Some (m, String ":" s2) =>
          match take_digits 2 s2 with
          | Some (s, s3) =>
              match opt_fraction s3 with
              | Some (f, s4) =>
                  match time_zone s4 with
                  | Some z => Some (h, m, s, f, z)
                  | None => None
                  end
              | None => None
              end
          | None => None
          end
      | _ => None
      end
  | _ => None
  end.

End Re.

(* ================================================================== *)
(** ** Methods of a filter object *)

(** A method: it runs on [self] and leaves the result and the object. *)
Definition M (A : Type) : Type := filter -> result A * filter.

Definition ret {A} (a : A) : M A := fun self => (Ok a, self).

Definition raise {A} (e : exn) : M A := fun self => (Raise e, self).

Definition bind {A B} (m : M A) (k : A -> M B) : M B :=
  fun self =>
    match m self with
    | (Ok a, self') => k a self'
    | (Raise e, self') => (Raise e, self')
    end.

Declare Scope method_scope.
Delimit Scope method_scope with method.
Notation "x <- m ;; k" := (bind m (fun x => k))
  (at level 61, m at next level, right associativity) : method_scope.
Notation "m ;;; k" := (bind m (fun _ => k))
  (at level 61, right associativity) : method_scope.

(** [try: m except IndexError: handler] *)
Definition except_IndexError {A} (m handler : M A) : M A :=
  fun self =>
    match m self with
    | (Raise IndexError, self') => handler self'
    | r => r
    end.

(** A function that can raise, called from a method. *)
Definition lift {A} (r : result A) : M A := fun self => (r, self).

Section MapM.
Context {A B S : Type} (f : A -> S -> result B * S).

(** [[f(x) for x in l]] where [f] can raise and can change the state. *)
Fixpoint map_state (l : list A) (s : S) : result (list B) * S :=
  match l with
  | [] => (Ok [], s)
  | x :: r =>
      match f x s with
      | (Raise e, s') => (Raise e, s')
      | (Ok y, s') =>
          let (ys, s'') := map_state r s' in (result_map (cons y) ys, s'')
      end
  end.
End MapM.

(** [values[0]] *)
Definition index0 {A} (values : list A) : result A :=
  match values with
  | v :: _ => Ok v
  | [] => Raise IndexError
  end.

(** [str(qualifier)] as [format] prints it. *)
Definition qualifier_str (q : qualifier) : string :=
  match q with
  | Some s => s
  | None => "None"
  end.

(** Truth value of a qualifier: [None] and [''] are false. *)
Definition qual_truthy (q : qualifier) : bool :=
  match q with
  | None | Some EmptyString => false
  | Some _ => true
  end.

(** [FieldFilter.field_description] *)
Definition field_description (self : filter) : string :=
  field_cls_name (field_class (field self)) ++ " {" ++
  model_name (field self) ++ "}.{" ++ name (field self) ++ "}".

Definition msg_invalid (what v : string) (self : filter) : string :=
  "Invalid " ++ what ++ "value {" ++ v ++ "} for " ++
  field_description self ++ ".".

Definition msg_qualifier (q : qualifier) (self : filter) : string :=
  "Qualifier " ++ qualifier_str q ++ " not supported for type " ++
  filter_cls_name (cls self) ++ " (" ++ field_description self ++ ").".

Definition msg_range (self : filter) : string :=
  "Range requires exactly 2 values for " ++ field_description self ++ ".".

Definition msg_empty (self : filter) : string :=
  "Value for filter {" ++ model_name (field self) ++ "}.{" ++
  name (field self) ++ "} may not be empty.".

Definition msg_types (self : filter) : string :=
  "Values for filter {" ++ model_name (field self) ++ "}.{" ++
  name (field self) ++ "} must be the same types.".

(** [FieldFilter.check_qualifier] *)
Definition check_qualifier (q : qualifier) : M unit :=
  fun self =>
    if negb (qual_in q (allowed_qualifiers (cls self)))
    then raise (BinderRequestError (msg_qualifier q self)) self
    else ret tt self.

(** The loops of [ArrayFieldFilter.get_field_filter]: the last subclass
    that lists [field_class] in its [fields], or [None]. *)
Definition find_field_filter (field_class : field_cls) : option filter_cls :=
  fold_left
    (fun f field_filter_cls =>
       if existsb (fun field_cls => field_cls_eqb field_cls field_class)
                  (fields field_filter_cls)
       then Some field_filter_cls else f)
    subclasses None.

(** [ArrayFieldFilter.get_field_filter] *)
Definition get_field_filter (field_class : field_cls) (reset : bool)
  : M (option filter_cls) :=
  fun self =>
    let f := if negb reset then _field_filter self else None in
    match f with
    | Some c => (Ok (Some c), self)
    | None =>
        let f := find_field_filter field_class in
        (Ok f, mkFilter (cls self) (field self) f)
    end.

(* ================================================================== *)
(** ** The filters *)

Section Filters.
Context {RT : Runtime}.

Local Open Scope method_scope.

(** [None], a [date] or a [datetime] as a value. *)
Definition of_date (r : result (option date)) : result pyval :=
  result_map (fun o => match o with Some d => VDate d | None => VNone end) r.

Definition of_datetime (r : result (option datetime)) : result pyval :=
  result_map (fun o => match o with Some d => VDateTime d | None => VNone end) r.

(** [int(s)], [ValueError] when [s] is no numeral. *)
Definition py_int (s : string) : result Z :=
  match PyStr.int s with
  | Some z => Ok z
  | None => Raise ValueError
  end.

(** [IntegerFieldFilter.clean_value] *)
Definition IntegerFieldFilter_clean_value (self : filter) (q : qualifier)
           (v : string) : result pyval :=
  match py_int v with
  | Ok z => Ok (VInt z)
  | Raise ValueError => Raise (ValidationError (msg_invalid "" v self))
  | Raise e => Raise e
  end.

(** [FloatFieldFilter.clean_value] *)
Definition FloatFieldFilter_clean_value (self : filter) (q : qualifier)
           (v : string) : result pyval :=
  match py_float v with
  | Some x => Ok (VFloat x)
  | None => Raise (ValidationError (msg_invalid "" v self))
  end.

(** [DateFieldFilter.clean_value] *)
Definition DateFieldFilter_clean_value (self : filter) (q : qualifier)
           (v : string) : result pyval :=
  if negb (Re.date_re v)
  then Raise (ValidationError (msg_invalid "YYYY-MM-DD " v self))
  else of_date (parse_date v).

(** [DateTimeFieldFilter.clean_value] *)
Definition DateTimeFieldFilter_clean_value (self : filter) (q : qualifier)
           (v : string) : result pyval :=
  if Re.datetime_re v then of_datetime (parse_datetime v)
  else if Re.date_re v then of_date (parse_date v)
  else Raise (ValidationError (msg_invalid "YYYY-MM-DD(.mmm)ZONE " v self)).

Definition result_bind {A B} (r : result A) (k : A -> result B) : result B :=
  match r with
  | Ok a => k a
  | Raise e => Raise e
  end.

(** The zone of [TimeFieldFilter.clean_value]: [zone] is the text of the
    last group, which the source keeps in [tzinfo]. *)
Definition time_tzinfo (zone : string) : result tzinfo :=
  if String.eqb zone "Z" then Ok UTC
  else
    let zone := PyStr.ljust 5 "0" zone in
    result_bind (py_int (PyStr.slice 1 3 zone)) (fun hh =>
    result_bind (py_int (PyStr.slice 3 5 zone)) (fun mm =>
    let offset := (hh * 60 + mm)%Z in
    let offset := if PyStr.startswith "-" zone then (- offset)%Z else offset in
    get_fixed_timezone offset)).

(** [(microsecond or '').ljust(6, '0')] *)
Definition microsecond_digits (microsecond : option string) : string :=
  PyStr.ljust 6 "0" (match microsecond with
                     | Some s => s
                     | None => EmptyString
                     end).

(** [TimeFieldFilter.clean_value] *)
Definition TimeFieldFilter_clean_value (self : filter) (q : qualifier)
           (v : string) : result pyval :=
  match Re.time_re v with
  | None => Raise (ValidationError (msg_invalid "HH:MM:SS(.mmm) " v self))
  | Some (hour, minute, second, microsecond, tzinfo) =>
      result_bind (py_int hour) (fun hour =>
      result_bind (py_int minute) (fun minute =>
      result_bind (py_int second) (fun second =>
      result_bind (py_int (microsecond_digits microsecond)) (fun microsecond =>
      result_bind (time_tzinfo tzinfo) (fun tzinfo =>
      result_map VTime (py_time hour minute second microsecond tzinfo))))))
  end.

(** [BooleanFieldFilter.clean_value] *)
Definition BooleanFieldFilter_clean_value (self : filter) (q : qualifier)
           (v : string) : result pyval :=
  if String.eqb v "true" then Ok (VBool true)
  else if String.eqb v "false" then Ok (VBool false)
  else Raise (ValidationError (msg_invalid "" v self)).

(** [TextFieldFilter.clean_value] and [UUIDFieldFilter.clean_value] *)
Definition TextFieldFilter_clean_value (self : filter) (q : qualifier)
           (v : string) : result pyval := Ok (VStr v).

(** [JSONFieldFilter.clean_value] *)
Definition JSONFieldFilter_clean_value (self : filter) (q : qualifier)
           (v : string) : result pyval :=
  if qual_is q "has_key" then Ok (VStr v)
  else if qual_is q "has_keys" || qual_is q "has_any_keys" then
    if String.eqb v "" then Ok (VList [])
    else Ok (VList (map VStr (PyStr.split "," v)))
  else jsonloads v.

(** [clean_value] of the class [c] on the field [f], with [cache] for
    [self._field_filter]; it returns the attribute after the call too.
    The case of [ArrayFieldFilter] is [ArrayFieldFilter.clean_value]:
    it builds one filter for [base_field] and calls its [clean_value]
    for every element. *)
Fixpoint clean_value_rec (f : Field) (c : filter_cls)
         (cache : option filter_cls) (q : qualifier) (v : string) {struct f}
  : result pyval * option filter_cls :=
  let self := mkFilter c f cache in
  match c with
  | IntegerFieldFilter => (IntegerFieldFilter_clean_value self q v, cache)
  | FloatFieldFilter => (FloatFieldFilter_clean_value self q v, cache)
  | DateFieldFilter => (DateFieldFilter_clean_value self q v, cache)
  | DateTimeFieldFilter => (DateTimeFieldFilter_clean_value self q v, cache)
  | TimeFieldFilter => (TimeFieldFilter_clean_value self q v, cache)
  | BooleanFieldFilter => (BooleanFieldFilter_clean_value self q v, cache)
  | TextFieldFilter | UUIDFieldFilter => (TextFieldFilter_clean_value self q v, cache)
  | JSONFieldFilter => (JSONFieldFilter_clean_value self q v, cache)
  | ArrayFieldFilter =>
      match f with
      | mkField _ _ _ None => (Raise AttributeError, cache)
      | mkField _ _ _ (Some base) =>
          let (Filter, self) := get_field_filter (field_class base) false self in
          match Filter with
          | Ok (Some Filter) =>
              if String.eqb v "" then (Ok (VList []), _field_filter self)
              else
                let values := PyStr.split "," v in
                let (r, _) :=
                  map_state (fun v inner => clean_value_rec base Filter inner q v)
                            values (_field_filter (new_filter Filter base)) in
                (result_map VList r, _field_filter self)
          | Ok None => (Raise TypeError, _field_filter self)
          | Raise e => (Raise e, _field_filter self)
          end
      end
  end.

(** [self.clean_value(qualifier, v)] *)
Definition clean_value (q : qualifier) (v : string) : M pyval :=
  fun self =>
    let (r, cache) := clean_value_rec (field self) (cls self) (_field_filter self) q v in
    (r, mkFilter (cls self) (field self) cache).

(** The key of the predicate: [partial + self.field.name + suffix]. *)
Definition q_key (partial : string) (self : filter) (q : qualifier) : string :=
  let suffix : string :=
    if qual_truthy q then ("__" ++ qualifier_str q)%string else "" in
  (partial ++ name (field self) ++ suffix)%string.

(** The end of both [get_q]: [~Q(...)] or [Q(...)]. *)
Definition make_q (q : qualifier) (invert : bool) (partial : string)
           (cleaned_value : pyval) : M Q :=
  fun self => ret (mkQ invert (q_key partial self q) cleaned_value) self.

(** [FieldFilter.get_q] *)
Definition FieldFilter_get_q (q : qualifier) (value : string) (invert : bool)
           (partial : string) : M Q :=
  check_qualifier q ;;;
  values <-
    (if qual_multi q then
       let values := PyStr.split "," value in
       if qual_is q "range" && negb (length values =? 2)%nat
       then fun self => raise (BinderRequestError (msg_range self)) self
       else ret values
     else ret [value]) ;;
  cleaned_value <-
    (if qual_is q "isnull" then ret (VBool true)
     else if qual_multi q then
       l <- map_state (clean_value q) values ;; ret (VList l)
     else
       except_IndexError
         (v <- lift (index0 values) ;; clean_value q v)
         (fun self => raise (ValidationError (msg_empty self)) self)) ;;
  make_q q invert partial cleaned_value.

(** [len({type(v) for v in cleaned_value})] *)
Definition count_types (cleaned_value : list pyval) : nat :=
  length (nodup pytype_eq_dec (map type_of cleaned_value)).

(** [DateTimeFieldFilter.get_q]; the qualifier it may rewrite comes
    back with the cleaned value. *)
Definition DateTimeFieldFilter_get_q (q : qualifier) (value : string)
           (invert : bool) (partial : string) : M Q :=
  check_qualifier q ;;;
  values <-
    (if qual_multi q then
       let values := PyStr.split "," value in
       if qual_is q "range" && negb (length values =? 2)%nat
       then fun self => raise (BinderRequestError (msg_range self)) self
       else ret values
     else ret [value]) ;;
  qc <-
    (if qual_is q "isnull" then ret (q, VBool true)
     else if qual_multi q then
       cleaned_value <- map_state (clean_value q) values ;;
       if negb (count_types cleaned_value =? 1)%nat
       then fun self => raise (ValidationError (msg_types self)) self
       else
         first <- lift (index0 cleaned_value) ;;
         if is_bare_date first
         then ret (Some ("date__" ++ qualifier_str q)%string, VList cleaned_value)
         else ret (q, VList cleaned_value)
     else
       except_IndexError
         (v <- lift (index0 values) ;;
          cleaned_value <- clean_value q v ;;
          if is_bare_date cleaned_value
          then ret (if qual_truthy q then Some ("date__" ++ qualifier_str q)%string
                    else Some "date", cleaned_value)
          else ret (q, cleaned_value))
         (fun self => raise (ValidationError (msg_empty self)) self)) ;;
  make_q (fst qc) invert partial (snd qc).

(** [self.get_q(qualifier, value, invert, partial)] *)
Definition get_q (q : qualifier) (value : string) (invert : bool)
           (partial : string) : M Q :=
  fun self =>
    match cls self with
    | DateTimeFieldFilter => DateTimeFieldFilter_get_q q value invert partial self
    | _ => FieldFilter_get_q q value invert partial self
    end.

End Filters.

(* ================================================================== *)
(** ** A runtime to run the filters on *)

(** One runtime, small enough to compute with: enough of Django's parsers
    for the inputs of the examples.  The theorems hold for every runtime;
    this one runs them on concrete input. *)
Module Sample.
Import PyStr.

Definition leap (y : Z) : bool :=
  ((y mod 4 =? 0) && negb (y mod 100 =? 0) || (y mod 400 =? 0))%Z.

Definition days_in_month (y m : Z) : Z :=
  if (m =? 2)%Z then (if leap y then 29 else 28)%Z
  else if ((m =? 4) || (m =? 6) || (m =? 9) || (m =? 11))%Z then 30%Z
  else 31%Z.

(** [datetime.date(y, m, d)] *)
Definition py_date (y m d : Z) : result date :=
  if ((1 <=? y) && (1 <=? m) && (m <=? 12) && (1 <=? d)
      && (d <=? days_in_month y m))%Z
  then Ok (mkDate y m d) else Raise ValueError.

Definition ymd_of (s : string) : result (option date) :=
  match Re.take_digits 4 s with
  | Some (y, String "-" s1) =>
      match Re.take_digits 2 s1 with
      | Some (m, String "-" s2) =>
          match Re.take_digits 2 s2 with
          | Some (d, EmptyString) =>
              result_map Some
                (py_date (digits_value 0 y) (digits_value 0 m) (digits_value 0 d))
          | _ => Ok None
          end
      | _ => Ok None
      end
  | _ => Ok None
  end.

Definition fixed_timezone (offset : Z) : result tzinfo :=
  if ((-1440 <? offset) && (offset <? 1440))%Z
  then Ok (FixedOffset offset) else Raise ValueError.

Definition zone_of (z : string) : result tzinfo :=
  if String.eqb z "Z" then Ok UTC
  else
    let z' := ljust 5 "0" z in
    let off := (digits_value 0 (slice 1 3 z') * 60 + digits_value 0 (slice 3 5 z'))%Z in
    fixed_timezone (if startswith "-" z' then (- off)%Z else off).

Definition hms_of (s : string) : result (option time) :=
  match Re.time_re s with
  | Some (h, m, sec, f, z) =>
      match zone_of z with
      | Ok zone =>
          result_map Some
            (py_time (digits_value 0 h) (digits_value 0 m) (digits_value 0 sec)
               (digits_value 0
                  (substring 0 6 (ljust 6 "0" (match f with Some d => d | None => "" end))))
               zone)
      | Raise e => Raise e
      end
  | None => Ok None
  end.

Definition datetime_of (s : string) : result (option datetime) :=
  match ymd_of (substring 0 10 s), substring 10 1 s with
  | Ok (Some d), ("T" | " ") =>
      match hms_of (substring 11 (String.length s - 11) s) with
      | Ok (Some t) => Ok (Some (mkDateTime d t))
      | Ok None => Ok None
      | Raise e => Raise e
      end
  | Raise e, _ => Raise e
  | _, _ => Ok None
  end.

Definition float_of (s : string) : option spec_float :=
  match PyStr.int s with
  | Some 0%Z => Some (S754_zero false)
  | Some (Zpos p) => Some (S754_finite false p 0)
  | Some (Zneg p) => Some (S754_finite true p 0)
  | None => None
  end.

Definition json_of (s : string) : result pyval :=
  if String.eqb s "null" then Ok VNone
  else if String.eqb s "true" then Ok (VBool true)
  else if String.eqb s "false" then Ok (VBool false)
  else if String.eqb s "[]" then Ok (VList [])
  else if String.eqb s "{}" then Ok (VDict [])
  else match PyStr.int s with
       | Some z => if all_digits s then Ok (VInt z)
                   else Raise (BinderRequestError "JSON parse error")
       | None => Raise (BinderRequestError "JSON parse error")
       end.

Definition runtime : Runtime := {|
  py_float := float_of;
  parse_date := ymd_of;
  parse_datetime := datetime_of;
  get_fixed_timezone := fixed_timezone;
  jsonloads := json_of
|}.

Definition animal_name : Field := mkField CharField "Animal" "name" None.
Definition animal_id : Field := mkField AutoField "Animal" "id" None.
Definition animal_birth : Field := mkField DateTimeField "Animal" "birth" None.
Definition animal_fed : Field := mkField TimeField "Animal" "fed" None.
Definition animal_tags : Field :=
  mkField ArrayField "Animal" "tags" (Some (mkField IntegerField "Animal" "tags" None)).
Definition animal_mail : Field :=
  mkField ArrayField "Animal" "mail"
          (Some (mkField (OtherField "EmailField") "Animal" "mail" None)).
Definition animal_meta : Field := mkField JSONField "Animal" "meta" None.

End Sample.

(* ================================================================== *)
(** ** Notions that the statements use *)

(** The elements of a list comprehension over [clean_value], each cleaned
    by [self] as it is before the loop. *)
Definition cleaned_list `{Runtime} (q : qualifier) (values : list string)
           (self : filter) : result (list pyval) :=
  map_result (fun v => fst (clean_value q v self)) values.

(** The count of values that [get_q] demands: two for ['range']. *)
Definition count_ok (q : qualifier) (values : list string) : Prop :=
  q = Some "range" -> length values = 2%nat.

(** What [DateTimeFieldFilter.get_q] makes of the cleaned list. *)
Definition datetime_list_q (q : qualifier) (invert : bool) (partial : string)
           (self : filter) (l : list pyval) : result Q :=
  if negb (count_types l =? 1)%nat then Raise (ValidationError (msg_types self))
  else match l with
       | first :: _ =>
           Ok (mkQ invert
                 (q_key partial self
                    (if is_bare_date first then Some ("date__" ++ qualifier_str q) else q))
                 (VList l))
       | [] => Raise IndexError
       end.

(** What [FieldFilter.get_q] makes of the one cleaned value. *)
Definition single_q (q : qualifier) (invert : bool) (partial : string)
           (self : filter) (r : result pyval) : result Q :=
  match r with
  | Ok c => Ok (mkQ invert (q_key partial self q) c)
  | Raise IndexError => Raise (ValidationError (msg_empty self))
  | Raise e => Raise e
  end.

(** The qualifier [DateTimeFieldFilter.get_q] goes on with after one
    cleaned value. *)
Definition date_qualifier (q : qualifier) (cleaned_value : pyval) : qualifier :=
  if is_bare_date cleaned_value
  then (if qual_truthy q then Some ("date__" ++ qualifier_str q) else Some "date")
  else q.

(** The attribute [_field_filter] of a filter on [f] of class [c] holds
    nothing, or what [get_field_filter] found for the base field. *)
Definition cache_ok (f : Field) (c : filter_cls) (cache : option filter_cls) : Prop :=
  c = ArrayFieldFilter ->
  forall base, base_field f = Some base ->
               cache = None \/ cache = find_field_filter (field_class base).

(** The zones [time_re] lets through. *)
Inductive zone_text : string -> Prop :=
| zone_Z : zone_text "Z"
| zone_HH sign a b :
    In sign ["+"; "-"]%char ->
    PyStr.all_digits (String a (String b "")) = true ->
    zone_text (String sign (String a (String b "")))
| zone_HHMM sign a b c d :
    In sign ["+"; "-"]%char ->
    PyStr.all_digits (String a (String b (String c (String d "")))) = true ->
    zone_text (String sign (String a (String b (String c (String d ""))))).

(** The fraction group as a string: [microsecond or '']. *)
Definition fraction (f : option string) : string :=
  match f with
  | Some d => d
  | None => ""
  end.

(** The offset in minutes that a zone [+HH], [-HH], [+HHMM] or [-HHMM]
    stands for. *)
Definition zone_offset (z : string) : Z :=
  let off := (PyStr.digits_value 0 (PyStr.slice 1 3 z) * 60
              + PyStr.digits_value 0 (PyStr.slice 3 5 z))%Z in
  if PyStr.startswith "-" z then (- off)%Z else off.

(** [clean_value] returns a time or raises the validation error. *)
Definition returns_time_or_invalid `{Runtime} (self : filter) (q : qualifier)
           (v : string) : Prop :=
  (exists t, fst (clean_value q v self) = Ok (VTime t))
  \/ (exists msg, fst (clean_value q v self) = Raise (ValidationError msg)).

(** The number of digits in the fraction of [v], 0 when [time_re] finds
    none. *)
Definition fraction_digits (v : string) : nat :=
  match Re.time_re v with
  | Some (_, _, _, f, _) => String.length (fraction f)
  | None => 0
  end.

(** [get_q] refuses the empty raw value with the error "Value for filter
    ... may not be empty.". *)
Definition empty_value_refused `{Runtime} (self : filter) (q : qualifier) : Prop :=
  forall invert partial,
    fst (get_q q "" invert partial self) = Raise (ValidationError (msg_empty self)).

(** [clean_value] reads the empty raw value as the empty list. *)
Definition empty_is_empty_list `{Runtime} (self : filter) (q : qualifier) : Prop :=
  fst (clean_value q "" self) = Ok (VList []).

(* ================================================================== *)
(** ** History of a model instance *)

Module History.

Section Dict.
Context {A : Type}.

(** A Python [dict] with string keys: the items in the order of
    insertion, every key once. *)
Definition dict : Type := list (string * A).

(** [d[k]], [None] for [KeyError] *)
Fixpoint dict_get (d : dict) (k : string) : option A :=
  match d with
  | [] => None
  | (k', a) :: r => if String.eqb k' k then Some a else dict_get r k
  end.

(** [d[k] = a]: a key that is there keeps its place. *)
Fixpoint dict_set (d : dict) (k : string) (a : A) : dict :=
  match d with
  | [] => [(k, a)]
  | (k', a') :: r =>
      if String.eqb k' k then (k', a) :: r else (k', a') :: dict_set r k a
  end.

Definition keys (d : dict) : list string := map fst d.

End Dict.
Arguments dict A : clear implicits.

(** The kinds of field that [binder_concrete_fields_as_dict] tells apart. *)
Inductive field_kind := ForeignKeyKind | FileFieldKind | OtherKind.

(** A field of [instance._meta.get_fields()]. *)
Record meta_field := mkMetaField {
  mf_name : string;
  attname : string;
  concrete : bool;
  many_to_many : bool;
  kind : field_kind
}.

Section Instances.

(** The values of attributes, with [str(v)], [v != w] and the truth
    value [bool(v)]. *)
Context {V : Type} (py_str : V -> V) (py_ne : V -> V -> bool)
        (truthy : V -> bool).

(** Modelled from the spec: [history.NewInstanceField], the new-instance
    sentinel of the module [binder.history], which is not under [src/].
    A value of [instance._history] is the sentinel or the value of an
    attribute. *)
Inductive snapshot_value :=
| NewInstanceField
| Known (v : V).

(** [old_value != new_value]: the sentinel differs from every value of an
    attribute. *)
Definition differs (old_value : snapshot_value) (new_value : V) : bool :=
  match old_value with
  | NewInstanceField => true
  | Known v => py_ne v new_value
  end.

(** A model instance: its fields, [getattr(instance, attribute)],
    [instance.get_deferred_fields()], [instance.pk] and
    [instance._history]. *)
Record model_instance := mkInstance {
  get_fields : list meta_field;
  getattr : string -> V;
  get_deferred_fields : list string;
  pk : V;
  _history : dict snapshot_value
}.

Definition set_history (i : model_instance) (h : dict snapshot_value) : model_instance :=
  mkInstance (get_fields i) (getattr i) (get_deferred_fields i) (pk i) h.

(** Modelled from the spec: the change-record sink
    [history.change(entityType, pk, fieldName, old, new)] of the module
    [binder.history], which is not under [src/]; a call adds one record
    to the log. *)
Record change_record := mkChange {
  ch_sender : string;
  ch_pk : V;
  ch_field : string;
  ch_old : snapshot_value;
  ch_new : V
}.

(** Modelled from the spec: [history.change(sender, pk, field_name,
    old_value, new_value)], here the log with the new record at its
    end. *)
Definition change (log : list change_record) (sender : string) (pk : V)
           (field_name : string) (old_value : snapshot_value) (new_value : V)
  : list change_record :=
  (log ++ [mkChange sender pk field_name old_value new_value])%list.

(** [BinderModel.binder_concrete_fields_as_dict] *)
Definition binder_concrete_fields_as_dict (self : model_instance)
           (skip_deferred_fields : bool) : dict V :=
  fold_left
    (fun fields field =>
       if skip_deferred_fields
          && existsb (String.eqb (attname field)) (get_deferred_fields self)
       then fields
       else
         match kind field with
         | ForeignKeyKind =>
             dict_set fields (mf_name field) (getattr self (mf_name field ++ "_id"))
         | FileFieldKind =>
             dict_set fields (mf_name field) (py_str (getattr self (mf_name field)))
         | OtherKind =>
             dict_set fields (mf_name field) (getattr self (mf_name field))
         end)
    (List.filter (fun f => concrete f && negb (many_to_many f)) (get_fields self))
    [].

(** [history_obj_post_init] *)
Definition history_obj_post_init (instance : model_instance) : model_instance :=
  let instance :=
    set_history instance
      (map (fun kv => (fst kv, Known (snd kv)))
           (binder_concrete_fields_as_dict instance true)) in
  if negb (truthy (pk instance))
  then set_history instance
         (map (fun kv => (fst kv, NewInstanceField)) (_history instance))
  else instance.

(** One round of the loop of [history_obj_post_save]. *)
Definition post_save_step (sender : string)
           (st : list change_record * model_instance) (item : string * V)
  : list change_record * model_instance :=
  let (log, instance) := st in
  let (field_name, new_value) := item in
  match dict_get (_history instance) field_name with
  | Some old_value =>
      if differs old_value new_value
      then (change log sender (pk instance) field_name old_value new_value,
            set_history instance
              (dict_set (_history instance) field_name (Known new_value)))
      else (log, instance)
  | None => (log, instance)
  end.

(** [history_obj_post_save]: the log and the instance after the call. *)
Definition history_obj_post_save (sender : string) (instance : model_instance)
           (log : list change_record) : list change_record * model_instance :=
  fold_left (post_save_step sender)
            (binder_concrete_fields_as_dict instance false) (log, instance).

(** The records that [history_obj_post_save] adds for the items [d] when
    it starts from the snapshot [h]. *)
Definition emitted (sender : string) (pk : V) (h : dict snapshot_value)
           (d : dict V) : list change_record :=
  flat_map
    (fun item =>
       match dict_get h (fst item) with
       | Some old_value =>
           if differs old_value (snd item)
           then [mkChange sender pk (fst item) old_value (snd item)] else []
       | None => []
       end) d.

(** The snapshot after [history_obj_post_save] went over the items [d]. *)
Definition refreshed (h : dict snapshot_value) (d : dict V) : dict snapshot_value :=
  fold_left
    (fun h item =>
       match dict_get h (fst item) with
       | Some old_value =>
           if differs old_value (snd item)
           then dict_set h (fst item) (Known (snd item)) else h
       | None => h
       end) d h.

(** [field_name in instance._history] *)
Definition in_snapshot (h : dict snapshot_value) (field_name : string) : bool :=
  match dict_get h field_name with
  | Some _ => true
  | None => false
  end.

End Instances.

Arguments model_instance V : clear implicits.
Arguments snapshot_value V : clear implicits.
Arguments change_record V : clear implicits.

(** An animal with the fields of the test application, its values
    strings. *)
Module Sample.

Definition ne (a b : string) : bool := negb (String.eqb a b).
Definition truthy (a : string) : bool := negb (String.eqb a "").

Definition animal_fields : list meta_field :=
  [mkMetaField "id" "id" true false OtherKind;
   mkMetaField "name" "name" true false OtherKind;
   mkMetaField "zoo" "zoo_id" true false ForeignKeyKind;
   mkMetaField "costume" "costume" true true OtherKind].

(** A new animal: no primary key yet. *)
Definition scooby : model_instance string :=
  mkInstance animal_fields
    (fun a => if String.eqb a "name" then "Scooby"
              else if String.eqb a "zoo_id" then "3" else "")
    [] "" [].

(** The same animal when [save] has given it the primary key 7. *)
Definition scooby_saved : model_instance string :=
  mkInstance animal_fields
    (fun a => if String.eqb a "name" then "Scooby"
              else if String.eqb a "zoo_id" then "3"
              else if String.eqb a "id" then "7" else "")
    [] "7" (_history (history_obj_post_init (fun v => v) truthy scooby)).

End Sample.

End History.

(* ================================================================== *)
(** ** More notions for the filters *)

(** The suffix that a qualifier adds to the key. *)
Definition suffix_of (q : qualifier) : string :=
  match q with
  | Some s => "__" ++ s
  | None => ""
  end.

(** A bare date, or a list that starts with one. *)
Definition date_valued (v : pyval) : bool :=
  match v with
  | VDate _ => true
  | VList (VDate _ :: _) => true
  | _ => false
  end.

(** No character of [s] is [sep]. *)
Fixpoint no_sep (sep : ascii) (s : string) : bool :=
  match s with
  | EmptyString => true
  | String c r => negb (Ascii.eqb c sep) && no_sep sep r
  end.

Module MoreSamples.

Definition animal_alive : Field := mkField BooleanField "Animal" "alive" None.
Definition animal_nick : Field := mkField TextField "Animal" "nick" None.

End MoreSamples.

(* ================================================================== *)
(** ** [ChoiceEnum] and the case-folding fields

    The values of a [ChoiceEnum] are strings here, as its positional
    arguments are. *)

Module ChoiceEnum.
Import History.

Definition is_lower (c : ascii) : bool :=
  let n := nat_of_ascii c in (97 <=? n)%nat && (n <=? 122)%nat.

Definition is_upper (c : ascii) : bool :=
  let n := nat_of_ascii c in (65 <=? n)%nat && (n <=? 90)%nat.

Fixpoint string_map (f : ascii -> ascii) (s : string) : string :=
  match s with
  | EmptyString => EmptyString
  | String c r => String (f c) (string_map f r)
  end.

Fixpoint string_forall (p : ascii -> bool) (s : string) : bool :=
  match s with
  | EmptyString => true
  | String c r => p c && string_forall p r
  end.

(** [s.upper()] and [s.lower()] on ASCII. *)
Definition upper (s : string) : string :=
  string_map (fun c => if is_lower c then ascii_of_nat (nat_of_ascii c - 32) else c) s.

Definition lower (s : string) : string :=
  string_map (fun c => if is_upper c then ascii_of_nat (nat_of_ascii c + 32) else c) s.

(** The character class [[ /+-]]. *)
Definition is_separator (c : ascii) : bool :=
  existsb (Ascii.eqb c) [" "; "/"; "+"; "-"]%char.

(** [re.sub('[ /+-]', '_', k)] *)
Definition sub_separators (k : string) : string :=
  string_map (fun c => if is_separator c then "_"%char else c) k.

(** The key that [__init__] files the positional argument [k] under. *)
Definition key_of (k : string) : string :=
  if String.eqb k "" then "NONE" else upper (sub_separators k).

(** [ChoiceEnum.__init__]: the dict [self.items] as the loop leaves it,
    for the positional arguments [args] and the keyword arguments
    [kwargs]. *)
Definition init (args : list string) (kwargs : dict string) : dict string :=
  fold_left
    (fun items k =>
       if String.eqb k "" then dict_set items "NONE" ""
       else dict_set items (upper (sub_separators k)) k)
    args kwargs.

(** [self.items] after [__init__]: [self.__dict__.update(self.items)]
    makes every item an attribute of the object, so an item under the key
    [items] takes the place of the dict. *)
Definition items_attribute (args : list string) (kwargs : dict string)
  : dict string + string :=
  match dict_get (init args kwargs) "items" with
  | Some v => inr v
  | None => inl (init args kwargs)
  end.

(** [(v1, k1) <= (v2, k2)] on tuples of strings. *)
Definition pair_leb (a b : string * string) : bool :=
  match String.compare (fst a) (fst b) with
  | Lt => true
  | Eq => String.leb (snd a) (snd b)
  | Gt => false
  end.

Fixpoint insert_sorted (x : string * string) (l : list (string * string))
  : list (string * string) :=
  match l with
  | [] => [x]
  | y :: r => if pair_leb x y then x :: l else y :: insert_sorted x r
  end.

(** [sorted(l)]: the order on these pairs is total and two pairs that
    compare equal are equal, so every sort gives this list. *)
Definition sorted (l : list (string * string)) : list (string * string) :=
  fold_right insert_sorted [] l.

(** [ChoiceEnum.choices] *)
Definition choices (items : dict string) : list (string * string) :=
  sorted (map (fun kv => (snd kv, fst kv)) items).

(** [ChoiceEnum.name]; [value] and [default] may be [None]. *)
Definition name (items : dict string) (value default : option string)
  : result (option string) :=
  match value with
  | None => Ok default
  | Some value =>
      match find (fun kv => String.eqb (snd kv) value) items with
      | Some kv => Ok (Some (fst kv))
      | None => Raise ValueError
      end
  end.

(** [max(map(len, self.items.values()))]; [max] of nothing raises
    [ValueError]. *)
Definition max_length (items : dict string) : result nat :=
  match items with
  | [] => Raise ValueError
  | kv :: r =>
      Ok (fold_left (fun m kv => Nat.max m (String.length (snd kv))) r
                    (String.length (snd kv)))
  end.

(** The arguments that [ChoiceEnum.__call__] hands to [models.CharField]. *)
Record char_field := mkCharField {
  cf_choices : list (string * string);
  cf_max_length : nat
}.

(** [ChoiceEnum.__call__] on the object whose items are [items].  It
    reads [self.choices] and [self.items] from the object, where
    [self.__dict__.update(self.items)] has put every item: an item called
    [choices] stands in the place of the method, and calling this string
    is a [TypeError]; an item called [items] stands in the place of the
    dict, and asking this string for its [items] in [choices] is an
    [AttributeError]. *)
Definition call (items : dict string) : result char_field :=
  match dict_get items "choices" with
  | Some _ => Raise TypeError
  | None =>
      match dict_get items "items" with
      | Some _ => Raise AttributeError
      | None =>
          match max_length items with
          | Ok n => Ok (mkCharField (choices items) n)
          | Raise e => Raise e
          end
      end
  end.

(** The call [self.name(value, default)] on the object whose items are
    [items]: an item called [name] stands in the place of the method, and
    one called [items] in the place of the dict that the loop of [name]
    reads. *)
Definition name_on_object (items : dict string) (value default : option string)
  : result (option string) :=
  match dict_get items "name" with
  | Some _ => Raise TypeError
  | None =>
      match value with
      | None => Ok default
      | Some _ =>
          match dict_get items "items" with
          | Some _ => Raise AttributeError
          | None => name items value default
          end
      end
  end.

(** [UpperCaseCharField.get_prep_value] and
    [LowerCaseCharField.get_prep_value] on what [super().get_prep_value]
    returned. *)
Definition upper_get_prep_value (value : option string) : option string :=
  match value with
  | None => None
  | Some value => Some (upper value)
  end.

Definition lower_get_prep_value (value : option string) : option string :=
  match value with
  | None => None
  | Some value => Some (lower value)
  end.

Module Sample.

Definition status_names : list string := ["new"; "in progress"; ""; "on/off"].

(** [ChoiceEnum('new', 'in progress', '', 'on/off').items] *)
Definition status : dict string := init status_names [].

End Sample.

End ChoiceEnum.

(* ================================================================== *)
(** ** Notions for the history handlers *)

Module HistoryNotions.
Import History.
Section Notions.
Context {V : Type} (py_str : V -> V).

(** The value that [binder_concrete_fields_as_dict] files under the name
    of [field]. *)
Definition field_value (self : model_instance V) (field : meta_field) : V :=
  match kind field with
  | ForeignKeyKind => getattr self (mf_name field ++ "_id")
  | FileFieldKind => py_str (getattr self (mf_name field))
  | OtherKind => getattr self (mf_name field)
  end.

(** The fields that [binder_concrete_fields_as_dict] lets through. *)
Definition taken (self : model_instance V) (skip_deferred_fields : bool)
           (field : meta_field) : bool :=
  concrete field && negb (many_to_many field)
  && negb (skip_deferred_fields
           && existsb (String.eqb (attname field)) (get_deferred_fields self)).

End Notions.
End HistoryNotions.

(* ================================================================== *)
(** ** The other history handlers and their installation *)

Module Signals.
Import History.

(** Modelled from the spec: an argument of [history.change]: a value,
    [None], or [history.DeferredM2M], the sentinel of the module
    [binder.history] (not under [src/]) for a relation that changed. *)
Inductive change_arg (V : Type) :=
| ArgValue (v : V)
| ArgNone
| DeferredM2M.
Arguments ArgValue {V} v.
Arguments ArgNone {V}.
Arguments DeferredM2M {V}.

(** One call [history.change(sender, pk, field_name, old, new)]. *)
Record change_call (V : Type) := mkCall {
  call_sender : string;
  call_pk : V;
  call_field : string;
  call_old : change_arg V;
  call_new : change_arg V
}.
Arguments mkCall {V}.
Arguments call_sender {V}.
Arguments call_pk {V}.
Arguments call_field {V}.
Arguments call_old {V}.
Arguments call_new {V}.

(** A field with [field.remote_field.through], the name of the model of
    the join table; [getattr(model, field.name).through] is the same
    model. *)
Record relation_field := mkRelationField {
  rf_field : meta_field;
  through : string
}.

(** An instance as [history_obj_m2m_changed] reads it:
    [instance.__class__], [instance.id] and
    [instance._meta.get_fields()]. *)
Record m2m_instance (V : Type) := mkM2MInstance {
  class_name : string;
  id : V;
  m2m_get_fields : list relation_field
}.
Arguments mkM2MInstance {V}.
Arguments class_name {V}.
Arguments id {V}.
Arguments m2m_get_fields {V}.

(** [history_obj_m2m_changed]: the log after the call, or the
    [IndexError] of [[...][0]]. *)
Definition history_obj_m2m_changed {V} (sender : string)
           (instance : m2m_instance V) (action : string) (reverse : bool)
           (log : list (change_call V)) : result (list (change_call V)) :=
  if reverse
     || negb (existsb (String.eqb action) ["pre_add"; "pre_remove"; "pre_clear"])
  then Ok log
  else
    match index0 (List.filter
                    (fun f => concrete (rf_field f) && many_to_many (rf_field f)
                              && String.eqb (through f) sender)
                    (m2m_get_fields instance)) with
    | Ok field =>
        Ok (log ++ [mkCall (class_name instance) (id instance)
                           (mf_name (rf_field field)) DeferredM2M DeferredM2M])%list
    | Raise e => Raise e
    end.

(** A model class as [install_history_signal_handlers] reads it: its
    name, the value of the expression [model.Meta.abstract],
    [model.Binder.history], [model._meta.get_fields()] and
    [model.__subclasses__()].  [meta_abstract] is what the attribute
    holds at the call, not whether the class was declared abstract:
    Django's [ModelBase] sets [Meta.abstract] back to [False] on an
    abstract class once it has built it, so the attribute reads [False] on
    every class that Django built. *)
Inductive model_class :=
| mkModelClass (model_name : string) (meta_abstract : bool) (binder_history : bool)
               (model_fields : list relation_field)
               (subclasses : list model_class).

Definition mc_name (m : model_class) : string :=
  match m with mkModelClass n _ _ _ _ => n end.
Definition meta_abstract (m : model_class) : bool :=
  match m with mkModelClass _ a _ _ _ => a end.
Definition binder_history (m : model_class) : bool :=
  match m with mkModelClass _ _ h _ _ => h end.
Definition model_fields (m : model_class) : list relation_field :=
  match m with mkModelClass _ _ _ f _ => f end.
Definition mc_subclasses (m : model_class) : list model_class :=
  match m with mkModelClass _ _ _ _ s => s end.

Inductive signal := PostInit | PostSave | PostDelete | M2MChanged.

(** One call [signal.connect(handler, sender)]; each signal gets the one
    handler of this module. *)
Record connection := mkConnection { conn_signal : signal; conn_sender : string }.

(** The calls of [connect] for one model that is tracked. *)
Definition connect_model (model : model_class) : list connection :=
  ([mkConnection PostInit (mc_name model);
   mkConnection PostSave (mc_name model);
   mkConnection PostDelete (mc_name model)]
  ++ map (fun field => mkConnection M2MChanged (through field))
         (List.filter (fun field => many_to_many (rf_field field)
                                    && concrete (rf_field field))
                      (model_fields model)))%list.

(** [install_history_signal_handlers] on a model that is not [None]: the
    calls of [connect] in their order. *)
Fixpoint install (model : model_class) : list connection :=
  match model with
  | mkModelClass _ abstract history _ subs =>
      ((if negb abstract && history then connect_model model else [])
       ++ flat_map install subs)%list
  end.

(** [install_history_signal_handlers] *)
Definition install_history_signal_handlers (model : option model_class)
  : list connection :=
  match model with
  | None => []
  | Some model => install model
  end.

(** The model and the classes below it, a class before its subclasses. *)
Fixpoint descendants (model : model_class) : list model_class :=
  match model with
  | mkModelClass _ _ _ _ subs => model :: flat_map descendants subs
  end.

(** A model that gets the handlers: [Meta.abstract] reads false and
    [Binder.history] is set. *)
Definition tracked (model : model_class) : bool :=
  negb (meta_abstract model) && binder_history model.

Module Sample.

Definition costumes : relation_field :=
  mkRelationField (mkMetaField "costumes" "costumes" true true OtherKind)
                  "Animal_costumes".

Definition nickname : relation_field :=
  mkRelationField (mkMetaField "nickname" "nickname" true false OtherKind) "".

Definition lion : model_class :=
  mkModelClass "Lion" false true [nickname] [].

Definition animal : model_class :=
  mkModelClass "Animal" false true [nickname; costumes] [lion].

Definition zoo : model_class :=
  mkModelClass "Zoo" false false [] [].

(** An abstract class with [Binder.history]: Django has built it, so its
    [Meta.abstract] reads [False]. *)
Definition tracked_model : model_class :=
  mkModelClass "TrackedModel" false true [] [animal].

(** [BinderModel] with the classes below it: [Meta.abstract] reads
    [False] here too, and [Binder.history] is [False]. *)
Definition base : model_class :=
  mkModelClass "BinderModel" false false [] [tracked_model; zoo].

Definition scooby : m2m_instance string :=
  mkM2MInstance "Animal" "7" [nickname; costumes].

End Sample.

End Signals.

(* ================================================================== *)
(** ** [BinderModel.full_clean] *)

Module FullClean.
Import History.

(** A field of [self._meta.fields] as [full_clean] reads it:
    [isinstance(f, (CharField, TextField, BooleanField))],
    [isinstance(f, ForeignKey)], [f.blank] and [f.null]. *)
Record clean_field := mkCleanField {
  cf_name : string;
  is_char_text_boolean : bool;
  is_foreign_key : bool;
  blank : bool;
  null : bool
}.

(** [field_needs_nullability_check] *)
Definition field_needs_nullability_check (field : clean_field) : bool :=
  if is_char_text_boolean field
  then (if blank field && negb (null field) then true else false)
  else false.

Section Clean.

(** Values of attributes with [v is None]; error objects, with the
    [ValidationError('This field cannot be null.', code='null')] that
    [full_clean] makes; what [super().full_clean] returns. *)
Context {V E R : Type} (py_str : V -> V) (is_none : V -> bool) (null_error : E).

(** A [ValidationError] as [full_clean] reads it: its [error_dict], or
    else its [error_list]. *)
Inductive validation_error :=
| ErrorDict (error_dict : dict (list E))
| ErrorList (error_list : list E).

(** How [super().full_clean] ends: it returns, or it raises a
    [ValidationError]; an exception of another class passes through
    [full_clean] and is left out. *)
Inductive super_result :=
| SuperReturned (res : R)
| SuperRaised (ve : validation_error).

(** How [full_clean] ends: it returns [res], raises
    [ValidationError(validation_errors)], or reads [res] that was never
    bound. *)
Inductive clean_result :=
| Returned (res : R)
| RaisedValidationError (validation_errors : dict (list E))
| RaisedUnboundLocalError.

(** The model as [full_clean] reads it: the instance, [self._meta.fields]
    and [self.field_changed] when the class has it. *)
Record clean_model := mkCleanModel {
  instance : model_instance V;
  meta_fields : list clean_field;
  field_changed : option (string -> bool)
}.

(** [validation_errors[key] += value] on a [defaultdict(list)] *)
Definition errors_extend (validation_errors : dict (list E)) (key : string)
           (value : list E) : dict (list E) :=
  dict_set validation_errors key
    (match dict_get validation_errors key with
     | Some l => l
     | None => []
     end ++ value)%list.

(** The [exclude] that [full_clean] hands to [super().full_clean]: with
    [field_changed], the given names and every loaded concrete field that
    [field_requires_clean_validation] turns down. *)
Definition clean_exclude (self : clean_model) (exclude : option (list string))
  : option (list string) :=
  match field_changed self with
  | Some field_changed =>
      let exclude := match exclude with
                     | Some names => names
                     | None => []
                     end in
      Some (fold_left
              (fun exclude f => if negb (field_changed f) then (exclude ++ [f])%list
                                else exclude)
              (keys (binder_concrete_fields_as_dict py_str (instance self) true))
              exclude)
  | None => exclude
  end.

(** The errors that the [except] clause collects. *)
Definition collect (ve : validation_error) : dict (list E) :=
  match ve with
  | ErrorDict error_dict =>
      fold_left (fun errors item => errors_extend errors (fst item) (snd item))
                error_dict []
  | ErrorList error_list =>
      fold_left (fun errors e => errors_extend errors "null" [e]) error_list []
  end.

(** The second loop: the check for [None] in fields that may not be. *)
Definition null_checks (self : clean_model) (validation_errors : dict (list E))
  : dict (list E) :=
  fold_left
    (fun errors f =>
       if field_needs_nullability_check f then
         let name := cf_name f ++ (if is_foreign_key f then "_id" else "") in
         if is_none (getattr (instance self) name)
            && is_none (getattr (instance self) (cf_name f))
         then errors_extend errors (cf_name f) [null_error]
         else errors
       else errors)
    (meta_fields self) validation_errors.

(** [BinderModel.full_clean] *)
Definition full_clean (super_full_clean : option (list string) -> super_result)
           (self : clean_model) (exclude : option (list string)) : clean_result :=
  let exclude := clean_exclude self exclude in
  let outcome := super_full_clean exclude in
  let validation_errors :=
    match outcome with
    | SuperReturned _ => []
    | SuperRaised ve => collect ve
    end in
  let validation_errors := null_checks self validation_errors in
  match validation_errors with
  | _ :: _ => RaisedValidationError validation_errors
  | [] =>
      match outcome with
      | SuperReturned res => Returned res
      | SuperRaised _ => RaisedUnboundLocalError
      end
  end.

(** The field [f] holds [None] where it may not. *)
Definition null_violation (self : clean_model) (f : clean_field) : bool :=
  field_needs_nullability_check f
  && is_none (getattr (instance self)
                      (cf_name f ++ (if is_foreign_key f then "_id" else "")))
  && is_none (getattr (instance self) (cf_name f)).

(** The error [e] is filed under [key]. *)
Definition has_error (validation_errors : dict (list E)) (key : string) (e : E)
  : Prop :=
  exists es, dict_get validation_errors key = Some es /\ In e es.

(** The error [e] of [ve] goes under [key]. *)
Definition raised_error (ve : validation_error) (key : string) (e : E) : Prop :=
  match ve with
  | ErrorDict error_dict => exists es, In (key, es) error_dict /\ In e es
  | ErrorList error_list => key = "null" /\ In e error_list
  end.

(** [ve] carries no error at all: an empty [error_dict] or an empty
    [error_list]. *)
Definition empty_error (ve : validation_error) : bool :=
  match ve with
  | ErrorDict [] | ErrorList [] => true
  | _ => false
  end.

End Clean.

(** How [save] ends: with what [super().save] gives, or as [full_clean]
    raised. *)
Definition save {V E R S : Type} (py_str : V -> V) (is_none : V -> bool)
           (null_error : E)
           (super_full_clean : option (list string) -> super_result (E:=E) (R:=R))
           (super_save : S) (self : clean_model (V:=V))
  : clean_result (E:=E) (R:=S) :=
  match full_clean py_str is_none null_error super_full_clean self None with
  | Returned _ => Returned super_save
  | RaisedValidationError validation_errors =>
      RaisedValidationError validation_errors
  | RaisedUnboundLocalError => RaisedUnboundLocalError
  end.

Module Sample.

Definition is_none (v : option string) : bool :=
  match v with
  | None => true
  | Some _ => false
  end.

Definition name_field : clean_field := mkCleanField "name" true false true false.
Definition zoo_field : clean_field := mkCleanField "zoo" false true false false.

Definition animal_fields : list meta_field :=
  [mkMetaField "name" "name" true false OtherKind;
   mkMetaField "zoo" "zoo_id" true false ForeignKeyKind].

(** An animal without a name, of a class without [field_changed]. *)
Definition nameless : clean_model (V:=option string) :=
  mkCleanModel
    (mkInstance animal_fields
       (fun a => if String.eqb a "zoo_id" then Some "3" else None) [] None [])
    [name_field; zoo_field] None.

(** An animal with a name, of a class with [field_changed]: the name
    changed, the zoo did not. *)
Definition named : clean_model (V:=option string) :=
  mkCleanModel
    (mkInstance animal_fields
       (fun a => if String.eqb a "zoo_id" then Some "3"
                 else if String.eqb a "name" then Some "Scooby" else None)
       [] (Some "7") [])
    [name_field; zoo_field] (Some (String.eqb "name")).

(** A [super().full_clean] that finds nothing, one that raises an error
    for [name], and one that raises a [ValidationError] without any
    error. *)
Definition accepts (exclude : option (list string))
  : super_result (E:=string) (R:=unit) := SuperReturned tt.

Definition rejects (exclude : option (list string))
  : super_result (E:=string) (R:=unit) :=
  SuperRaised (ErrorDict [("name", ["too long"])]).

Definition rejects_empty (exclude : option (list string))
  : super_result (E:=string) (R:=unit) := SuperRaised (ErrorDict []).

End Sample.

End FullClean.

(* ================================================================== *)
(** ** [BinderModel.binder_serialize_m2m_field] *)

Module SerializeM2M.
Import History.

Section Serialize.
Context {V : Type}.

(** The dict [d] without the key [k]. *)
Definition dict_remove (d : dict V) (k : string) : dict V :=
  List.filter (fun kv => negb (String.eqb (fst kv) k)) d.

(** [d.pop(k)]: the value and the dict after the call, or [KeyError]. *)
Definition dict_pop (d : dict V) (k : string) : result (V * dict V) :=
  match dict_get d k with
  | Some v => Ok (v, dict_remove d k)
  | None => Raise (OtherError "KeyError")
  end.

(** One round of the loop over [data]: the row after it. *)
Definition rename_row (source target : string) (d : dict V) : result (dict V) :=
  match dict_pop d "id" with
  | Raise e => Raise e
  | Ok (_, d) =>
      match dict_pop d (source ++ "_id") with
      | Raise e => Raise e
      | Ok (_, d) =>
          match dict_pop d (target ++ "_id") with
          | Raise e => Raise e
          | Ok (v, d) => Ok (dict_set d "id" v)
          end
      end
  end.

(** The relation as the method reads it, after [getattr(self, field)]
    for a name: [field.through.binder_is_binder_model] ([False] when the
    attribute is missing), [field.values_list('id', flat=True)], the rows
    [field.through.objects.filter(...).values()], [field.source_field.name]
    and [field.target_field.name]. *)
Record related_manager := mkManager {
  extended_m2m : bool;
  values_list_id : list V;
  through_values : list (dict V);
  source_field_name : string;
  target_field_name : string
}.

(** What the method returns: a set of ids, or a set of rows. *)
Inductive serialized :=
| IdSet (ids : list V)
| RowSet (rows : list (list (string * V))).

(** [BinderModel.binder_serialize_m2m_field].  The last line builds a set
    of the lists [sorted(d.items())]; a list cannot be hashed, so the
    first row raises [TypeError] there. *)
Definition binder_serialize_m2m_field (field : related_manager) : result serialized :=
  if negb (extended_m2m field) then Ok (IdSet (values_list_id field))
  else
    match map_result (rename_row (source_field_name field) (target_field_name field))
                     (through_values field) with
    | Raise e => Raise e
    | Ok data =>
        match data with
        | [] => Ok (RowSet [])
        | _ :: _ => Raise TypeError
        end
    end.

(** The row has the three keys that the loop pops, the last two under
    different names. *)
Definition poppable (source target : string) (d : dict V) : bool :=
  match dict_get d "id", dict_get d (source ++ "_id"), dict_get d (target ++ "_id") with
  | Some _, Some _, Some _ => negb (String.eqb (source ++ "_id") (target ++ "_id"))
  | _, _, _ => false
  end.

End Serialize.

Module Sample.

(** The join table of animals and costumes with one row. *)
Definition costumes : related_manager (V:=string) :=
  mkManager true ["4"]
            [[("id", "1"); ("animal_id", "7"); ("costume_id", "4"); ("size", "L")]]
            "animal" "costume".

End Sample.

End SerializeM2M.

(* ================================================================== *)
(** ** Examples *)

Example split_abc : PyStr.split "," "a,b,c" = ["a"; "b"; "c"].
Proof. reflexivity. Qed.

Example split_empty : PyStr.split "," "" = [""].
Proof. reflexivity. Qed.

Example split_trailing : PyStr.split "," "a," = ["a"; ""].
Proof. reflexivity. Qed.

Example int_examples :
  PyStr.int " 12 " = Some 12%Z /\ PyStr.int "-007" = Some (-7)%Z /\
  PyStr.int "1_000" = Some 1000%Z /\ PyStr.int "" = None /\
  PyStr.int "1__0" = None /\ PyStr.int "12a" = None /\ PyStr.int "- 1" = None.
Proof. repeat split; reflexivity. Qed.

Example date_re_ok : Re.date_re "2020-02-30" = true.
Proof. reflexivity. Qed.

Example date_re_short : Re.date_re "2020-2-30" = false.
Proof. reflexivity. Qed.

Example datetime_re_ok :
  Re.datetime_re "2020-01-02T03:04:05.678+0100" = true /\
  Re.datetime_re "2020-01-02 03:04:05Z" = true /\
  Re.datetime_re "2020-01-02T03:04:05" = false /\
  Re.datetime_re "2020-01-02" = false.
Proof. repeat split; reflexivity. Qed.

Example time_re_groups :
  Re.time_re "12:34:56.5+01" = Some ("12", "34", "56", Some "5", "+01") /\
  Re.time_re "12:34:56Z" = Some ("12", "34", "56", None, "Z") /\
  Re.time_re "12:34:56-0130" = Some ("12", "34", "56", None, "-0130") /\
  Re.time_re "12:34:56+013" = None /\
  Re.time_re "12:34:56" = None.
Proof. repeat split; reflexivity. Qed.

Example find_field_filter_fk : find_field_filter ForeignKey = Some IntegerFieldFilter.
Proof. reflexivity. Qed.

Example find_field_filter_other : find_field_filter (OtherField "EmailField") = None.
Proof. reflexivity. Qed.

Example get_q_icontains :
  fst (get_q (RT := Sample.runtime) (Some "icontains") "duck" true ""
             (new_filter TextFieldFilter Sample.animal_name))
  = Ok (mkQ true "name__icontains" (VStr "duck")).
Proof. reflexivity. Qed.

Example get_q_in_int :
  fst (get_q (RT := Sample.runtime) (Some "in") "3,1,2" false "zoo__"
             (new_filter IntegerFieldFilter Sample.animal_id))
  = Ok (mkQ false "zoo__id__in" (VList [VInt 3; VInt 1; VInt 2])).
Proof. reflexivity. Qed.

Example get_q_date_gt :
  fst (get_q (RT := Sample.runtime) (Some "gt") "2020-02-29" false ""
             (new_filter DateTimeFieldFilter Sample.animal_birth))
  = Ok (mkQ false "birth__date__gt" (VDate (mkDate 2020 2 29))).
Proof. reflexivity. Qed.

Example get_q_datetime_eq :
  fst (get_q (RT := Sample.runtime) None "2020-02-29T10:00:00+01" false ""
             (new_filter DateTimeFieldFilter Sample.animal_birth))
  = Ok (mkQ false "birth"
          (VDateTime (mkDateTime (mkDate 2020 2 29)
                        (mkTime 10 0 0 0 (Some (FixedOffset 60)))))).
Proof. reflexivity. Qed.

Example clean_value_array :
  fst (clean_value (RT := Sample.runtime) (Some "contains") "1,2"
                   (new_filter ArrayFieldFilter Sample.animal_tags))
  = Ok (VList [VInt 1; VInt 2]).
Proof. reflexivity. Qed.

Example clean_value_boolean_maybe :
  fst (clean_value (RT := Sample.runtime) None "maybe"
         (new_filter BooleanFieldFilter (mkField BooleanField "Animal" "tame" None)))
  = Raise (ValidationError "Invalid value {maybe} for BooleanField {Animal}.{tame}.").
Proof. reflexivity. Qed.

(* ================================================================== *)
(** ** Basic facts *)

Lemma qual_in_true (q : qualifier) (l : list qualifier) :
  In q l -> qual_in q l = true.
Proof.
  intros H. unfold qual_in. destruct (in_dec qualifier_eq_dec q l); [reflexivity | contradiction].
Qed.

Lemma qual_in_false (q : qualifier) (l : list qualifier) :
  ~ In q l -> qual_in q l = false.
Proof.
  intros H. unfold qual_in. destruct (in_dec qualifier_eq_dec q l); [contradiction | reflexivity].
Qed.

Lemma qual_in_false_inv (q : qualifier) (l : list qualifier) :
  qual_in q l = false -> ~ In q l.
Proof.
  unfold qual_in. destruct (in_dec qualifier_eq_dec q l); [discriminate | auto].
Qed.

Lemma split_not_nil (sep : ascii) (s : string) : PyStr.split sep s <> [].
Proof.
  induction s as [|c r IH]; simpl; [discriminate|].
  destruct (Ascii.eqb c sep); [discriminate|].
  destruct (PyStr.split sep r); [contradiction | discriminate].
Qed.

Lemma check_qualifier_state (q : qualifier) (self : filter) :
  snd (check_qualifier q self) = self.
Proof.
  unfold check_qualifier. destruct (negb _); reflexivity.
Qed.

Lemma check_qualifier_allowed (q : qualifier) (self : filter) :
  In q (allowed_qualifiers (cls self)) -> check_qualifier q self = (Ok tt, self).
Proof.
  intros H. unfold check_qualifier. rewrite (qual_in_true _ _ H). reflexivity.
Qed.

Lemma check_qualifier_refused (q : qualifier) (self : filter) :
  ~ In q (allowed_qualifiers (cls self)) ->
  check_qualifier q self = (Raise (BinderRequestError (msg_qualifier q self)), self).
Proof.
  intros H. unfold check_qualifier. rewrite (qual_in_false _ _ H). reflexivity.
Qed.

(** Both [get_q] start with [check_qualifier]. *)
Lemma get_q_refused `{Runtime} (q : qualifier) (value : string) (invert : bool)
      (partial : string) (self : filter) :
  ~ In q (allowed_qualifiers (cls self)) ->
  get_q q value invert partial self
  = (Raise (BinderRequestError (msg_qualifier q self)), self).
Proof.
  intros Hq. unfold get_q, FieldFilter_get_q, DateTimeFieldFilter_get_q, bind.
  rewrite (check_qualifier_refused _ _ Hq).
  destruct (cls self); reflexivity.
Qed.

(** C2. For every field kind and every qualifier that is not in the kind's
    [allowed_qualifiers], [check_qualifier] raises the request error
    "Qualifier <q> not supported for type <filter class> (<field class>
    {<model>}.{<field>})."; [get_q] raises the same error whatever the raw
    value is, so before any splitting or cleaning; and [check_qualifier]
    leaves the filter object as it was, for every qualifier. *)
Theorem check_qualifier_unsupported `{Runtime} (self : filter) (q : qualifier) :
  ~ In q (allowed_qualifiers (cls self)) ->
  let msg := "Qualifier " ++ qualifier_str q ++ " not supported for type " ++
             filter_cls_name (cls self) ++ " (" ++
             (field_cls_name (field_class (field self)) ++ " {" ++
              model_name (field self) ++ "}.{" ++ name (field self) ++ "}") ++
             ")." in
  check_qualifier q self = (Raise (BinderRequestError msg), self)
  /\ (forall value invert partial,
         get_q q value invert partial self = (Raise (BinderRequestError msg), self))
  /\ (forall q', snd (check_qualifier q' self) = self).
Proof.
  intros Hq msg.
  assert (Hmsg : msg = msg_qualifier q self).
  { reflexivity. }
  rewrite Hmsg. repeat split.
  - apply check_qualifier_refused; assumption.
  - intros. apply get_q_refused; assumption.
  - intros. apply check_qualifier_state.
Qed.

Lemma check_qualifier_unsupported_witness :
  let self := new_filter BooleanFieldFilter (mkField BooleanField "Animal" "tame" None) in
  ~ In (Some "gt") (allowed_qualifiers (cls self)) /\
  check_qualifier (Some "gt") self
  = (Raise (BinderRequestError
       "Qualifier gt not supported for type BooleanFieldFilter (BooleanField {Animal}.{tame})."),
     self).
Proof.
  intros self.
  assert (Hq : ~ In (Some "gt") (allowed_qualifiers (cls self))).
  { simpl. intros [Hq | []]. discriminate Hq. }
  split; [exact Hq|].
  exact (proj1 (check_qualifier_unsupported (H := Sample.runtime) self (Some "gt") Hq)).
Defined.

(** C4. For every field kind whose [allowed_qualifiers] contain ['isnull']
    and every raw value, [get_q] with the qualifier ['isnull'] returns the
    predicate [<partial><name>__isnull = True] (negated when [invert] is
    set); the raw value has no part in the result, no [clean_value] runs
    and no error is raised, whatever the runtime's parsers do. *)
Theorem get_q_isnull `{Runtime} (self : filter) (value : string) (invert : bool)
        (partial : string) :
  In (Some "isnull") (allowed_qualifiers (cls self)) ->
  get_q (Some "isnull") value invert partial self
  = (Ok (mkQ invert (partial ++ name (field self) ++ "__isnull") (VBool true)), self).
Proof.
  intros Hq. unfold get_q, FieldFilter_get_q, DateTimeFieldFilter_get_q, bind.
  rewrite (check_qualifier_allowed _ _ Hq).
  destruct (cls self); reflexivity.
Qed.

Lemma get_q_isnull_witness :
  get_q (RT := Sample.runtime) (Some "isnull") "no boolean at all" true "zoo__"
        (new_filter IntegerFieldFilter Sample.animal_id)
  = (Ok (mkQ true "zoo__id__isnull" (VBool true)),
     new_filter IntegerFieldFilter Sample.animal_id).
Proof.
  apply (get_q_isnull (H := Sample.runtime)
           (new_filter IntegerFieldFilter Sample.animal_id)).
  simpl. tauto.
Defined.

(* ================================================================== *)
(** ** What [get_q] computes, case by case *)

Lemma clean_value_state `{Runtime} (q : qualifier) (v : string) (self : filter) :
  cls self <> ArrayFieldFilter -> clean_value q v self = (fst (clean_value q v self), self).
Proof.
  destruct self as [c [fc m n b] cache]. simpl. intros Hc.
  unfold clean_value. simpl.
  destruct c; try reflexivity. contradiction.
Qed.

(** [clean_value] changes [self._field_filter] at most. *)
Lemma clean_value_same_field `{Runtime} (q : qualifier) (v : string) (self : filter) :
  cls (snd (clean_value q v self)) = cls self
  /\ field (snd (clean_value q v self)) = field self.
Proof.
  unfold clean_value. destruct (clean_value_rec _ _ _ _ _). split; reflexivity.
Qed.

Lemma map_state_clean_value `{Runtime} (q : qualifier) (values : list string)
      (self : filter) :
  cls self <> ArrayFieldFilter ->
  map_state (clean_value q) values self = (cleaned_list q values self, self).
Proof.
  intros Hc. unfold cleaned_list.
  induction values as [|v r IH]; simpl; [reflexivity|].
  rewrite (clean_value_state q v self Hc). simpl.
  destruct (fst (clean_value q v self)); [|reflexivity].
  rewrite IH. reflexivity.
Qed.

Lemma qual_multi_cases (q : qualifier) :
  qual_multi q = true -> q = Some "in" \/ q = Some "range".
Proof.
  unfold qual_multi, qual_is. destruct q as [s|]; [|discriminate].
  intros Hq. apply orb_true_iff in Hq as [Hq | Hq]; apply String.eqb_eq in Hq; subst; auto.
Qed.

Lemma multi_allowed_not_array (q : qualifier) (c : filter_cls) :
  qual_multi q = true -> In q (allowed_qualifiers c) -> c <> ArrayFieldFilter.
Proof.
  intros Hm Hin ->. destruct (qual_multi_cases _ Hm) as [-> | ->];
    simpl in Hin; intuition discriminate.
Qed.

(** [FieldFilter.get_q] on ['in'] and ['range']. *)
Lemma FieldFilter_get_q_multi `{Runtime} (q : qualifier) (raw : string)
      (invert : bool) (partial : string) (self : filter) :
  In q (allowed_qualifiers (cls self)) ->
  qual_multi q = true ->
  count_ok q (PyStr.split "," raw) ->
  FieldFilter_get_q q raw invert partial self
  = (result_map (fun l => mkQ invert (q_key partial self q) (VList l))
       (cleaned_list q (PyStr.split "," raw) self), self).
Proof.
  intros Hq Hm Hn.
  pose proof (multi_allowed_not_array _ _ Hm Hq) as Hc.
  unfold FieldFilter_get_q, bind.
  rewrite (check_qualifier_allowed _ _ Hq), Hm.
  assert (Hr : qual_is q "range" && negb (length (PyStr.split "," raw) =? 2)%nat = false).
  { destruct (qual_multi_cases _ Hm) as [-> | ->]; [reflexivity|].
    rewrite (Hn eq_refl). reflexivity. }
  rewrite Hr.
  assert (Hi : qual_is q "isnull" = false).
  { destruct (qual_multi_cases _ Hm) as [-> | ->]; reflexivity. }
  rewrite Hi. unfold ret at 1.
  rewrite (map_state_clean_value _ _ _ Hc).
  destruct (cleaned_list q (PyStr.split "," raw) self); reflexivity.
Qed.

(** [DateTimeFieldFilter.get_q] on ['in'] and ['range']. *)
Lemma DateTimeFieldFilter_get_q_multi `{Runtime} (q : qualifier) (raw : string)
      (invert : bool) (partial : string) (self : filter) :
  In q (allowed_qualifiers (cls self)) ->
  qual_multi q = true ->
  count_ok q (PyStr.split "," raw) ->
  DateTimeFieldFilter_get_q q raw invert partial self
  = (match cleaned_list q (PyStr.split "," raw) self with
     | Ok l => datetime_list_q q invert partial self l
     | Raise e => Raise e
     end, self).
Proof.
  intros Hq Hm Hn.
  pose proof (multi_allowed_not_array _ _ Hm Hq) as Hc.
  unfold DateTimeFieldFilter_get_q, bind.
  rewrite (check_qualifier_allowed _ _ Hq), Hm.
  assert (Hr : qual_is q "range" && negb (length (PyStr.split "," raw) =? 2)%nat = false).
  { destruct (qual_multi_cases _ Hm) as [-> | ->]; [reflexivity|].
    rewrite (Hn eq_refl). reflexivity. }
  rewrite Hr.
  assert (Hi : qual_is q "isnull" = false).
  { destruct (qual_multi_cases _ Hm) as [-> | ->]; reflexivity. }
  rewrite Hi. unfold ret at 1.
  rewrite (map_state_clean_value _ _ _ Hc).
  destruct (cleaned_list q (PyStr.split "," raw) self) as [l|e]; [|reflexivity].
  unfold datetime_list_q.
  destruct (negb (count_types l =? 1)%nat); [reflexivity|].
  destruct l as [|first r]; [reflexivity|].
  unfold lift, index0. destruct (is_bare_date first); reflexivity.
Qed.

(** Both [get_q] on ['range'] with another count than two. *)
Lemma get_q_range_count `{Runtime} (raw : string) (invert : bool)
      (partial : string) (self : filter) :
  In (Some "range") (allowed_qualifiers (cls self)) ->
  length (PyStr.split "," raw) <> 2%nat ->
  get_q (Some "range") raw invert partial self
  = (Raise (BinderRequestError (msg_range self)), self).
Proof.
  intros Hq Hlen. unfold get_q, FieldFilter_get_q, DateTimeFieldFilter_get_q, bind.
  rewrite (check_qualifier_allowed _ _ Hq).
  apply Nat.eqb_neq in Hlen. simpl. rewrite Hlen. simpl.
  destruct (cls self); reflexivity.
Qed.

Lemma cleaned_list_two `{Runtime} (q : qualifier) (lower upper : string)
      (self : filter) (l : list pyval) :
  cleaned_list q [lower; upper] self = Ok l ->
  exists cl cu,
    fst (clean_value q lower self) = Ok cl
    /\ fst (clean_value q upper self) = Ok cu /\ l = [cl; cu].
Proof.
  unfold cleaned_list. simpl.
  destruct (fst (clean_value q lower self)) as [cl|]; [|discriminate].
  destruct (fst (clean_value q upper self)) as [cu|]; [|discriminate].
  simpl. intros [= <-]. eauto.
Qed.

Lemma get_q_cases `{Runtime} (q : qualifier) (raw : string) (invert : bool)
      (partial : string) (self : filter) :
  get_q q raw invert partial self
  = if filter_cls_eq_dec (cls self) DateTimeFieldFilter
    then DateTimeFieldFilter_get_q q raw invert partial self
    else FieldFilter_get_q q raw invert partial self.
Proof.
  unfold get_q. destruct (cls self); reflexivity.
Qed.

(** C3. For every filter and the qualifier ['range']: whenever [get_q]
    returns a predicate, the raw value split on [","] into exactly two
    elements and the predicate's value is the list of the first element
    cleaned followed by the second element cleaned, in the order of the
    input; for every filter whose kind allows ['range'], a raw value that
    does not split into exactly two elements (one element, three
    elements, any other count) makes [get_q] raise the request error
    "Range requires exactly 2 values for <field>."; and a raw value that
    splits into two elements which [clean_value] both accepts is
    accepted: [get_q] returns the predicate [<partial><name>__range] over
    the list of the first cleaned value and the second, as they came (for
    a date-time filter when both have one type, under [__date__range] for
    two bare dates), and leaves the filter as it is. *)
Theorem get_q_range `{Runtime} (self : filter) (raw : string) (invert : bool)
        (partial : string) :
  (forall res self',
      get_q (Some "range") raw invert partial self = (Ok res, self') ->
      exists lower upper cl cu,
        PyStr.split "," raw = [lower; upper]
        /\ fst (clean_value (Some "range") lower self) = Ok cl
        /\ fst (clean_value (Some "range") upper self) = Ok cu
        /\ value res = VList [cl; cu])
  /\ (In (Some "range") (allowed_qualifiers (cls self)) ->
      length (PyStr.split "," raw) <> 2%nat ->
      get_q (Some "range") raw invert partial self
      = (Raise (BinderRequestError
           ("Range requires exactly 2 values for " ++ field_description self ++ ".")),
         self))
  /\ (In (Some "range") (allowed_qualifiers (cls self)) ->
      forall lower upper cl cu,
        PyStr.split "," raw = [lower; upper] ->
        fst (clean_value (Some "range") lower self) = Ok cl ->
        fst (clean_value (Some "range") upper self) = Ok cu ->
        (cls self <> DateTimeFieldFilter ->
         get_q (Some "range") raw invert partial self
         = (Ok (mkQ invert (partial ++ name (field self) ++ "__range")
                  (VList [cl; cu])), self))
        /\ (cls self = DateTimeFieldFilter -> type_of cl = type_of cu ->
            get_q (Some "range") raw invert partial self
            = (Ok (mkQ invert
                     (partial ++ name (field self)
                      ++ (if is_bare_date cl then "__date__range" else "__range"))
                     (VList [cl; cu])), self))).
Proof.
  split; [|split; [apply get_q_range_count|]].
  - intros res self' Hres.
    destruct (in_dec qualifier_eq_dec (Some "range") (allowed_qualifiers (cls self)))
      as [Hq | Hq].
    2:{ rewrite (get_q_refused _ _ _ _ _ Hq) in Hres. discriminate. }
    destruct (Nat.eq_dec (length (PyStr.split "," raw)) 2) as [Hlen | Hlen].
    2:{ rewrite (get_q_range_count _ _ _ _ Hq Hlen) in Hres. discriminate. }
    assert (Hn : count_ok (Some "range") (PyStr.split "," raw)) by (intros _; exact Hlen).
    rewrite get_q_cases in Hres.
    rewrite (FieldFilter_get_q_multi _ _ _ _ _ Hq eq_refl Hn) in Hres.
    rewrite (DateTimeFieldFilter_get_q_multi _ _ _ _ _ Hq eq_refl Hn) in Hres.
    destruct (PyStr.split "," raw) as [|lower [|upper [|x r]]] eqn:Hs; try discriminate.
    exists lower, upper.
    destruct (cleaned_list (Some "range") [lower; upper] self) as [l|] eqn:El.
    2:{ destruct (filter_cls_eq_dec _ _); discriminate. }
    destruct (cleaned_list_two _ _ _ _ _ El) as (cl & cu & H1 & H2 & ->).
    exists cl, cu. repeat split; try assumption.
    destruct (filter_cls_eq_dec _ _).
    + unfold datetime_list_q in Hres.
      destruct (negb _); [discriminate|]. injection Hres as <- _. reflexivity.
    + injection Hres as <- _. reflexivity.
  - intros Hq lower upper cl cu Hs Hl Hu.
    assert (Hn : count_ok (Some "range") (PyStr.split "," raw))
      by (intros _; rewrite Hs; reflexivity).
    assert (Hlist : cleaned_list (Some "range") (PyStr.split "," raw) self
                    = Ok [cl; cu]).
    { rewrite Hs. unfold cleaned_list. cbn [map_result]. rewrite Hl, Hu. reflexivity. }
    rewrite get_q_cases.
    rewrite (FieldFilter_get_q_multi _ _ _ _ _ Hq eq_refl Hn).
    rewrite (DateTimeFieldFilter_get_q_multi _ _ _ _ _ Hq eq_refl Hn).
    rewrite Hlist. split.
    + intros Hdt.
      destruct (filter_cls_eq_dec (cls self) DateTimeFieldFilter); [contradiction|].
      reflexivity.
    + intros Hdt Hty.
      destruct (filter_cls_eq_dec (cls self) DateTimeFieldFilter); [|contradiction].
      unfold datetime_list_q.
      assert (Hc : count_types [cl; cu] = 1%nat).
      { unfold count_types. cbn [map nodup]. rewrite Hty.
        destruct (in_dec pytype_eq_dec (type_of cu) [type_of cu]) as [_ | Hno];
          [reflexivity|]. exfalso. apply Hno. left. reflexivity. }
      rewrite Hc. cbn [Nat.eqb negb].
      destruct (is_bare_date cl); reflexivity.
Qed.

Lemma get_q_range_witness :
  let self := new_filter DateFieldFilter (mkField DateField "Animal" "born" None) in
  In (Some "range") (allowed_qualifiers (cls self)) /\
  get_q (RT := Sample.runtime) (Some "range") "2020-01-01" false "" self
  = (Raise (BinderRequestError
       "Range requires exactly 2 values for DateField {Animal}.{born}."), self) /\
  get_q (RT := Sample.runtime) (Some "range") "2020-01-03,2020-01-02,2020-01-01" false "" self
  = (Raise (BinderRequestError
       "Range requires exactly 2 values for DateField {Animal}.{born}."), self) /\
  get_q (RT := Sample.runtime) (Some "range") "2020-01-03,2020-01-02" false "" self
  = (Ok (mkQ false "born__range"
           (VList [VDate (mkDate 2020 1 3); VDate (mkDate 2020 1 2)])), self).
Proof.
  intros self.
  assert (Hq : In (Some "range") (allowed_qualifiers (cls self))).
  { simpl. tauto. }
  split; [exact Hq|]. split; [|split].
  - apply (proj1 (proj2 (get_q_range (H := Sample.runtime) self "2020-01-01" false ""))
             Hq).
    simpl. discriminate.
  - apply (proj1 (proj2 (get_q_range (H := Sample.runtime) self
                           "2020-01-03,2020-01-02,2020-01-01" false "")) Hq).
    simpl. discriminate.
  - apply (proj2 (proj2 (get_q_range (H := Sample.runtime) self
                           "2020-01-03,2020-01-02" false "")) Hq
             "2020-01-03" "2020-01-02"
             (VDate (mkDate 2020 1 3)) (VDate (mkDate 2020 1 2))
             eq_refl eq_refl eq_refl).
    discriminate.
Defined.

Example get_q_range_unsorted :
  fst (get_q (RT := Sample.runtime) (Some "range") "9,2" false ""
             (new_filter IntegerFieldFilter Sample.animal_id))
  = Ok (mkQ false "id__range" (VList [VInt 9; VInt 2])).
Proof. reflexivity. Qed.

Lemma q_key_same_field (partial : string) (a b : filter) (q : qualifier) :
  field a = field b -> q_key partial a q = q_key partial b q.
Proof. unfold q_key. intros ->. reflexivity. Qed.

Lemma msg_empty_same_field (a b : filter) :
  field a = field b -> msg_empty a = msg_empty b.
Proof. unfold msg_empty. intros ->. reflexivity. Qed.

(** [FieldFilter.get_q] on a qualifier that takes one value. *)
Lemma FieldFilter_get_q_single `{Runtime} (q : qualifier) (raw : string)
      (invert : bool) (partial : string) (self : filter) :
  In q (allowed_qualifiers (cls self)) ->
  qual_multi q = false ->
  qual_is q "isnull" = false ->
  FieldFilter_get_q q raw invert partial self
  = (single_q q invert partial self (fst (clean_value q raw self)),
     snd (clean_value q raw self)).
Proof.
  intros Hq Hm Hi. unfold FieldFilter_get_q, bind.
  rewrite (check_qualifier_allowed _ _ Hq), Hm. unfold ret at 1. rewrite Hi.
  unfold except_IndexError, lift, index0.
  destruct (clean_value_same_field q raw self) as [_ Hf].
  destruct (clean_value q raw self) as [[c|e] self']; simpl in *.
  - unfold make_q, ret. rewrite (q_key_same_field _ _ _ _ Hf). reflexivity.
  - destruct e; try reflexivity.
    unfold raise. rewrite (msg_empty_same_field _ _ Hf). reflexivity.
Qed.

(** [DateTimeFieldFilter.get_q] on a qualifier that takes one value. *)
Lemma DateTimeFieldFilter_get_q_single `{Runtime} (q : qualifier) (raw : string)
      (invert : bool) (partial : string) (self : filter) :
  In q (allowed_qualifiers (cls self)) ->
  qual_multi q = false ->
  qual_is q "isnull" = false ->
  DateTimeFieldFilter_get_q q raw invert partial self
  = (match fst (clean_value q raw self) with
     | Ok c => Ok (mkQ invert (q_key partial self (date_qualifier q c)) c)
     | Raise IndexError => Raise (ValidationError (msg_empty self))
     | Raise e => Raise e
     end, snd (clean_value q raw self)).
Proof.
  intros Hq Hm Hi. unfold DateTimeFieldFilter_get_q, bind.
  rewrite (check_qualifier_allowed _ _ Hq), Hm. unfold ret at 1. rewrite Hi.
  unfold except_IndexError, lift, index0, bind.
  destruct (clean_value_same_field q raw self) as [_ Hf].
  destruct (clean_value q raw self) as [[c|e] self']; simpl in *.
  - unfold date_qualifier. destruct (is_bare_date c); unfold make_q, ret; simpl;
      rewrite (q_key_same_field _ _ _ _ Hf); reflexivity.
  - destruct e; try reflexivity.
    unfold raise. rewrite (msg_empty_same_field _ _ Hf). reflexivity.
Qed.

Lemma map_result_length {A B} (f : A -> result B) (l : list A) (l' : list B) :
  map_result f l = Ok l' -> length l' = length l.
Proof.
  revert l'. induction l as [|x r IH]; simpl; intros l'.
  - intros [= <-]. reflexivity.
  - destruct (f x); [|discriminate]. destruct (map_result f r); [|discriminate].
    simpl. intros [= <-]. simpl. f_equal. apply IH. reflexivity.
Qed.

Lemma count_types_same (t : pytype) (l : list pyval) :
  l <> [] -> Forall (fun v => type_of v = t) l -> count_types l = 1%nat.
Proof.
  intros Hne Hall. unfold count_types.
  assert (Hn : nodup pytype_eq_dec (map type_of l) = [t]).
  { induction Hall as [|v r Hv Hr IH]; [contradiction|].
    simpl. destruct r as [|w r'].
    - simpl. rewrite Hv. reflexivity.
    - assert (Hin : In (type_of v) (map type_of (w :: r'))).
      { inversion Hr; subst. simpl. left. congruence. }
      destruct (in_dec pytype_eq_dec (type_of v) (map type_of (w :: r'))); [|contradiction].
      apply IH. discriminate. }
  rewrite Hn. reflexivity.
Qed.

Lemma count_types_two (a b : pyval) (l : list pyval) :
  In a l -> In b l -> type_of a <> type_of b -> count_types l <> 1%nat.
Proof.
  intros Ha Hb Hab Hc. unfold count_types in Hc.
  assert (Ha' : In (type_of a) (nodup pytype_eq_dec (map type_of l))).
  { apply nodup_In, in_map, Ha. }
  assert (Hb' : In (type_of b) (nodup pytype_eq_dec (map type_of l))).
  { apply nodup_In, in_map, Hb. }
  destruct (nodup pytype_eq_dec (map type_of l)) as [|t [|u r]]; try discriminate.
  simpl in Ha', Hb'. destruct Ha' as [Ha'|[]], Hb' as [Hb'|[]]. congruence.
Qed.

(** C5. For every datetime-kind filter and qualifier ['in'] or ['range']
    (with two elements for ['range']), when every comma-separated element
    cleans to a value and the cleaned values do not all have one type,
    [get_q] raises the validation error "Values for filter
    {<model>}.{<field>} must be the same types." and returns no predicate;
    in particular when a bare date and a full timestamp are both among the
    cleaned values. *)
Theorem datetime_same_types `{Runtime} (self : filter) (q : qualifier)
        (raw : string) (invert : bool) (partial : string) (cleaned : list pyval) :
  cls self = DateTimeFieldFilter ->
  q = Some "in" \/ q = Some "range" ->
  (q = Some "range" -> length (PyStr.split "," raw) = 2%nat) ->
  map_result (fun v => fst (clean_value q v self)) (PyStr.split "," raw) = Ok cleaned ->
  let error := ValidationError ("Values for filter {" ++ model_name (field self) ++
                                "}.{" ++ name (field self) ++ "} must be the same types.") in
  (count_types cleaned <> 1%nat ->
   get_q q raw invert partial self = (Raise error, self))
  /\ (forall d t, In (VDate d) cleaned -> In (VDateTime t) cleaned ->
      get_q q raw invert partial self = (Raise error, self)).
Proof.
  intros Hcls Hq Hn Hcl error.
  assert (Hm : qual_multi q = true) by (destruct Hq as [-> | ->]; reflexivity).
  assert (Ha : In q (allowed_qualifiers (cls self))).
  { rewrite Hcls. destruct Hq as [-> | ->]; simpl; tauto. }
  assert (Hmain : count_types cleaned <> 1%nat ->
                  get_q q raw invert partial self = (Raise error, self)).
  { intros Hc. rewrite get_q_cases.
    destruct (filter_cls_eq_dec (cls self) DateTimeFieldFilter); [|contradiction].
    rewrite (DateTimeFieldFilter_get_q_multi _ _ _ _ _ Ha Hm Hn).
    unfold cleaned_list. rewrite Hcl. unfold datetime_list_q.
    apply Nat.eqb_neq in Hc. rewrite Hc. reflexivity. }
  split; [exact Hmain|].
  intros d t Hd Ht. apply Hmain.
  apply (count_types_two (VDate d) (VDateTime t)); [assumption..|discriminate].
Qed.

Lemma datetime_same_types_witness :
  get_q (RT := Sample.runtime) (Some "in") "2020-01-01,2020-01-02T10:00:00Z" false ""
        (new_filter DateTimeFieldFilter Sample.animal_birth)
  = (Raise (ValidationError
       "Values for filter {Animal}.{birth} must be the same types."),
     new_filter DateTimeFieldFilter Sample.animal_birth).
Proof.
  refine (proj2 (datetime_same_types (H := Sample.runtime)
                   (new_filter DateTimeFieldFilter Sample.animal_birth)
                   (Some "in") "2020-01-01,2020-01-02T10:00:00Z" false ""
                   [VDate (mkDate 2020 1 1);
                    VDateTime (mkDateTime (mkDate 2020 1 2) (mkTime 10 0 0 0 (Some UTC)))]
                   eq_refl (or_introl eq_refl) _ eq_refl)
                (mkDate 2020 1 1)
                (mkDateTime (mkDate 2020 1 2) (mkTime 10 0 0 0 (Some UTC))) _ _).
  - discriminate.
  - simpl. tauto.
  - simpl. tauto.
Defined.

Lemma qual_multi_false (q : qualifier) :
  q <> Some "in" -> q <> Some "range" -> qual_multi q = false.
Proof.
  intros Hi Hr. unfold qual_multi, qual_is. destruct q as [s|]; [|reflexivity].
  apply orb_false_iff. split; apply String.eqb_neq; congruence.
Qed.

Lemma qual_is_false (q : qualifier) (s : string) :
  q <> Some s -> qual_is q s = false.
Proof.
  intros Hq. unfold qual_is. destruct q as [t|]; [|reflexivity].
  apply String.eqb_neq. congruence.
Qed.

(** C1. For every datetime-kind filter: when the one value of a
    single-valued qualifier cleans to a bare date, [get_q] returns the
    predicate whose key is [<partial><name>__date__<qualifier>], or
    [<partial><name>__date] when no qualifier was given; and when every
    element of an ['in'] or ['range'] list cleans to a bare date, the key
    is [<partial><name>__date__in] or [<partial><name>__date__range] and
    the value is the list of the dates. *)
Theorem datetime_date_only `{Runtime} (self : filter) (raw : string)
        (invert : bool) (partial : string) :
  cls self = DateTimeFieldFilter ->
  (forall q d,
      In q (allowed_qualifiers (cls self)) ->
      q <> Some "in" -> q <> Some "range" -> q <> Some "isnull" ->
      fst (clean_value q raw self) = Ok (VDate d) ->
      get_q q raw invert partial self
      = (Ok (mkQ invert
               (partial ++ name (field self) ++
                match q with Some s => "__date__" ++ s | None => "__date" end)
               (VDate d)), self))
  /\ (forall q cleaned,
         q = "in" \/ q = "range" ->
         (q = "range" -> length (PyStr.split "," raw) = 2%nat) ->
         map_result (fun v => fst (clean_value (Some q) v self)) (PyStr.split "," raw)
         = Ok cleaned ->
         Forall (fun v => exists d, v = VDate d) cleaned ->
         get_q (Some q) raw invert partial self
         = (Ok (mkQ invert (partial ++ name (field self) ++ "__date__" ++ q)
                  (VList cleaned)), self)).
Proof.
  intros Hcls.
  assert (Hc : cls self <> ArrayFieldFilter) by (rewrite Hcls; discriminate).
  split.
  - intros q d Ha Hin Hr Hnull Hd.
    rewrite get_q_cases.
    destruct (filter_cls_eq_dec (cls self) DateTimeFieldFilter); [|contradiction].
    rewrite (DateTimeFieldFilter_get_q_single _ _ _ _ _ Ha
               (qual_multi_false _ Hin Hr) (qual_is_false _ _ Hnull)).
    rewrite (clean_value_state q raw self Hc). simpl. rewrite Hd.
    unfold date_qualifier, q_key. simpl.
    rewrite Hcls in Ha. simpl in Ha.
    destruct Ha as [<- | [<- | [<- | [<- | [<- | [<- | [<- | [<- | []]]]]]]]];
      try congruence; reflexivity.
  - intros q cleaned Hq Hn Hcl Hall.
    assert (Hm : qual_multi (Some q) = true) by (destruct Hq as [-> | ->]; reflexivity).
    assert (Ha : In (Some q) (allowed_qualifiers (cls self))).
    { rewrite Hcls. destruct Hq as [-> | ->]; simpl; tauto. }
    assert (Hn' : count_ok (Some q) (PyStr.split "," raw)).
    { intros [= ->]. apply Hn. reflexivity. }
    rewrite get_q_cases.
    destruct (filter_cls_eq_dec (cls self) DateTimeFieldFilter); [|contradiction].
    rewrite (DateTimeFieldFilter_get_q_multi _ _ _ _ _ Ha Hm Hn').
    unfold cleaned_list. rewrite Hcl. unfold datetime_list_q.
    assert (Hne : cleaned <> []).
    { intros ->. apply map_result_length in Hcl. simpl in Hcl.
      destruct (PyStr.split "," raw) eqn:Hs; [|discriminate].
      exact (split_not_nil _ _ Hs). }
    rewrite (count_types_same TDateT cleaned Hne).
    2:{ eapply Forall_impl; [|exact Hall]. intros v [d ->]. reflexivity. }
    simpl. destruct cleaned as [|first rest]; [contradiction|].
    inversion Hall as [|? ? [d ->] _]; subst. simpl.
    unfold q_key. destruct Hq as [-> | ->]; reflexivity.
Qed.

Lemma datetime_date_only_witness :
  let self := new_filter DateTimeFieldFilter Sample.animal_birth in
  get_q (RT := Sample.runtime) (Some "gte") "2020-02-29" false "" self
  = (Ok (mkQ false "birth__date__gte" (VDate (mkDate 2020 2 29))), self)
  /\ get_q (RT := Sample.runtime) None "2020-02-29" true "" self
     = (Ok (mkQ true "birth__date" (VDate (mkDate 2020 2 29))), self)
  /\ get_q (RT := Sample.runtime) (Some "in") "2020-02-29,2021-03-01" false "" self
     = (Ok (mkQ false "birth__date__in"
              (VList [VDate (mkDate 2020 2 29); VDate (mkDate 2021 3 1)])), self).
Proof.
  intros self.
  pose proof (datetime_date_only (H := Sample.runtime) self "2020-02-29" false "" eq_refl)
    as [Hgte _].
  pose proof (datetime_date_only (H := Sample.runtime) self "2020-02-29" true "" eq_refl)
    as [Hnone _].
  pose proof (datetime_date_only (H := Sample.runtime) self "2020-02-29,2021-03-01" false ""
                eq_refl) as [_ Hin].
  split; [|split].
  - apply (Hgte (Some "gte") (mkDate 2020 2 29)); try discriminate.
    + simpl. tauto.
    + reflexivity.
  - apply (Hnone None (mkDate 2020 2 29)); try discriminate.
    + simpl. tauto.
    + reflexivity.
  - apply (Hin "in" [VDate (mkDate 2020 2 29); VDate (mkDate 2021 3 1)]).
    + left. reflexivity.
    + discriminate.
    + reflexivity.
    + repeat constructor; eexists; reflexivity.
Defined.

(* ================================================================== *)
(** ** [ArrayFieldFilter.clean_value] and [JSONFieldFilter.clean_value] *)

Lemma cache_ok_None (f : Field) (c : filter_cls) : cache_ok f c None.
Proof. intros _ base _. left. reflexivity. Qed.

(** A filled [_field_filter] changes no result of [clean_value]. *)
Lemma clean_value_rec_cache `{Runtime} (f : Field) (c : filter_cls)
      (cache : option filter_cls) (q : qualifier) (v : string) :
  cache_ok f c cache ->
  fst (clean_value_rec f c cache q v) = fst (clean_value_rec f c None q v)
  /\ cache_ok f c (snd (clean_value_rec f c cache q v)).
Proof.
  intros Hok. destruct f as [fc m n b].
  destruct c; try (split; [reflexivity | exact Hok]).
  destruct b as [base|]; [|split; [reflexivity | exact Hok]].
  specialize (Hok eq_refl base eq_refl). simpl in Hok.
  assert (Hin :
    cache_ok (mkField fc m n (Some base)) ArrayFieldFilter
             (find_field_filter (field_class base))).
  { intros _ base' [= <-]. right. reflexivity. }
  destruct Hok as [-> | ->].
  - split; [reflexivity|]. simpl. unfold get_field_filter. simpl.
    destruct (find_field_filter (field_class base)) as [k|]; simpl.
    + destruct (String.eqb v ""); simpl; [apply Hin|].
      destruct (map_state _ _ _); simpl. apply Hin.
    + apply cache_ok_None.
  - simpl. unfold get_field_filter. simpl.
    destruct (find_field_filter (field_class base)) as [k|] eqn:Hk; simpl.
    + destruct (String.eqb v ""); simpl; [split; [reflexivity | exact Hin]|].
      destruct (map_state _ _ _); simpl. split; [reflexivity | exact Hin].
    + split; [reflexivity | apply cache_ok_None].
Qed.

(** The loop of [ArrayFieldFilter.clean_value] over one filter object
    gives what a fresh filter gives for every element. *)
Lemma map_state_clean_value_rec `{Runtime} (base : Field) (k : filter_cls)
      (q : qualifier) (values : list string) (cache : option filter_cls) :
  cache_ok base k cache ->
  fst (map_state (fun v inner => clean_value_rec base k inner q v) values cache)
  = map_result (fun v => fst (clean_value_rec base k None q v)) values.
Proof.
  revert cache. induction values as [|v r IH]; intros cache Hok; simpl; [reflexivity|].
  destruct (clean_value_rec_cache base k cache q v Hok) as [Hfst Hsnd].
  destruct (clean_value_rec base k cache q v) as [[y|e] cache'] eqn:Hcv; simpl in *.
  - rewrite <- Hfst. specialize (IH cache' Hsnd).
    destruct (map_state _ r cache') as [ys s'']. simpl in *. rewrite IH. reflexivity.
  - rewrite <- Hfst. reflexivity.
Qed.

Lemma clean_value_new_filter `{Runtime} (k : filter_cls) (f : Field)
      (q : qualifier) (v : string) :
  fst (clean_value q v (new_filter k f)) = fst (clean_value_rec f k None q v).
Proof.
  unfold clean_value, new_filter. simpl.
  destruct (clean_value_rec f k None q v). reflexivity.
Qed.

Lemma map_result_ext {A B} (f g : A -> result B) (l : list A) :
  (forall x, f x = g x) -> map_result f l = map_result g l.
Proof.
  intros Hfg. induction l as [|x r IH]; simpl; [reflexivity|].
  rewrite Hfg, IH. reflexivity.
Qed.

Lemma map_result_Forall2 {A B} (f : A -> result B) (l : list A) (l' : list B) :
  map_result f l = Ok l' -> Forall2 (fun x y => f x = Ok y) l l'.
Proof.
  revert l'. induction l as [|x r IH]; simpl; intros l'.
  - intros [= <-]. constructor.
  - destruct (f x) as [y|] eqn:Hx; [|discriminate].
    destruct (map_result f r) as [ys|]; [|discriminate].
    simpl. intros [= <-]. constructor; [exact Hx | apply IH; reflexivity].
Qed.

(** C7, amended. For every array-kind filter whose [_field_filter] is
    unset or holds what the search finds.  When a filter class lists the
    class of the element field: [clean_value] of the empty string is the
    empty list; [clean_value] of a non-empty string splits it on [","]
    and cleans the elements from left to right with the filter of the
    element field, each element as a fresh filter cleans it, the first
    error ending the loop; so a list that comes back holds the cleaned
    elements in the order of the input.  When no filter class lists the
    class of the element field, [clean_value] raises [TypeError] for
    every raw value, the empty string included. *)
Theorem array_clean_value `{Runtime} (self : filter) (base : Field)
        (q : qualifier) :
  cls self = ArrayFieldFilter ->
  base_field (field self) = Some base ->
  _field_filter self = None
  \/ _field_filter self = find_field_filter (field_class base) ->
  (forall k, find_field_filter (field_class base) = Some k ->
     fst (clean_value q "" self) = Ok (VList [])
     /\ (forall v, v <> "" ->
           fst (clean_value q v self)
           = result_map VList
               (map_result (fun x => fst (clean_value q x (new_filter k base)))
                           (PyStr.split "," v)))
     /\ (forall v l, v <> "" -> fst (clean_value q v self) = Ok (VList l) ->
           Forall2 (fun x y => fst (clean_value q x (new_filter k base)) = Ok y)
                   (PyStr.split "," v) l))
  /\ (find_field_filter (field_class base) = None ->
      forall v, fst (clean_value q v self) = Raise TypeError).
Proof.
  intros Hcls Hbase Hcache. split.
  - intros k Hfind. rewrite Hfind in Hcache.
    assert (Hrec : forall v,
      fst (clean_value q v self)
      = if String.eqb v "" then Ok (VList [])
        else result_map VList
               (map_result (fun x => fst (clean_value q x (new_filter k base)))
                           (PyStr.split "," v))).
    { intros v. destruct self as [c [fc m n b] cache]. simpl in *. subst c b.
      unfold clean_value. simpl. unfold get_field_filter. simpl.
      assert (Hloop :
        fst (map_state (fun v0 inner => clean_value_rec base k inner q v0)
                       (PyStr.split "," v) None)
        = map_result (fun x => fst (clean_value q x (new_filter k base)))
                     (PyStr.split "," v)).
      { rewrite (map_state_clean_value_rec base k q _ None (cache_ok_None _ _)).
        apply map_result_ext. intros x. symmetry. apply clean_value_new_filter. }
      destruct Hcache as [-> | ->]; simpl; rewrite ?Hfind; simpl;
        destruct (String.eqb v ""); simpl; try reflexivity;
        destruct (map_state _ _ _) as [r s]; simpl in *; rewrite Hloop; reflexivity. }
    split; [|split].
    + rewrite Hrec. reflexivity.
    + intros v Hv. rewrite Hrec. apply String.eqb_neq in Hv. rewrite Hv. reflexivity.
    + intros v l Hv Hres. rewrite Hrec in Hres. apply String.eqb_neq in Hv.
      rewrite Hv in Hres.
      destruct (map_result _ _) as [l'|] eqn:Hm; [|discriminate].
      simpl in Hres. injection Hres as <-.
      apply map_result_Forall2. exact Hm.
  - intros Hfind v. rewrite Hfind in Hcache.
    destruct self as [c [fc m n b] cache]. simpl in *. subst c b.
    unfold clean_value. simpl. unfold get_field_filter. simpl.
    destruct Hcache as [-> | ->]; simpl; rewrite Hfind; reflexivity.
Qed.

Lemma array_clean_value_witness :
  fst (clean_value (RT := Sample.runtime) (Some "contains") ""
                   (new_filter ArrayFieldFilter Sample.animal_tags))
  = Ok (VList [])
  /\ fst (clean_value (RT := Sample.runtime) (Some "contains") "3,1,2"
                      (new_filter ArrayFieldFilter Sample.animal_tags))
     = Ok (VList [VInt 3; VInt 1; VInt 2])
  /\ fst (clean_value (RT := Sample.runtime) (Some "contains") "a@b.c"
                      (new_filter ArrayFieldFilter Sample.animal_mail))
     = Raise TypeError.
Proof.
  pose proof (array_clean_value (H := Sample.runtime)
                (new_filter ArrayFieldFilter Sample.animal_tags)
                (mkField IntegerField "Animal" "tags" None)
                (Some "contains") eq_refl eq_refl (or_introl eq_refl))
    as [Hfound _].
  destruct (Hfound IntegerFieldFilter eq_refl) as [Hempty [Hsplit _]].
  pose proof (array_clean_value (H := Sample.runtime)
                (new_filter ArrayFieldFilter Sample.animal_mail)
                (mkField (OtherField "EmailField") "Animal" "mail" None)
                (Some "contains") eq_refl eq_refl (or_introl eq_refl))
    as [_ Hnone].
  split; [exact Hempty|]. split.
  - rewrite (Hsplit "3,1,2"); [reflexivity | discriminate].
  - apply Hnone. reflexivity.
Defined.

(** C7 as it is stated fails: an array of e-mail addresses is an array
    filter, no filter class lists its element class, and [clean_value] of
    the empty string raises [TypeError]. *)
Lemma array_clean_value_counterexample :
  ~ (forall self q, cls self = ArrayFieldFilter ->
                    empty_is_empty_list (H := Sample.runtime) self q).
Proof.
  intros Hall.
  specialize (Hall (new_filter ArrayFieldFilter Sample.animal_mail)
                   (Some "contains") eq_refl).
  vm_compute in Hall. discriminate Hall.
Qed.

(** C6, amended. For every filter and every qualifier that it allows
    other than ['in'], ['range'] and ['isnull'], [get_q] uses the raw
    value as the one value, whole and as it is, the empty string
    included: it hands it to [clean_value] and returns the predicate over
    what [clean_value] returns, or raises what [clean_value] raises; the
    error "Value for filter ... may not be empty." comes out only when
    [clean_value] itself raises [IndexError].  So a text filter makes the
    predicate [<partial><name> = ""] of the empty raw value. *)
Theorem get_q_empty_value `{Runtime} (self : filter) (q : qualifier)
        (raw : string) (invert : bool) (partial : string) :
  In q (allowed_qualifiers (cls self)) ->
  q <> Some "in" -> q <> Some "range" -> q <> Some "isnull" ->
  (forall c, fst (clean_value q raw self) = Ok c ->
     fst (get_q q raw invert partial self)
     = Ok (mkQ invert
             (q_key partial self
                (if filter_cls_eq_dec (cls self) DateTimeFieldFilter
                 then date_qualifier q c else q))
             c))
  /\ (forall e, fst (clean_value q raw self) = Raise e -> e <> IndexError ->
        fst (get_q q raw invert partial self) = Raise e)
  /\ (fst (clean_value q raw self) = Raise IndexError ->
      fst (get_q q raw invert partial self) = Raise (ValidationError (msg_empty self)))
  /\ (cls self = TextFieldFilter ->
      fst (get_q q "" invert partial self)
      = Ok (mkQ invert (q_key partial self q) (VStr ""))).
Proof.
  intros Hq Hin Hr Hnull.
  assert (Hm : qual_multi q = false) by (apply qual_multi_false; assumption).
  assert (Hi : qual_is q "isnull" = false) by (apply qual_is_false; exact Hnull).
  assert (Hget : forall v,
    fst (get_q q v invert partial self)
    = match fst (clean_value q v self) with
      | Ok c => Ok (mkQ invert
                      (q_key partial self
                         (if filter_cls_eq_dec (cls self) DateTimeFieldFilter
                          then date_qualifier q c else q)) c)
      | Raise IndexError => Raise (ValidationError (msg_empty self))
      | Raise e => Raise e
      end).
  { intros v. rewrite get_q_cases.
    destruct (filter_cls_eq_dec (cls self) DateTimeFieldFilter).
    - rewrite (DateTimeFieldFilter_get_q_single _ _ _ _ _ Hq Hm Hi). reflexivity.
    - rewrite (FieldFilter_get_q_single _ _ _ _ _ Hq Hm Hi). cbn [fst].
      unfold single_q. destruct (fst (clean_value q v self)); reflexivity. }
  split; [|split; [|split]].
  - intros c Hc. rewrite Hget, Hc. reflexivity.
  - intros e He Hne. rewrite Hget, He. destruct e; try reflexivity. contradiction.
  - intros He. rewrite Hget, He. reflexivity.
  - intros Hcls. rewrite Hget.
    destruct (filter_cls_eq_dec (cls self) DateTimeFieldFilter) as [E | _];
      [rewrite Hcls in E; discriminate E|].
    destruct self as [k [fc m n b] cache]. simpl in Hcls. subst k. reflexivity.
Qed.

Lemma get_q_empty_value_witness :
  fst (get_q (RT := Sample.runtime) None "" false ""
             (new_filter TextFieldFilter Sample.animal_name))
  = Ok (mkQ false "name" (VStr ""))
  /\ fst (get_q (RT := Sample.runtime) (Some "gt") "" false ""
                (new_filter IntegerFieldFilter Sample.animal_id))
     = Raise (ValidationError "Invalid value {} for AutoField {Animal}.{id}.").
Proof.
  assert (Htext : In None (allowed_qualifiers
                             (cls (new_filter TextFieldFilter Sample.animal_name))))
    by (simpl; tauto).
  assert (Hint : In (Some "gt") (allowed_qualifiers
                                   (cls (new_filter IntegerFieldFilter Sample.animal_id))))
    by (simpl; tauto).
  pose proof (get_q_empty_value (H := Sample.runtime)
                (new_filter TextFieldFilter Sample.animal_name) None "" false ""
                Htext) as Ht.
  pose proof (get_q_empty_value (H := Sample.runtime)
                (new_filter IntegerFieldFilter Sample.animal_id) (Some "gt") "" false ""
                Hint) as Hn.
  split.
  - destruct Ht as (_ & _ & _ & Hempty); try discriminate.
    apply Hempty. reflexivity.
  - destruct Hn as (_ & Herr & _ & _); try discriminate.
    apply Herr; [reflexivity | discriminate].
Defined.

(** C6 as it is stated fails: a text filter does not refuse the empty raw
    value, it passes it to [clean_value] and returns a predicate. *)
Lemma get_q_empty_value_counterexample :
  ~ (forall self q, In q (allowed_qualifiers (cls self)) ->
                    q <> Some "in" -> q <> Some "range" ->
                    empty_value_refused (H := Sample.runtime) self q).
Proof.
  intros Hall.
  assert (Hq : In None (allowed_qualifiers
                          (cls (new_filter TextFieldFilter Sample.animal_name))))
    by (simpl; tauto).
  assert (H1 : None <> Some "in") by discriminate.
  assert (H2 : None <> Some "range") by discriminate.
  specialize (Hall (new_filter TextFieldFilter Sample.animal_name) None Hq H1 H2
                   false "").
  vm_compute in Hall. discriminate Hall.
Qed.

(** The handler of [IndexError] in [FieldFilter.get_q] guards [values[0]],
    and [values] is [[value]]: for every filter class but
    [ArrayFieldFilter], a single-valued qualifier gives what [clean_value]
    gives for the raw value as it is. *)
Lemma get_q_single_value `{Runtime} (q : qualifier) (raw : string)
      (invert : bool) (partial : string) (self : filter) (c : pyval) :
  In q (allowed_qualifiers (cls self)) ->
  qual_multi q = false -> qual_is q "isnull" = false ->
  cls self <> DateTimeFieldFilter ->
  fst (clean_value q raw self) = Ok c ->
  fst (get_q q raw invert partial self) = Ok (mkQ invert (q_key partial self q) c).
Proof.
  intros Hq Hm Hi Hdt Hc. rewrite get_q_cases.
  destruct (filter_cls_eq_dec (cls self) DateTimeFieldFilter); [contradiction|].
  rewrite (FieldFilter_get_q_single _ _ _ _ _ Hq Hm Hi). simpl. rewrite Hc. reflexivity.
Qed.

(** C8. For every JSON-kind filter and raw value: with ['has_key'],
    [clean_value] returns the raw string as it is; with ['has_keys'] or
    ['has_any_keys'] it returns the list of the strings between the
    commas, and the empty list for the empty string; with any other
    qualifier it returns what [jsonloads] returns for the raw value, a
    document or the decoder's error. *)
Theorem json_clean_value `{Runtime} (self : filter) (v : string) :
  cls self = JSONFieldFilter ->
  clean_value (Some "has_key") v self = (Ok (VStr v), self)
  /\ (forall q, q = "has_keys" \/ q = "has_any_keys" ->
        clean_value (Some q) "" self = (Ok (VList []), self)
        /\ (v <> "" ->
            clean_value (Some q) v self
            = (Ok (VList (map VStr (PyStr.split "," v))), self)))
  /\ (forall q, q <> Some "has_key" -> q <> Some "has_keys" ->
                q <> Some "has_any_keys" ->
                clean_value q v self = (jsonloads v, self)).
Proof.
  intros Hcls. destruct self as [c [fc m n b] cache]. simpl in Hcls. subst c.
  unfold clean_value. simpl. unfold JSONFieldFilter_clean_value.
  split; [reflexivity|]. split.
  - intros q [-> | ->]; (split; [reflexivity|]); intros Hv;
      apply String.eqb_neq in Hv; simpl; rewrite Hv; reflexivity.
  - intros q H1 H2 H3.
    rewrite (qual_is_false _ _ H1), (qual_is_false _ _ H2), (qual_is_false _ _ H3).
    reflexivity.
Qed.

Lemma json_clean_value_witness :
  let self := new_filter JSONFieldFilter Sample.animal_meta in
  clean_value (RT := Sample.runtime) (Some "has_keys") "a,b,c" self
  = (Ok (VList [VStr "a"; VStr "b"; VStr "c"]), self)
  /\ clean_value (RT := Sample.runtime) (Some "has_keys") "" self = (Ok (VList []), self)
  /\ clean_value (RT := Sample.runtime) (Some "contains") "{" self
     = (Raise (BinderRequestError "JSON parse error"), self).
Proof.
  intros self.
  pose proof (json_clean_value (H := Sample.runtime) self "a,b,c" eq_refl)
    as [_ [Hkeys _]].
  pose proof (json_clean_value (H := Sample.runtime) self "{" eq_refl)
    as [_ [_ Hjson]].
  destruct (Hkeys "has_keys" (or_introl eq_refl)) as [Hempty Hsplit].
  split; [|split].
  - apply Hsplit. discriminate.
  - exact Hempty.
  - apply (Hjson (Some "contains")); discriminate.
Defined.

(* ================================================================== *)
(** ** [TimeFieldFilter.clean_value] *)

Lemma is_digit_cases (c : ascii) :
  PyStr.is_digit c = true ->
  In c ["0"; "1"; "2"; "3"; "4"; "5"; "6"; "7"; "8"; "9"]%char.
Proof.
  destruct c as [[] [] [] [] [] [] [] []]; intros Hd; try discriminate Hd;
    simpl; tauto.
Qed.

Lemma digit_val_range (c : ascii) :
  PyStr.is_digit c = true -> (0 <= PyStr.digit_val c <= 9)%Z.
Proof.
  intros Hd. apply is_digit_cases in Hd. simpl in Hd.
  repeat (destruct Hd as [<- | Hd]; [vm_compute; split; discriminate|]).
  contradiction.
Qed.

Lemma digit_not_space (c : ascii) :
  PyStr.is_digit c = true -> PyStr.is_space c = false.
Proof.
  intros Hd. apply is_digit_cases in Hd. simpl in Hd.
  repeat (destruct Hd as [<- | Hd]; [reflexivity|]). contradiction.
Qed.

Lemma rstrip_digits (s : string) :
  PyStr.all_digits s = true -> PyStr.rstrip s = s.
Proof.
  induction s as [|c r IH]; simpl; [reflexivity|].
  intros Hd. apply andb_true_iff in Hd as [Hc Hr].
  rewrite (IH Hr). destruct r; [|reflexivity].
  rewrite (digit_not_space c Hc). reflexivity.
Qed.

Lemma int_digits_all (s : string) (acc : Z) :
  PyStr.all_digits s = true ->
  PyStr.int_digits acc true s = Some (PyStr.digits_value acc s).
Proof.
  revert acc. induction s as [|c r IH]; simpl; intros acc Hd; [reflexivity|].
  apply andb_true_iff in Hd as [Hc Hr]. rewrite Hc. apply IH. exact Hr.
Qed.

(** [int] on a non-empty string of digits is its decimal value. *)
Lemma int_digits_value (s : string) :
  PyStr.all_digits s = true -> s <> "" ->
  PyStr.int s = Some (PyStr.digits_value 0 s).
Proof.
  intros Hd Hne. destruct s as [|c r]; [contradiction|].
  pose proof Hd as Hd'. simpl in Hd'. apply andb_true_iff in Hd' as [Hc Hr].
  unfold PyStr.int.
  assert (Hl : PyStr.lstrip (String c r) = String c r).
  { simpl. rewrite (digit_not_space c Hc). reflexivity. }
  rewrite Hl, (rstrip_digits _ Hd).
  assert (Hgo : PyStr.int_digits 0 false (String c r)
                = Some (PyStr.digits_value 0 (String c r))).
  { simpl. rewrite Hc. apply int_digits_all. exact Hr. }
  apply is_digit_cases in Hc. simpl in Hc.
  repeat (destruct Hc as [<- | Hc]; [exact Hgo|]). contradiction.
Qed.

Lemma digits_value_bound (s : string) (acc : Z) :
  PyStr.all_digits s = true -> (0 <= acc)%Z ->
  (0 <= PyStr.digits_value acc s < (acc + 1) * 10 ^ Z.of_nat (String.length s))%Z.
Proof.
  revert acc. induction s as [|c r IH]; intros acc Hd Hacc;
    cbn [String.length PyStr.digits_value].
  - change (Z.of_nat 0) with 0%Z. rewrite Z.pow_0_r. lia.
  - simpl in Hd. apply andb_true_iff in Hd as [Hc Hr].
    pose proof (digit_val_range c Hc) as Hv.
    specialize (IH (10 * acc + PyStr.digit_val c)%Z Hr ltac:(lia)).
    rewrite Nat2Z.inj_succ, Z.pow_succ_r by lia.
    set (P := (10 ^ Z.of_nat (String.length r))%Z) in *.
    assert (HP : (0 < P)%Z) by (apply Z.pow_pos_nonneg; lia).
    assert (Hle : ((10 * acc + PyStr.digit_val c + 1) * P <= (10 * acc + 10) * P)%Z)
      by (apply Z.mul_le_mono_nonneg_r; lia).
    lia.
Qed.

Lemma take_digits_spec (n : nat) (s d rest : string) :
  Re.take_digits n s = Some (d, rest) ->
  PyStr.all_digits d = true /\ String.length d = n /\ s = d ++ rest.
Proof.
  revert s d rest. induction n as [|k IH]; simpl; intros s d rest.
  - intros [= <- <-]. auto.
  - destruct s as [|c r]; [discriminate|].
    destruct (PyStr.is_digit c) eqn:Hc; [|discriminate].
    destruct (Re.take_digits k r) as [[d' rest']|] eqn:Hk; [|discriminate].
    intros [= <- <-]. destruct (IH _ _ _ Hk) as (Hd & Hl & ->).
    simpl. rewrite Hc, Hd, Hl. auto.
Qed.

Lemma span_digits_spec (s d rest : string) :
  Re.span PyStr.is_digit s = (d, rest) -> PyStr.all_digits d = true.
Proof.
  revert d rest. induction s as [|c r IH]; simpl; intros d rest.
  - intros [= <- <-]. reflexivity.
  - destruct (PyStr.is_digit c) eqn:Hc.
    + destruct (Re.span PyStr.is_digit r) as [d' rest'] eqn:Hs.
      intros [= <- <-]. simpl. rewrite Hc. eapply IH. reflexivity.
    + intros [= <- <-]. reflexivity.
Qed.

Lemma opt_fraction_spec (s rest : string) (f : option string) :
  Re.opt_fraction s = Some (f, rest) ->
  forall d, f = Some d -> PyStr.all_digits d = true /\ d <> "".
Proof.
  unfold Re.opt_fraction. destruct s as [|c r]; [intros [= <- <-]; discriminate|].
  destruct (Ascii.eqb c ".") eqn:Hc.
  - apply Ascii.eqb_eq in Hc. subst c.
    destruct (Re.span PyStr.is_digit r) as [d' rest'] eqn:Hs.
    destruct d' as [|c' d'']; [discriminate|].
    intros [= <- <-] d [= <-]. split; [|discriminate].
    eapply span_digits_spec. exact Hs.
  - assert (Hne : c <> "."%char) by (apply Ascii.eqb_neq; exact Hc).
    destruct c as [[] [] [] [] [] [] [] []]; try (intros [= <- <-]; discriminate).
    contradiction Hne. reflexivity.
Qed.

Lemma time_zone_spec (s z : string) :
  Re.time_zone s = Some z -> zone_text z.
Proof.
  unfold Re.time_zone. destruct s as [|c r]; [discriminate|].
  destruct (Ascii.eqb c "Z") eqn:HZ.
  - apply Ascii.eqb_eq in HZ. subst c.
    destruct (Re.at_end r); [|discriminate]. intros [= <-]. constructor.
  - assert (Hgo :
      (if existsb (Ascii.eqb c) ["+"; "-"]%char
       then let (d, rest) := Re.span PyStr.is_digit r in
            if ((String.length d =? 2)%nat || (String.length d =? 4)%nat) && Re.at_end rest
            then Some (String c d) else None
       else None) = Some z -> zone_text z).
    { destruct (existsb (Ascii.eqb c) ["+"; "-"]%char) eqn:Hsign; [|discriminate].
      assert (Hin : In c ["+"; "-"]%char).
      { apply existsb_exists in Hsign as (x & Hx & Hcx).
        apply Ascii.eqb_eq in Hcx. subst x. exact Hx. }
      destruct (Re.span PyStr.is_digit r) as [d rest] eqn:Hs.
      pose proof (span_digits_spec _ _ _ Hs) as Hd.
      destruct (_ && _) eqn:Hlen; [|discriminate].
      intros [= <-]. apply andb_true_iff in Hlen as [Hlen _].
      destruct d as [|a [|b [|c' [|d' [|e r']]]]]; try discriminate Hlen.
      - apply zone_HH; assumption.
      - apply zone_HHMM; assumption. }
    assert (Hne : c <> "Z"%char) by (apply Ascii.eqb_neq; exact HZ).
    destruct c as [[] [] [] [] [] [] [] []]; try exact Hgo.
    contradiction Hne. reflexivity.
Qed.

Lemma time_re_spec (v h m s z : string) (f : option string) :
  Re.time_re v = Some (h, m, s, f, z) ->
  (PyStr.all_digits h = true /\ String.length h = 2%nat)
  /\ (PyStr.all_digits m = true /\ String.length m = 2%nat)
  /\ (PyStr.all_digits s = true /\ String.length s = 2%nat)
  /\ (forall d, f = Some d -> PyStr.all_digits d = true /\ d <> "")
  /\ zone_text z.
Proof.
  unfold Re.time_re.
  destruct (Re.take_digits 2 v) as [[h' r1]|] eqn:Hh; [|discriminate].
  assert (Hgo1 : forall s1,
    match Re.take_digits 2 s1 with
    | Some (m0, String ":" s2) =>
        match Re.take_digits 2 s2 with
        | Some (s0, s3) =>
            match Re.opt_fraction s3 with
            | Some (f0, s4) =>
                match Re.time_zone s4 with
                | Some z0 => Some (h', m0, s0, f0, z0)
                | None => None
                end
            | None => None
            end
        | None => None
        end
    | _ => None
    end = Some (h, m, s, f, z) ->
    h' = h /\ (PyStr.all_digits m = true /\ String.length m = 2%nat)
    /\ (PyStr.all_digits s = true /\ String.length s = 2%nat)
    /\ (forall d, f = Some d -> PyStr.all_digits d = true /\ d <> "")
    /\ zone_text z).
  { intros s1.
    destruct (Re.take_digits 2 s1) as [[m' r2]|] eqn:Hm; [|discriminate].
    assert (Hgo2 : forall s2,
      match Re.take_digits 2 s2 with
      | Some (s0, s3) =>
          match Re.opt_fraction s3 with
          | Some (f0, s4) =>
              match Re.time_zone s4 with
              | Some z0 => Some (h', m', s0, f0, z0)
              | None => None
              end
          | None => None
          end
      | None => None
      end = Some (h, m, s, f, z) ->
      h' = h /\ (PyStr.all_digits m = true /\ String.length m = 2%nat)
      /\ (PyStr.all_digits s = true /\ String.length s = 2%nat)
      /\ (forall d, f = Some d -> PyStr.all_digits d = true /\ d <> "")
      /\ zone_text z).
    { intros s2.
      destruct (Re.take_digits 2 s2) as [[s' r3]|] eqn:Hs; [|discriminate].
      destruct (Re.opt_fraction r3) as [[f' r4]|] eqn:Hf; [|discriminate].
      destruct (Re.time_zone r4) as [z'|] eqn:Hz; [|discriminate].
      intros [= <- <- <- <- <-].
      destruct (take_digits_spec _ _ _ _ Hm) as (? & ? & _).
      destruct (take_digits_spec _ _ _ _ Hs) as (? & ? & _).
      repeat split; auto.
      - eapply opt_fraction_spec; eauto.
      - eapply opt_fraction_spec; eauto.
      - eapply time_zone_spec; eauto. }
    destruct r2 as [|c2 r2]; [discriminate|].
    destruct c2 as [[] [] [] [] [] [] [] []]; try discriminate. apply Hgo2. }
  destruct (take_digits_spec _ _ _ _ Hh) as (? & ? & _).
  destruct r1 as [|c1 r1]; [discriminate|].
  destruct c1 as [[] [] [] [] [] [] [] []]; try discriminate.
  intros Hres. destruct (Hgo1 _ Hres) as (<- & ? & ? & ? & ?). auto.
Qed.

Example zone_offset_examples :
  zone_offset "+01" = 60%Z /\ zone_offset "-01" = (-60)%Z /\
  zone_offset "+0130" = 90%Z /\ zone_offset "-0845" = (-525)%Z.
Proof. repeat split; reflexivity. Qed.

Lemma py_int_digits `{Runtime} (s : string) :
  PyStr.all_digits s = true -> s <> "" -> py_int s = Ok (PyStr.digits_value 0 s).
Proof.
  intros Hd Hne. unfold py_int. rewrite (int_digits_value s Hd Hne). reflexivity.
Qed.

Lemma time_tzinfo_spec `{Runtime} (z : string) :
  zone_text z ->
  time_tzinfo z = if String.eqb z "Z" then Ok UTC else get_fixed_timezone (zone_offset z).
Proof.
  intros Hz. destruct Hz as [|sign a b Hs Hd|sign a b c d Hs Hd]; [reflexivity| |].
  - pose proof (py_int_digits _ Hd ltac:(discriminate)) as Hab.
    destruct Hs as [<- | [<- | []]].
    + change (result_bind (py_int (String a (String b "")))
                (fun hh => result_bind (py_int "00")
                   (fun mm => get_fixed_timezone (hh * 60 + mm)))
              = get_fixed_timezone
                  (PyStr.digits_value 0 (String a (String b "")) * 60
                   + PyStr.digits_value 0 "")).
      rewrite Hab. reflexivity.
    + change (result_bind (py_int (String a (String b "")))
                (fun hh => result_bind (py_int "00")
                   (fun mm => get_fixed_timezone (- (hh * 60 + mm))))
              = get_fixed_timezone
                  (- (PyStr.digits_value 0 (String a (String b "")) * 60
                      + PyStr.digits_value 0 ""))).
      rewrite Hab. reflexivity.
  - assert (Hab : PyStr.all_digits (String a (String b "")) = true).
    { cbn [PyStr.all_digits] in *.
      destruct (PyStr.is_digit a), (PyStr.is_digit b), (PyStr.is_digit c),
        (PyStr.is_digit d); try discriminate Hd; reflexivity. }
    assert (Hcd : PyStr.all_digits (String c (String d "")) = true).
    { cbn [PyStr.all_digits] in *.
      destruct (PyStr.is_digit a), (PyStr.is_digit b), (PyStr.is_digit c),
        (PyStr.is_digit d); try discriminate Hd; reflexivity. }
    pose proof (py_int_digits _ Hab ltac:(discriminate)) as Iab.
    pose proof (py_int_digits _ Hcd ltac:(discriminate)) as Icd.
    destruct Hs as [<- | [<- | []]].
    + change (result_bind (py_int (String a (String b "")))
                (fun hh => result_bind (py_int (String c (String d "")))
                   (fun mm => get_fixed_timezone (hh * 60 + mm)))
              = get_fixed_timezone
                  (PyStr.digits_value 0 (String a (String b "")) * 60
                   + PyStr.digits_value 0 (String c (String d "")))).
      rewrite Iab, Icd. reflexivity.
    + change (result_bind (py_int (String a (String b "")))
                (fun hh => result_bind (py_int (String c (String d "")))
                   (fun mm => get_fixed_timezone (- (hh * 60 + mm))))
              = get_fixed_timezone
                  (- (PyStr.digits_value 0 (String a (String b "")) * 60
                      + PyStr.digits_value 0 (String c (String d ""))))).
      rewrite Iab, Icd. reflexivity.
Qed.

Lemma string_length_app (s t : string) :
  String.length (s ++ t) = (String.length s + String.length t)%nat.
Proof. induction s as [|c r IH]; simpl; [reflexivity | rewrite IH; reflexivity]. Qed.

Lemma replicate_length (n : nat) (c : ascii) : String.length (PyStr.replicate n c) = n.
Proof. induction n as [|k IH]; simpl; [reflexivity | rewrite IH; reflexivity]. Qed.

Lemma all_digits_app (s t : string) :
  PyStr.all_digits s = true -> PyStr.all_digits t = true ->
  PyStr.all_digits (s ++ t) = true.
Proof.
  intros Hs Ht. induction s as [|c r IH]; simpl; [exact Ht|].
  simpl in Hs. apply andb_true_iff in Hs as [Hc Hr]. rewrite Hc. apply IH. exact Hr.
Qed.

Lemma all_digits_zeros (n : nat) : PyStr.all_digits (PyStr.replicate n "0") = true.
Proof. induction n as [|k IH]; simpl; [reflexivity | exact IH]. Qed.

(** The fraction padded to six digits is a numeral below a million. *)
Lemma microsecond_spec `{Runtime} (f : option string) :
  (forall d, f = Some d -> PyStr.all_digits d = true /\ d <> "") ->
  (String.length (fraction f) <= 6)%nat ->
  py_int (microsecond_digits f) = Ok (PyStr.digits_value 0 (PyStr.ljust 6 "0" (fraction f)))
  /\ (0 <= PyStr.digits_value 0 (PyStr.ljust 6 "0" (fraction f)) <= 999999)%Z.
Proof.
  intros Hf Hlen.
  assert (Hd : PyStr.all_digits (fraction f) = true).
  { destruct f as [d|]; [apply (Hf d eq_refl) | reflexivity]. }
  assert (Hall : PyStr.all_digits (PyStr.ljust 6 "0" (fraction f)) = true).
  { unfold PyStr.ljust. apply all_digits_app; [exact Hd | apply all_digits_zeros]. }
  assert (Hl : String.length (PyStr.ljust 6 "0" (fraction f)) = 6%nat).
  { unfold PyStr.ljust. rewrite string_length_app, replicate_length. lia. }
  split.
  - change (microsecond_digits f) with (PyStr.ljust 6 "0" (fraction f)).
    apply py_int_digits; [exact Hall|].
    intros Heq. rewrite Heq in Hl. discriminate.
  - pose proof (digits_value_bound _ 0%Z Hall ltac:(lia)) as Hb.
    rewrite Hl in Hb. change (10 ^ Z.of_nat 6)%Z with 1000000%Z in Hb. lia.
Qed.

Lemma span_digits_app (ds : string) (c : ascii) (r : string) :
  PyStr.all_digits ds = true -> PyStr.is_digit c = false ->
  Re.span PyStr.is_digit (ds ++ String c r) = (ds, String c r).
Proof.
  intros Hd Hc. induction ds as [|a t IH]; simpl.
  - rewrite Hc. reflexivity.
  - simpl in Hd. apply andb_true_iff in Hd as [Ha Ht]. rewrite Ha, (IH Ht). reflexivity.
Qed.

Lemma clean_value_time `{Runtime} (self : filter) (q : qualifier) (v : string) :
  cls self = TimeFieldFilter ->
  fst (clean_value q v self) = TimeFieldFilter_clean_value self q v.
Proof.
  destruct self as [c [fc m n b] cache]. simpl. intros ->. reflexivity.
Qed.

(** C10, amended. For every time-kind filter: an input that [time_re]
    rejects raises the validation error "Invalid HH:MM:SS(.mmm) value
    {<v>} for <field>."; an input that it accepts, with at most 6 digits
    in the fraction, an hour of at most 23 and a minute and a second of at
    most 59, gives the time of these fields, its microseconds the fraction
    padded on the right with zeros to 6 digits, in the zone UTC for [Z]
    and else in the zone that [get_fixed_timezone] returns for the offset
    of [+HH], [-HH], [+HHMM] or [-HHMM] in minutes ([+HH] counting as
    [+HH00]), or it raises what [get_fixed_timezone] raises; [time_re]
    accepts a fraction of any number of digits; and ["12:00:00.1234567Z"]
    raises the [ValueError] of the constructor [time], not the validation
    error. *)
Theorem time_clean_value `{Runtime} (self : filter) (q : qualifier) :
  cls self = TimeFieldFilter ->
  (forall v, Re.time_re v = None ->
     fst (clean_value q v self)
     = Raise (ValidationError ("Invalid HH:MM:SS(.mmm) value {" ++ v ++ "} for " ++
                               field_description self ++ ".")))
  /\ (forall v h m s f z,
        Re.time_re v = Some (h, m, s, f, z) ->
        (String.length (fraction f) <= 6)%nat ->
        (PyStr.digits_value 0 h <= 23)%Z ->
        (PyStr.digits_value 0 m <= 59)%Z ->
        (PyStr.digits_value 0 s <= 59)%Z ->
        fst (clean_value q v self)
        = result_map
            (fun zone =>
               VTime (mkTime (PyStr.digits_value 0 h) (PyStr.digits_value 0 m)
                        (PyStr.digits_value 0 s)
                        (PyStr.digits_value 0 (PyStr.ljust 6 "0" (fraction f)))
                        (Some zone)))
            (if String.eqb z "Z" then Ok UTC else get_fixed_timezone (zone_offset z)))
  /\ (forall ds, PyStr.all_digits ds = true -> ds <> "" ->
        Re.time_re ("12:00:00." ++ ds ++ "Z") = Some ("12", "00", "00", Some ds, "Z"))
  /\ fst (clean_value q "12:00:00.1234567Z" self) = Raise ValueError.
Proof.
  intros Hcls. split; [|split; [|split]].
  - intros v Hv. rewrite (clean_value_time _ _ _ Hcls).
    unfold TimeFieldFilter_clean_value. rewrite Hv. reflexivity.
  - intros v h m s f z Hv Hlen Hh Hm Hs.
    rewrite (clean_value_time _ _ _ Hcls).
    unfold TimeFieldFilter_clean_value. rewrite Hv.
    destruct (time_re_spec _ _ _ _ _ _ Hv) as ((Dh & Lh) & (Dm & Lm) & (Ds & Ls) & Hf & Hz).
    assert (Nh : h <> "") by (intros ->; discriminate).
    assert (Nm : m <> "") by (intros ->; discriminate).
    assert (Ns : s <> "") by (intros ->; discriminate).
    rewrite (py_int_digits h Dh Nh), (py_int_digits m Dm Nm), (py_int_digits s Ds Ns).
    destruct (microsecond_spec f Hf Hlen) as [Hus Bus].
    cbn [result_bind]. rewrite Hus. cbn [result_bind].
    rewrite (time_tzinfo_spec z Hz).
    destruct (if String.eqb z "Z" then Ok UTC else get_fixed_timezone (zone_offset z))
      as [zone|e]; [|reflexivity].
    cbn [result_bind result_map]. unfold py_time.
    pose proof (digits_value_bound h 0%Z Dh ltac:(lia)) as [Bh _].
    pose proof (digits_value_bound m 0%Z Dm ltac:(lia)) as [Bm _].
    pose proof (digits_value_bound s 0%Z Ds ltac:(lia)) as [Bs _].
    repeat match goal with
           | |- context [(?a <=? ?b)%Z] =>
               let E := fresh in
               assert (E : (a <=? b)%Z = true) by (apply Z.leb_le; lia); rewrite E; clear E
           end.
    reflexivity.
  - intros ds Hd Hne. unfold Re.time_re. simpl.
    unfold Re.opt_fraction.
    rewrite (span_digits_app ds "Z" "" Hd eq_refl).
    destruct ds as [|c r]; [contradiction|]. reflexivity.
  - rewrite (clean_value_time _ _ _ Hcls). reflexivity.
Qed.

Lemma time_clean_value_witness :
  fst (clean_value (RT := Sample.runtime) None "12:34:56.5+0130"
                   (new_filter TimeFieldFilter Sample.animal_fed))
  = Ok (VTime (mkTime 12 34 56 500000 (Some (FixedOffset 90))))
  /\ fst (clean_value (RT := Sample.runtime) None "12:34"
                      (new_filter TimeFieldFilter Sample.animal_fed))
     = Raise (ValidationError
                "Invalid HH:MM:SS(.mmm) value {12:34} for TimeField {Animal}.{fed}.").
Proof.
  pose proof (time_clean_value (H := Sample.runtime)
                (new_filter TimeFieldFilter Sample.animal_fed) None eq_refl)
    as (Hrejected & Haccepted & _).
  split.
  - refine (Haccepted "12:34:56.5+0130" "12" "34" "56" (Some "5") "+0130"
              eq_refl _ _ _ _).
    + simpl. lia.
    + vm_compute. discriminate.
    + vm_compute. discriminate.
    + vm_compute. discriminate.
  - apply (Hrejected "12:34"). reflexivity.
Defined.

(** C10 as it is stated fails in both directions: ["25:00:00Z"] has no
    fraction at all and raises [ValueError], and ["12:00:00.0000001Z"] has
    7 digits in its fraction and gives a time. *)
Lemma time_clean_value_total_counterexample :
  ~ (forall v, (fraction_digits v <= 6)%nat ->
               returns_time_or_invalid (H := Sample.runtime)
                 (new_filter TimeFieldFilter Sample.animal_fed) None v)
  /\ ~ (forall v, returns_time_or_invalid (H := Sample.runtime)
                    (new_filter TimeFieldFilter Sample.animal_fed) None v ->
                  (fraction_digits v <= 6)%nat).
Proof.
  split; intros Hall.
  - assert (Hlen : (fraction_digits "25:00:00Z" <= 6)%nat) by (vm_compute; lia).
    destruct (Hall "25:00:00Z" Hlen) as [[t Ht] | [msg Hm]].
    + vm_compute in Ht. discriminate Ht.
    + vm_compute in Hm. discriminate Hm.
  - assert (Hret : returns_time_or_invalid (H := Sample.runtime)
                     (new_filter TimeFieldFilter Sample.animal_fed) None
                     "12:00:00.0000001Z").
    { left. eexists. reflexivity. }
    specialize (Hall _ Hret). vm_compute in Hall. lia.
Qed.

Example time_clean_value_hour_25 :
  fst (clean_value (RT := Sample.runtime) None "25:00:00Z"
                   (new_filter TimeFieldFilter Sample.animal_fed))
  = Raise ValueError.
Proof. reflexivity. Qed.

Example time_clean_value_seven_digits :
  fst (clean_value (RT := Sample.runtime) None "12:00:00.0000001Z"
                   (new_filter TimeFieldFilter Sample.animal_fed))
  = Ok (VTime (mkTime 12 0 0 1 (Some UTC))).
Proof. reflexivity. Qed.

(* ================================================================== *)
(** ** Properties of the history handlers *)

Section HistoryFacts.
Import History.
Context {V : Type} (py_str : V -> V) (py_ne : V -> V -> bool)
        (truthy : V -> bool).

Lemma dict_get_set_same {A} (d : dict A) (k : string) (a : A) :
  dict_get (dict_set d k a) k = Some a.
Proof.
  induction d as [|[k' a'] r IH]; simpl.
  - rewrite String.eqb_refl. reflexivity.
  - destruct (String.eqb k' k) eqn:E; simpl; rewrite E; [reflexivity | exact IH].
Qed.

Lemma dict_get_set_other {A} (d : dict A) (k k' : string) (a : A) :
  k <> k' -> dict_get (dict_set d k a) k' = dict_get d k'.
Proof.
  intros Hne. induction d as [|[k0 a0] r IH]; simpl.
  - apply String.eqb_neq in Hne. rewrite Hne. reflexivity.
  - destruct (String.eqb k0 k) eqn:E; simpl.
    + apply String.eqb_eq in E. subst k0.
      apply String.eqb_neq in Hne. rewrite Hne. reflexivity.
    + rewrite IH. reflexivity.
Qed.

Lemma keys_set {A} (d : dict A) (k k' : string) (a : A) :
  In k' (keys (dict_set d k a)) <-> k' = k \/ In k' (keys d).
Proof.
  induction d as [|[k0 a0] r IH]; simpl.
  - intuition.
  - destruct (String.eqb k0 k) eqn:E; simpl.
    + apply String.eqb_eq in E. subst k0. intuition.
    + rewrite IH. intuition.
Qed.

Lemma keys_set_NoDup {A} (d : dict A) (k : string) (a : A) :
  NoDup (keys d) -> NoDup (keys (dict_set d k a)).
Proof.
  induction d as [|[k0 a0] r IH]; simpl; intros Hnd.
  - constructor; [intros [] | constructor].
  - inversion Hnd as [|? ? Hnin Hr]; subst.
    destruct (String.eqb k0 k) eqn:E; simpl.
    + constructor; assumption.
    + constructor; [|apply IH; exact Hr].
      intros Hin. apply keys_set in Hin as [-> | Hin]; [|contradiction].
      rewrite String.eqb_refl in E. discriminate.
Qed.

Lemma dict_get_None {A} (d : dict A) (k : string) :
  dict_get d k = None <-> ~ In k (keys d).
Proof.
  induction d as [|[k0 a0] r IH]; simpl; [tauto|].
  destruct (String.eqb k0 k) eqn:E.
  - apply String.eqb_eq in E. subst. split; [discriminate | intros H; exfalso; auto].
  - apply String.eqb_neq in E. rewrite IH. tauto.
Qed.

Lemma dict_get_In {A} (d : dict A) (k : string) (a : A) :
  NoDup (keys d) -> In (k, a) d -> dict_get d k = Some a.
Proof.
  induction d as [|[k0 a0] r IH]; simpl; intros Hnd Hin; [contradiction|].
  inversion Hnd as [|? ? Hnin Hr]; subst.
  destruct Hin as [[= -> ->] | Hin].
  - rewrite String.eqb_refl. reflexivity.
  - destruct (String.eqb k0 k) eqn:E; [|apply IH; assumption].
    apply String.eqb_eq in E. subst k0. exfalso. apply Hnin.
    apply (in_map fst) in Hin. exact Hin.
Qed.

Lemma dict_get_map {A B} (f : A -> B) (d : dict A) (k : string) :
  dict_get (map (fun kv => (fst kv, f (snd kv))) d) k = option_map f (dict_get d k).
Proof.
  induction d as [|[k0 a0] r IH]; simpl; [reflexivity|].
  destruct (String.eqb k0 k); [reflexivity | exact IH].
Qed.

Lemma dict_get_const {A B} (b : B) (d : dict A) (k : string) :
  dict_get (map (fun kv => (fst kv, b)) d) k
  = match dict_get d k with Some _ => Some b | None => None end.
Proof.
  induction d as [|[k0 a0] r IH]; simpl; [reflexivity|].
  destruct (String.eqb k0 k); [reflexivity | exact IH].
Qed.

(** The keys of [binder_concrete_fields_as_dict] are distinct. *)
Lemma fields_dict_NoDup (self : model_instance V) (skip : bool) :
  NoDup (keys (binder_concrete_fields_as_dict py_str self skip)).
Proof.
  unfold binder_concrete_fields_as_dict.
  generalize (List.filter (fun f => concrete f && negb (many_to_many f)) (get_fields self)).
  intros l.
  assert (Hgen : forall d : dict V, NoDup (keys d) ->
    NoDup (keys (fold_left
      (fun fields field =>
         if skip && existsb (String.eqb (attname field)) (get_deferred_fields self)
         then fields
         else
           match kind field with
           | ForeignKeyKind =>
               dict_set fields (mf_name field) (getattr self (mf_name field ++ "_id"))
           | FileFieldKind =>
               dict_set fields (mf_name field) (py_str (getattr self (mf_name field)))
           | OtherKind =>
               dict_set fields (mf_name field) (getattr self (mf_name field))
           end) l d))).
  { induction l as [|f r IH]; simpl; intros d Hd; [exact Hd|].
    apply IH. destruct (skip && _); [exact Hd|].
    destruct (kind f); apply keys_set_NoDup; exact Hd. }
  apply Hgen. constructor.
Qed.

Lemma set_history_same (i : model_instance V) : set_history i (_history i) = i.
Proof. destruct i. reflexivity. Qed.

Lemma emitted_ext (sender : string) (p : V) (h h' : dict (snapshot_value V)) (d : dict V) :
  (forall k, In k (keys d) -> dict_get h' k = dict_get h k) ->
  emitted py_ne sender p h' d = emitted py_ne sender p h d.
Proof.
  induction d as [|[n v] r IH]; simpl; intros Hext; [reflexivity|].
  rewrite (Hext n (or_introl eq_refl)). f_equal. apply IH.
  intros k Hk. apply Hext. right. exact Hk.
Qed.

(** [history_obj_post_save] over items with distinct keys. *)
Lemma post_save_fold (sender : string) (d : dict V) (log : list (change_record V))
      (inst : model_instance V) :
  NoDup (keys d) ->
  fold_left (post_save_step py_ne sender) d (log, inst)
  = ((log ++ emitted py_ne sender (pk inst) (_history inst) d)%list,
     set_history inst (refreshed py_ne (_history inst) d)).
Proof.
  revert log inst. induction d as [|[n v] r IH]; intros log inst Hnd.
  - simpl. rewrite app_nil_r, set_history_same. reflexivity.
  - inversion Hnd as [|? ? Hnin Hr]; subst.
    cbn [fold_left post_save_step emitted refreshed flat_map fst snd].
    destruct (dict_get (_history inst) n) as [old|] eqn:Hget.
    + destruct (differs py_ne old v) eqn:Hdiff.
      * rewrite (IH _ _ Hr). unfold change. cbn [pk _history set_history].
        rewrite <- app_assoc. f_equal. f_equal. simpl. f_equal.
        apply emitted_ext. intros k Hk. apply dict_get_set_other.
        intros ->. contradiction.
      * rewrite (IH _ _ Hr). reflexivity.
    + rewrite (IH _ _ Hr). reflexivity.
Qed.

Lemma refreshed_cons (h : dict (snapshot_value V)) (item : string * V) (r : dict V) :
  refreshed py_ne h (item :: r)
  = refreshed py_ne (match dict_get h (fst item) with
               | Some old_value =>
                   if differs py_ne old_value (snd item)
                   then dict_set h (fst item) (Known (snd item)) else h
               | None => h
               end) r.
Proof. reflexivity. Qed.

Lemma refreshed_absent (h : dict (snapshot_value V)) (d : dict V) (k : string) :
  dict_get h k = None -> dict_get (refreshed py_ne h d) k = None.
Proof.
  revert h. induction d as [|[n v] r IH]; intros h Hk; [exact Hk|].
  rewrite refreshed_cons. apply IH. cbn [fst snd].
  destruct (dict_get h n) as [old|] eqn:Hn; [|exact Hk].
  destruct (differs py_ne old v); [|exact Hk].
  rewrite dict_get_set_other; [exact Hk|]. intros ->. congruence.
Qed.

Lemma refreshed_other (h : dict (snapshot_value V)) (d : dict V) (k : string) :
  ~ In k (keys d) -> dict_get (refreshed py_ne h d) k = dict_get h k.
Proof.
  revert h. induction d as [|[n v] r IH]; intros h Hk; [reflexivity|].
  rewrite refreshed_cons. simpl in Hk.
  rewrite IH by tauto. cbn [fst snd].
  destruct (dict_get h n) as [old|]; [|reflexivity].
  destruct (differs py_ne old v); [|reflexivity].
  apply dict_get_set_other. tauto.
Qed.

Lemma refreshed_item (h : dict (snapshot_value V)) (d : dict V) (n : string) (v : V)
      (old : snapshot_value V) :
  NoDup (keys d) -> In (n, v) d -> dict_get h n = Some old ->
  dict_get (refreshed py_ne h d) n = Some (if differs py_ne old v then Known v else old).
Proof.
  revert h. induction d as [|[n0 v0] r IH]; intros h Hnd Hin Hget; [contradiction|].
  inversion Hnd as [|? ? Hnin Hr]; subst.
  rewrite refreshed_cons. cbn [fst snd].
  destruct Hin as [[= -> ->] | Hin].
  - rewrite refreshed_other by exact Hnin.
    rewrite Hget. destruct (differs py_ne old v); [apply dict_get_set_same | exact Hget].
  - apply IH; [exact Hr | exact Hin |].
    assert (Hne : n0 <> n).
    { intros ->. apply Hnin. apply (in_map fst) in Hin. exact Hin. }
    destruct (dict_get h n0) as [old0|]; [|exact Hget].
    destruct (differs py_ne old0 v0); [|exact Hget].
    rewrite dict_get_set_other; [exact Hget | exact Hne].
Qed.

Lemma emitted_new (sender : string) (p : V) (h : dict (snapshot_value V)) (d : dict V) :
  (forall k old, dict_get h k = Some old -> old = NewInstanceField) ->
  emitted py_ne sender p h d
  = map (fun item => mkChange sender p (fst item) NewInstanceField (snd item))
        (List.filter (fun item => in_snapshot h (fst item)) d).
Proof.
  intros Hnew. induction d as [|[n v] r IH]; simpl; [reflexivity|].
  unfold in_snapshot. destruct (dict_get h n) as [old|] eqn:Hget.
  - rewrite (Hnew _ _ Hget). simpl. f_equal. exact IH.
  - exact IH.
Qed.

Lemma unchanged_nothing (sender : string) (p : V) (h : dict (snapshot_value V)) (d : dict V) :
  (forall n v old, In (n, v) d -> dict_get h n = Some old -> differs py_ne old v = false) ->
  emitted py_ne sender p h d = [] /\ refreshed py_ne h d = h.
Proof.
  induction d as [|[n v] r IH]; intros Hsame; [split; reflexivity|].
  rewrite refreshed_cons. cbn [emitted flat_map fst snd].
  assert (Hr : forall n v old, In (n, v) r -> dict_get h n = Some old ->
                               differs py_ne old v = false).
  { intros n' v' old' Hin. apply Hsame. right. exact Hin. }
  destruct (IH Hr) as [He Hh].
  destruct (dict_get h n) as [old|] eqn:Hget.
  - rewrite (Hsame n v old (or_introl eq_refl) Hget). simpl. split; assumption.
  - simpl. split; assumption.
Qed.

Lemma post_init_new (inst : model_instance V) :
  truthy (pk inst) = false ->
  _history (history_obj_post_init py_str truthy inst)
  = map (fun kv => (fst kv, NewInstanceField))
        (binder_concrete_fields_as_dict py_str inst true).
Proof.
  intros Hpk. unfold history_obj_post_init. cbn [pk set_history _history].
  rewrite Hpk. cbn [negb _history set_history]. rewrite map_map. reflexivity.
Qed.

Lemma post_save_unchanged (sender : string) (inst : model_instance V)
      (log : list (change_record V)) :
  (forall n v old,
      In (n, v) (binder_concrete_fields_as_dict py_str inst false) ->
      dict_get (_history inst) n = Some old -> differs py_ne old v = false) ->
  history_obj_post_save py_str py_ne sender inst log = (log, inst).
Proof.
  intros Hsame. unfold history_obj_post_save.
  rewrite (post_save_fold _ _ _ _ (fields_dict_NoDup inst false)).
  destruct (unchanged_nothing sender (pk inst) _ _ Hsame) as [-> ->].
  rewrite app_nil_r, set_history_same. reflexivity.
Qed.

(** C9. For every instance without a primary key when it is made
    ([instance.pk] false): [history_obj_post_init] leaves a snapshot that
    maps every loaded concrete field to [NewInstanceField]; a
    [history_obj_post_save] on that snapshot adds to the log one record
    [(sender, pk, field, NewInstanceField, value)] for every field of the
    snapshot, in the order of the fields, and stores the value in the
    snapshot; a field that is not in the snapshot gets no record and stays
    out of it; and for every instance, a [history_obj_post_save] where no
    value differs from the snapshot adds no record and changes nothing. *)
Theorem history_new_instance (sender : string) (inst : model_instance V) :
  truthy (pk inst) = false ->
  let created := history_obj_post_init py_str truthy inst in
  _history created
  = map (fun kv => (fst kv, NewInstanceField))
        (binder_concrete_fields_as_dict py_str inst true)
  /\ (forall n old, dict_get (_history created) n = Some old -> old = NewInstanceField)
  /\ (forall saved log,
         _history saved = _history created ->
         let items := binder_concrete_fields_as_dict py_str saved false in
         let result := history_obj_post_save py_str py_ne sender saved log in
         fst result
         = (log ++ map (fun item => mkChange sender (pk saved) (fst item)
                                      NewInstanceField (snd item))
                       (List.filter (fun item => in_snapshot (_history saved) (fst item))
                               items))%list
         /\ (forall n v, In (n, v) items -> in_snapshot (_history saved) n = true ->
                         dict_get (_history (snd result)) n = Some (Known v))
         /\ (forall n, in_snapshot (_history saved) n = false ->
                       dict_get (_history (snd result)) n = None))
  /\ (forall again log,
         (forall n v old,
             In (n, v) (binder_concrete_fields_as_dict py_str again false) ->
             dict_get (_history again) n = Some old -> differs py_ne old v = false) ->
         history_obj_post_save py_str py_ne sender again log = (log, again)).
Proof.
  intros Hpk created.
  assert (Hnew : forall n old, dict_get (_history created) n = Some old ->
                               old = NewInstanceField).
  { intros n old. unfold created. rewrite (post_init_new inst Hpk), dict_get_const.
    destruct (dict_get _ n); [intros [= <-]; reflexivity | discriminate]. }
  split; [exact (post_init_new inst Hpk)|]. split; [exact Hnew|]. split.
  - intros saved log Hsnap items result. subst items result.
    unfold history_obj_post_save.
    rewrite (post_save_fold _ _ _ _ (fields_dict_NoDup saved false)).
    cbn [fst snd _history set_history].
    rewrite Hsnap in *. split; [|split].
    + rewrite (emitted_new _ _ _ _ Hnew). reflexivity.
    + intros n v Hin Hsn. unfold in_snapshot in Hsn.
      destruct (dict_get (_history created) n) as [old|] eqn:Hget; [|discriminate].
      rewrite (refreshed_item _ _ n v old (fields_dict_NoDup saved false) Hin Hget).
      rewrite (Hnew _ _ Hget). reflexivity.
    + intros n Hsn. unfold in_snapshot in Hsn. apply refreshed_absent.
      destruct (dict_get (_history created) n); [discriminate | reflexivity].
  - intros again log. apply post_save_unchanged.
Qed.

End HistoryFacts.

Lemma history_new_instance_witness :
  fst (History.history_obj_post_save (fun v => v) History.Sample.ne "Animal"
         History.Sample.scooby_saved [])
  = [History.mkChange "Animal" "7" "id" History.NewInstanceField "7";
     History.mkChange "Animal" "7" "name" History.NewInstanceField "Scooby";
     History.mkChange "Animal" "7" "zoo" History.NewInstanceField "3"]
  /\ (let saved := snd (History.history_obj_post_save (fun v => v) History.Sample.ne
                          "Animal" History.Sample.scooby_saved []) in
      History.history_obj_post_save (fun v => v) History.Sample.ne "Animal" saved []
      = ([], saved)).
Proof.
  destruct (history_new_instance (fun v => v) History.Sample.ne History.Sample.truthy
              "Animal" History.Sample.scooby eq_refl) as (_ & _ & Hsave & Hagain).
  destruct (Hsave History.Sample.scooby_saved [] eq_refl) as [Hlog _].
  split; [exact Hlog|].
  apply Hagain.
  intros n v old [Hin | [Hin | [Hin | []]]]; injection Hin as <- <-;
    intros [= <-]; reflexivity.
Defined.

Example history_save_again :
  let saved := snd (History.history_obj_post_save (fun v => v) History.Sample.ne "Animal"
                      History.Sample.scooby_saved []) in
  fst (History.history_obj_post_save (fun v => v) History.Sample.ne "Animal" saved []) = [].
Proof. reflexivity. Qed.

(* ================================================================== *)
(** ** The filters: negation, keys and lists *)

Lemma bind_make_q `{Runtime} {A} (m : M A) (f : A -> qualifier) (g : A -> pyval)
      (invert : bool) (partial : string) (self : filter) :
  bind m (fun x => make_q (f x) invert partial (g x)) self
  = (result_map (fun p => mkQ invert (key p) (value p))
       (fst (bind m (fun x => make_q (f x) false partial (g x)) self)),
     snd (bind m (fun x => make_q (f x) false partial (g x)) self)).
Proof.
  unfold bind. destruct (m self) as [[x|e] self']; reflexivity.
Qed.

Lemma bind_assoc {A B C} (m : M A) (k : A -> M B) (h : B -> M C) (self : filter) :
  bind (bind m k) h self = bind m (fun x => bind (k x) h) self.
Proof.
  unfold bind. destruct (m self) as [[x|e] s1]; [|reflexivity]. reflexivity.
Qed.

(** X1. [invert] has no part in [get_q] but the negation of the predicate
    it returns: the call returns the predicate of the call with
    [invert=False], the same key and value, negated as [invert] says; it
    raises the same error and leaves the same filter object. *)
Theorem get_q_invert `{Runtime} (q : qualifier) (raw : string) (invert : bool)
        (partial : string) (self : filter) :
  get_q q raw invert partial self
  = (result_map (fun p => mkQ invert (key p) (value p))
       (fst (get_q q raw false partial self)),
     snd (get_q q raw false partial self)).
Proof.
  rewrite !get_q_cases.
  destruct (filter_cls_eq_dec (cls self) DateTimeFieldFilter).
  - unfold DateTimeFieldFilter_get_q.
    rewrite <- !bind_assoc.
    apply (bind_make_q _ fst snd).
  - unfold FieldFilter_get_q.
    rewrite <- !bind_assoc.
    apply (bind_make_q _ (fun _ => q) (fun x => x)).
Qed.

Lemma allowed_cases (c : filter_cls) (q : qualifier) :
  In q (allowed_qualifiers c) ->
  In q [None; Some "in"; Some "gt"; Some "gte"; Some "lt"; Some "lte";
        Some "range"; Some "isnull"; Some "iexact"; Some "contains";
        Some "icontains"; Some "startswith"; Some "istartswith";
        Some "endswith"; Some "iendswith"; Some "exact"; Some "contained_by";
        Some "overlap"; Some "has_key"; Some "has_any_keys"; Some "has_keys"].
Proof.
  destruct c; simpl; intros Hq;
    repeat (destruct Hq as [<- | Hq]; [tauto|]); contradiction.
Qed.

Ltac each_qualifier H :=
  simpl in H;
  repeat (destruct H as [<- | H]; [try reflexivity; try discriminate|]);
  try contradiction.

Lemma datetime_clean_value_shape `{Runtime} (self : filter) (q : qualifier)
      (v : string) (c : pyval) :
  cls self = DateTimeFieldFilter ->
  fst (clean_value q v self) = Ok c ->
  date_valued c = is_bare_date c.
Proof.
  destruct self as [k [fc m n b] cache]. simpl. intros ->.
  unfold clean_value. simpl. unfold DateTimeFieldFilter_clean_value.
  destruct (Re.datetime_re v).
  - destruct (parse_datetime v) as [[d|]|]; simpl; intros [= <-]; reflexivity.
  - destruct (Re.date_re v); [|discriminate].
    destruct (parse_date v) as [[d|]|]; simpl; intros [= <-]; reflexivity.
Qed.

Lemma isnull_result `{Runtime} (self : filter) (raw : string) (invert : bool)
      (partial : string) :
  In (Some "isnull") (allowed_qualifiers (cls self)) ->
  get_q (Some "isnull") raw invert partial self
  = (Ok (mkQ invert (partial ++ name (field self) ++ "__isnull") (VBool true)), self).
Proof.
  intros Hq. unfold get_q, FieldFilter_get_q, DateTimeFieldFilter_get_q, bind.
  rewrite (check_qualifier_allowed _ _ Hq).
  destruct (cls self); reflexivity.
Qed.

Lemma get_q_key_shape `{Runtime} (q : qualifier) (raw : string) (invert : bool)
        (partial : string) (self self' : filter) (p : Q) :
  get_q q raw invert partial self = (Ok p, self') ->
  In q (allowed_qualifiers (cls self))
  /\ negated p = invert
  /\ key p
     = partial ++ name (field self)
       ++ (if filter_cls_eq_dec (cls self) DateTimeFieldFilter
           then (if date_valued (value p) then "__date" else "") else "")
       ++ suffix_of q.
Proof.
  intros Hres.
  destruct (in_dec qualifier_eq_dec q (allowed_qualifiers (cls self))) as [Hq | Hq].
  2:{ rewrite (get_q_refused _ _ _ _ _ Hq) in Hres. discriminate. }
  split; [exact Hq|].
  pose proof (allowed_cases _ _ Hq) as Hcases.
  destruct (qualifier_eq_dec q (Some "isnull")) as [-> | Hnull].
  { rewrite (isnull_result self raw invert partial Hq) in Hres.
    injection Hres as <- _. simpl. destruct (filter_cls_eq_dec _ _); auto. }
  destruct (qual_multi q) eqn:Hm.
  - assert (Hn : count_ok q (PyStr.split "," raw)).
    { intros ->. destruct (Nat.eq_dec (length (PyStr.split "," raw)) 2) as [E | E];
        [exact E|].
      rewrite (get_q_range_count _ _ _ _ Hq E) in Hres. discriminate. }
    rewrite get_q_cases in Hres.
    destruct (filter_cls_eq_dec (cls self) DateTimeFieldFilter) as [Hdt | Hdt].
    + rewrite (DateTimeFieldFilter_get_q_multi _ _ _ _ _ Hq Hm Hn) in Hres.
      destruct (cleaned_list q (PyStr.split "," raw) self) as [l|]; [|discriminate].
      unfold datetime_list_q in Hres. destruct (negb _); [discriminate|].
      destruct l as [|first rest]; [discriminate|].
      injection Hres as <- _. split; [reflexivity|]. simpl.
      destruct (qual_multi_cases _ Hm) as [-> | ->];
        destruct first; reflexivity.
    + rewrite (FieldFilter_get_q_multi _ _ _ _ _ Hq Hm Hn) in Hres.
      destruct (cleaned_list q (PyStr.split "," raw) self) as [l|]; [|discriminate].
      injection Hres as <- _. split; [reflexivity|]. simpl.
      destruct (qual_multi_cases _ Hm) as [-> | ->]; reflexivity.
  - assert (Hi : qual_is q "isnull" = false) by (apply qual_is_false; exact Hnull).
    rewrite get_q_cases in Hres.
    destruct (filter_cls_eq_dec (cls self) DateTimeFieldFilter) as [Hdt | Hdt].
    + rewrite (DateTimeFieldFilter_get_q_single _ _ _ _ _ Hq Hm Hi) in Hres.
      destruct (fst (clean_value q raw self)) as [c|e] eqn:Hc.
      2:{ destruct e; discriminate. }
      pose proof (datetime_clean_value_shape _ _ _ _ Hdt Hc) as Hshape.
      injection Hres as <- _. split; [reflexivity|]. simpl. rewrite Hshape.
      unfold date_qualifier. destruct (is_bare_date c);
        each_qualifier Hcases.
    + rewrite (FieldFilter_get_q_single _ _ _ _ _ Hq Hm Hi) in Hres.
      destruct (fst (clean_value q raw self)) as [c|e] eqn:Hc.
      2:{ simpl in Hres. destruct e; discriminate. }
      injection Hres as <- _. split; [reflexivity|]. simpl.
      each_qualifier Hcases.
Qed.

(** X2. Whenever [get_q] returns a predicate, the qualifier is one of the
    filter's [allowed_qualifiers], the predicate is negated exactly when
    [invert] is set, and its key is [partial], the name of the field,
    ["__date"] when a date-time filter got a bare date (or a list that
    starts with one), and then ["__"] and the qualifier when there is
    one. *)
Theorem get_q_key `{Runtime} (q : qualifier) (raw : string) (invert : bool)
        (partial : string) (self self' : filter) (p : Q) :
  get_q q raw invert partial self = (Ok p, self') ->
  In q (allowed_qualifiers (cls self))
  /\ negated p = invert
  /\ key p
     = partial ++ name (field self)
       ++ (if filter_cls_eq_dec (cls self) DateTimeFieldFilter
           then (if date_valued (value p) then "__date" else "") else "")
       ++ suffix_of q.
Proof. apply get_q_key_shape. Qed.

Lemma get_q_key_witness :
  let self := new_filter DateTimeFieldFilter Sample.animal_birth in
  let p := mkQ true "zoo__birth__date__gte" (VDate (mkDate 2020 2 29)) in
  get_q (RT := Sample.runtime) (Some "gte") "2020-02-29" true "zoo__" self = (Ok p, self)
  /\ key p = "zoo__" ++ "birth" ++ "__date" ++ "__gte".
Proof.
  intros self p.
  assert (Hres : get_q (RT := Sample.runtime) (Some "gte") "2020-02-29" true "zoo__" self
                 = (Ok p, self)) by reflexivity.
  split; [exact Hres|].
  pose proof (get_q_key (H := Sample.runtime) _ _ _ _ _ _ _ Hres) as (_ & _ & Hkey).
  exact Hkey.
Defined.

Lemma clean_value_fst `{Runtime} (self : filter) (q : qualifier) (v : string) :
  fst (clean_value q v self)
  = fst (clean_value_rec (field self) (cls self) (_field_filter self) q v).
Proof.
  unfold clean_value. destruct (clean_value_rec _ _ _ _ _). reflexivity.
Qed.

Lemma get_q_single_result `{Runtime} (q : qualifier) (raw : string)
      (invert : bool) (partial : string) (self : filter) :
  In q (allowed_qualifiers (cls self)) ->
  q <> Some "in" -> q <> Some "range" -> q <> Some "isnull" ->
  cls self <> DateTimeFieldFilter ->
  fst (get_q q raw invert partial self)
  = single_q q invert partial self (fst (clean_value q raw self)).
Proof.
  intros Hq Hin Hr Hnull Hdt. rewrite get_q_cases.
  destruct (filter_cls_eq_dec (cls self) DateTimeFieldFilter); [contradiction|].
  rewrite (FieldFilter_get_q_single _ _ _ _ _ Hq
             (qual_multi_false _ Hin Hr) (qual_is_false _ _ Hnull)).
  reflexivity.
Qed.

(** X3. A boolean filter takes no qualifier but [None]; with it the raw
    value ["true"] gives [True], ["false"] gives [False], and every other
    raw value raises the validation error "Invalid value {<raw>} for
    <field>.". *)
Theorem boolean_get_q `{Runtime} (q : qualifier) (raw : string) (invert : bool)
        (partial : string) (self : filter) :
  cls self = BooleanFieldFilter ->
  (forall p, fst (get_q q raw invert partial self) = Ok p ->
             q = None
             /\ ((raw = "true" /\ value p = VBool true)
                 \/ (raw = "false" /\ value p = VBool false)))
  /\ (q = None -> raw = "true" \/ raw = "false" ->
      exists p, fst (get_q q raw invert partial self) = Ok p)
  /\ (q = None -> raw <> "true" -> raw <> "false" ->
      fst (get_q q raw invert partial self)
      = Raise (ValidationError
                 ("Invalid value {" ++ raw ++ "} for " ++ field_description self ++ "."))).
Proof.
  intros Hcls.
  assert (Hc : fst (clean_value None raw self)
               = BooleanFieldFilter_clean_value self None raw).
  { rewrite clean_value_fst.
    destruct self as [k [fc m n b] cache]. simpl in Hcls. subst k. reflexivity. }
  assert (Ha : In None (allowed_qualifiers (cls self))) by (rewrite Hcls; simpl; tauto).
  assert (Hdt : cls self <> DateTimeFieldFilter) by (rewrite Hcls; discriminate).
  assert (Hnone : fst (get_q None raw invert partial self)
                  = single_q None invert partial self
                      (BooleanFieldFilter_clean_value self None raw)).
  { rewrite <- Hc. apply get_q_single_result; try discriminate; assumption. }
  split; [|split].
  - intros p Hp.
    destruct (qualifier_eq_dec q None) as [-> | Hq].
    + split; [reflexivity|]. rewrite Hnone in Hp.
      unfold BooleanFieldFilter_clean_value in Hp.
      destruct (String.eqb raw "true") eqn:Et.
      * apply String.eqb_eq in Et. injection Hp as <-. left. auto.
      * destruct (String.eqb raw "false") eqn:Ef; [|discriminate].
        apply String.eqb_eq in Ef. injection Hp as <-. right. auto.
    + exfalso.
      assert (Hn : ~ In q (allowed_qualifiers (cls self))).
      { rewrite Hcls. simpl. intros [E | []]. congruence. }
      rewrite (get_q_refused _ _ _ _ _ Hn) in Hp. discriminate.
  - intros -> Hraw. rewrite Hnone. unfold BooleanFieldFilter_clean_value.
    destruct Hraw as [-> | ->]; simpl; eexists; reflexivity.
  - intros -> Ht Hf. rewrite Hnone. unfold BooleanFieldFilter_clean_value.
    apply String.eqb_neq in Ht, Hf. rewrite Ht, Hf. reflexivity.
Qed.

Lemma boolean_get_q_witness :
  let self := new_filter BooleanFieldFilter MoreSamples.animal_alive in
  (exists p, fst (get_q (RT := Sample.runtime) None "false" true "" self) = Ok p)
  /\ fst (get_q (RT := Sample.runtime) None "True" true "" self)
     = Raise (ValidationError "Invalid value {True} for BooleanField {Animal}.{alive}.").
Proof.
  intros self.
  pose proof (boolean_get_q (H := Sample.runtime) None "false" true "" self eq_refl)
    as (_ & Hok & _).
  pose proof (boolean_get_q (H := Sample.runtime) None "True" true "" self eq_refl)
    as (_ & _ & Hbad).
  split.
  - apply Hok; [reflexivity | right; reflexivity].
  - apply Hbad; [reflexivity | discriminate | discriminate].
Defined.

Lemma concat_split (s : string) : String.concat "," (PyStr.split "," s) = s.
Proof.
  induction s as [|c r IH]; [reflexivity|].
  cbn [PyStr.split]. destruct (Ascii.eqb c ",") eqn:Ec.
  - apply Ascii.eqb_eq in Ec. subst c.
    pose proof (split_not_nil "," r) as Hne.
    destruct (PyStr.split "," r) as [|h t]; [contradiction|].
    change (String.concat "," ("" :: h :: t))
      with ("" ++ "," ++ String.concat "," (h :: t)).
    rewrite IH. reflexivity.
  - pose proof (split_not_nil "," r) as Hne.
    destruct (PyStr.split "," r) as [|h t]; [contradiction|].
    destruct t as [|h' t'].
    + simpl in IH. subst r. reflexivity.
    + change (String.concat "," (String c h :: h' :: t'))
        with (String c h ++ "," ++ String.concat "," (h' :: t')).
      change (String.concat "," (h :: h' :: t'))
        with (h ++ "," ++ String.concat "," (h' :: t')) in IH.
      rewrite <- IH. reflexivity.
Qed.

Lemma map_result_total {A B} (f : A -> B) (l : list A) :
  map_result (fun x => Ok (f x)) l = Ok (map f l).
Proof.
  induction l as [|x r IH]; simpl; [reflexivity | rewrite IH; reflexivity].
Qed.

Lemma text_clean_value `{Runtime} (self : filter) (q : qualifier) (v : string) :
  cls self = TextFieldFilter \/ cls self = UUIDFieldFilter ->
  fst (clean_value q v self) = Ok (VStr v).
Proof.
  intros Hcls. rewrite clean_value_fst.
  destruct self as [k [fc m n b] cache]. simpl in Hcls.
  destruct Hcls as [-> | ->]; reflexivity.
Qed.

(** X4. A text or UUID filter passes the raw value on unchanged: with a
    qualifier other than ['in'] and ['isnull'] the predicate holds the raw
    string itself under the key of field and qualifier; with ['in'] it
    holds the list of the pieces between the commas, and joining these
    pieces with commas gives the raw value back.  No raw value is
    refused. *)
Theorem text_get_q `{Runtime} (q : qualifier) (raw : string) (invert : bool)
        (partial : string) (self : filter) :
  cls self = TextFieldFilter \/ cls self = UUIDFieldFilter ->
  In q (allowed_qualifiers (cls self)) ->
  (q <> Some "in" -> q <> Some "isnull" ->
   fst (get_q q raw invert partial self)
   = Ok (mkQ invert (partial ++ name (field self) ++ suffix_of q) (VStr raw)))
  /\ (q = Some "in" ->
      fst (get_q q raw invert partial self)
      = Ok (mkQ invert (partial ++ name (field self) ++ "__in")
              (VList (map VStr (PyStr.split "," raw))))
      /\ String.concat "," (PyStr.split "," raw) = raw).
Proof.
  intros Hcls Hq.
  assert (Hdt : cls self <> DateTimeFieldFilter).
  { destruct Hcls as [-> | ->]; discriminate. }
  split.
  - intros Hin Hnull.
    assert (Hr : q <> Some "range").
    { intros ->. destruct Hcls as [E | E]; rewrite E in Hq; simpl in Hq;
        intuition discriminate. }
    rewrite (get_q_single_result _ _ _ _ _ Hq Hin Hr Hnull Hdt).
    rewrite (text_clean_value _ _ _ Hcls). simpl. f_equal. f_equal.
    pose proof (allowed_cases _ _ Hq) as Hcases. unfold q_key.
    each_qualifier Hcases.
  - intros ->. split; [|apply concat_split].
    rewrite get_q_cases.
    destruct (filter_cls_eq_dec (cls self) DateTimeFieldFilter); [contradiction|].
    rewrite (FieldFilter_get_q_multi _ _ _ _ _ Hq eq_refl) by (intros [=]).
    unfold cleaned_list.
    rewrite (map_result_ext _ (fun v => Ok (VStr v)))
      by (intros x; apply text_clean_value; exact Hcls).
    rewrite map_result_total. reflexivity.
Qed.

Lemma text_get_q_witness :
  let self := new_filter TextFieldFilter MoreSamples.animal_nick in
  fst (get_q (RT := Sample.runtime) (Some "icontains") "Scooby, Doo" false "" self)
  = Ok (mkQ false "nick__icontains" (VStr "Scooby, Doo"))
  /\ fst (get_q (RT := Sample.runtime) (Some "in") "Scooby, Doo" false "" self)
     = Ok (mkQ false "nick__in" (VList [VStr "Scooby"; VStr " Doo"])).
Proof.
  intros self.
  assert (Hcls : cls self = TextFieldFilter \/ cls self = UUIDFieldFilter)
    by (left; reflexivity).
  assert (Hic : In (Some "icontains") (allowed_qualifiers (cls self)))
    by (simpl; tauto).
  assert (Hin : In (Some "in") (allowed_qualifiers (cls self))) by (simpl; tauto).
  pose proof (text_get_q (H := Sample.runtime) _ "Scooby, Doo" false "" self Hcls Hic)
    as [Hsingle _].
  pose proof (text_get_q (H := Sample.runtime) _ "Scooby, Doo" false "" self Hcls Hin)
    as [_ Hlist].
  split.
  - apply Hsingle; discriminate.
  - apply Hlist. reflexivity.
Defined.

Lemma map_result_first_error {A B} (f : A -> result B) (pre post : list A)
      (bad : A) (e : exn) :
  Forall (fun x => exists y, f x = Ok y) pre -> f bad = Raise e ->
  map_result f (pre ++ bad :: post) = Raise e.
Proof.
  intros Hpre Hbad. induction Hpre as [|x r [y Hx] _ IH]; simpl.
  - rewrite Hbad. reflexivity.
  - rewrite Hx, IH. reflexivity.
Qed.

Lemma map_result_Forall2_inv {A B} (f : A -> result B) (l : list A) (l' : list B) :
  Forall2 (fun x y => f x = Ok y) l l' -> map_result f l = Ok l'.
Proof.
  induction 1 as [|x y r r' Hx _ IH]; simpl; [reflexivity|].
  rewrite Hx, IH. reflexivity.
Qed.

Lemma get_q_in_error `{Runtime} (raw : string) (invert : bool)
      (partial : string) (self : filter) (pre post : list string) (bad : string)
      (e : exn) :
  In (Some "in") (allowed_qualifiers (cls self)) ->
  PyStr.split "," raw = (pre ++ bad :: post)%list ->
  Forall (fun v => exists c, fst (clean_value (Some "in") v self) = Ok c) pre ->
  fst (clean_value (Some "in") bad self) = Raise e ->
  get_q (Some "in") raw invert partial self = (Raise e, self).
Proof.
  intros Hq Hs Hpre Hbad.
  assert (Hn : count_ok (Some "in") (PyStr.split "," raw)) by (intros [=]).
  rewrite get_q_cases.
  rewrite (FieldFilter_get_q_multi _ _ _ _ _ Hq eq_refl Hn).
  rewrite (DateTimeFieldFilter_get_q_multi _ _ _ _ _ Hq eq_refl Hn).
  unfold cleaned_list. rewrite Hs.
  rewrite (map_result_first_error _ _ _ _ _ Hpre Hbad).
  destruct (filter_cls_eq_dec _ _); reflexivity.
Qed.

Lemma get_q_in_ok `{Runtime} (raw : string) (invert : bool)
      (partial : string) (self : filter) (cleaned : list pyval) :
  In (Some "in") (allowed_qualifiers (cls self)) ->
  cls self <> DateTimeFieldFilter ->
  Forall2 (fun v c => fst (clean_value (Some "in") v self) = Ok c)
          (PyStr.split "," raw) cleaned ->
  get_q (Some "in") raw invert partial self
  = (Ok (mkQ invert (partial ++ name (field self) ++ "__in") (VList cleaned)), self).
Proof.
  intros Hq Hdt Hall.
  assert (Hn : count_ok (Some "in") (PyStr.split "," raw)) by (intros [=]).
  rewrite get_q_cases.
  destruct (filter_cls_eq_dec (cls self) DateTimeFieldFilter); [contradiction|].
  rewrite (FieldFilter_get_q_multi _ _ _ _ _ Hq eq_refl Hn).
  unfold cleaned_list. rewrite (map_result_Forall2_inv _ _ _ Hall). reflexivity.
Qed.

(** X5. With the qualifier ['in'] the list is cleaned as a whole or not at
    all: when the piece [bad] raises an error and the pieces before it are
    fine, [get_q] raises the error of [bad], whatever comes after it; when
    every piece is fine (and the filter is no date-time filter), [get_q]
    returns the predicate [<partial><name>__in] over the cleaned values in
    the order of the pieces.  The filter object stays as it was. *)
Theorem get_q_in_all_or_nothing `{Runtime} (raw : string) (invert : bool)
        (partial : string) (self : filter) :
  In (Some "in") (allowed_qualifiers (cls self)) ->
  (forall pre bad post e,
      PyStr.split "," raw = (pre ++ bad :: post)%list ->
      Forall (fun v => exists c, fst (clean_value (Some "in") v self) = Ok c) pre ->
      fst (clean_value (Some "in") bad self) = Raise e ->
      get_q (Some "in") raw invert partial self = (Raise e, self))
  /\ (forall cleaned,
         cls self <> DateTimeFieldFilter ->
         Forall2 (fun v c => fst (clean_value (Some "in") v self) = Ok c)
                 (PyStr.split "," raw) cleaned ->
         get_q (Some "in") raw invert partial self
         = (Ok (mkQ invert (partial ++ name (field self) ++ "__in") (VList cleaned)),
            self)).
Proof.
  intros Hq. split.
  - intros pre bad post e. apply get_q_in_error. exact Hq.
  - intros cleaned. apply get_q_in_ok. exact Hq.
Qed.

Lemma get_q_in_all_or_nothing_witness :
  let self := new_filter IntegerFieldFilter Sample.animal_id in
  get_q (RT := Sample.runtime) (Some "in") "1,x,y" false "" self
  = (Raise (ValidationError "Invalid value {x} for AutoField {Animal}.{id}."), self)
  /\ get_q (RT := Sample.runtime) (Some "in") "1,2" false "" self
     = (Ok (mkQ false "id__in" (VList [VInt 1; VInt 2])), self).
Proof.
  intros self.
  assert (Hq : In (Some "in") (allowed_qualifiers (cls self))) by (simpl; tauto).
  split.
  - apply (proj1 (get_q_in_all_or_nothing (H := Sample.runtime) "1,x,y" false "" self Hq)
             ["1"] "x" ["y"]).
    + reflexivity.
    + constructor; [|constructor]. exists (VInt 1). reflexivity.
    + reflexivity.
  - apply (proj2 (get_q_in_all_or_nothing (H := Sample.runtime) "1,2" false "" self Hq)
             [VInt 1; VInt 2]).
    + discriminate.
    + repeat constructor.
Defined.

Lemma split_no_sep (sep : ascii) (s : string) :
  no_sep sep s = true -> PyStr.split sep s = [s].
Proof.
  induction s as [|c r IH]; simpl; [reflexivity|].
  intros Hs. apply andb_true_iff in Hs as [Hc Hr].
  apply negb_true_iff in Hc. rewrite Hc, (IH Hr). reflexivity.
Qed.

Lemma split_app_sep (sep : ascii) (a b : string) :
  no_sep sep a = true ->
  PyStr.split sep (a ++ String sep b) = a :: PyStr.split sep b.
Proof.
  induction a as [|c r IH]; simpl.
  - intros _. rewrite Ascii.eqb_refl. reflexivity.
  - intros Hs. apply andb_true_iff in Hs as [Hc Hr].
    apply negb_true_iff in Hc. rewrite Hc, (IH Hr). reflexivity.
Qed.

Lemma split_concat (l : list string) :
  l <> [] -> Forall (fun s => no_sep "," s = true) l ->
  PyStr.split "," (String.concat "," l) = l.
Proof.
  intros Hne Hall. induction Hall as [|s r Hs Hr IH]; [contradiction|].
  destruct r as [|s' r'].
  - simpl. apply split_no_sep. exact Hs.
  - change (String.concat "," (s :: s' :: r'))
      with (s ++ String "," (String.concat "," (s' :: r'))).
    rewrite (split_app_sep _ _ _ Hs), IH; [reflexivity | discriminate].
Qed.

Lemma int_digits_no_comma (s : string) (acc : Z) (b : bool) (z : Z) :
  PyStr.int_digits acc b s = Some z -> no_sep "," s = true.
Proof.
  revert acc b. induction s as [|c r IH]; simpl; intros acc b; [reflexivity|].
  destruct (PyStr.is_digit c) eqn:Hd.
  - intros Hz. rewrite (IH _ _ Hz).
    apply is_digit_cases in Hd. simpl in Hd.
    repeat (destruct Hd as [<- | Hd]; [reflexivity|]). contradiction.
  - destruct (Ascii.eqb c "_") eqn:Hu; [|discriminate].
    apply Ascii.eqb_eq in Hu. subst c.
    destruct b; [|discriminate]. intros Hz. rewrite (IH _ _ Hz). reflexivity.
Qed.

Lemma no_sep_lstrip (s : string) :
  no_sep "," (PyStr.lstrip s) = no_sep "," s.
Proof.
  induction s as [|c r IH]; simpl; [reflexivity|].
  destruct (PyStr.is_space c) eqn:Hc; [|reflexivity].
  rewrite IH. destruct (Ascii.eqb c ",") eqn:E; [|reflexivity].
  apply Ascii.eqb_eq in E. subst c. discriminate Hc.
Qed.

Lemma no_sep_rstrip (s : string) :
  no_sep "," (PyStr.rstrip s) = no_sep "," s.
Proof.
  induction s as [|c r IH]; [reflexivity|].
  cbn [PyStr.rstrip no_sep]. rewrite <- IH.
  destruct (PyStr.rstrip r) as [|c' r'] eqn:Hr.
  - destruct (PyStr.is_space c) eqn:Hc; simpl.
    + destruct (Ascii.eqb c ",") eqn:E; [|reflexivity].
      apply Ascii.eqb_eq in E. subst c. discriminate Hc.
    + rewrite andb_true_r. reflexivity.
  - reflexivity.
Qed.

(** A numeral that [int] accepts holds no comma. *)
Lemma int_no_comma (s : string) (z : Z) :
  PyStr.int s = Some z -> no_sep "," s = true.
Proof.
  unfold PyStr.int. rewrite <- no_sep_lstrip, <- no_sep_rstrip.
  destruct (PyStr.rstrip (PyStr.lstrip s)) as [|c r]; [reflexivity|].
  assert (Hgo : PyStr.int_digits 0 false (String c r) = Some z ->
                no_sep "," (String c r) = true) by apply int_digits_no_comma.
  assert (Hsign : forall o, o = Some z ->
            (o = PyStr.int_digits 0 false r
             \/ o = option_map Z.opp (PyStr.int_digits 0 false r)) ->
            no_sep "," r = true).
  { intros o -> [Ho | Ho]; symmetry in Ho.
    - eapply int_digits_no_comma; exact Ho.
    - destruct (PyStr.int_digits 0 false r) eqn:E; [|discriminate].
      eapply int_digits_no_comma; exact E. }
  destruct c as [[] [] [] [] [] [] [] []]; try exact Hgo;
    intros Hz; cbn [no_sep]; rewrite (Hsign _ Hz); auto.
Qed.



Lemma date_datetime_disjoint (v : string) :
  Re.datetime_re v = true -> Re.date_re v = false.
Proof.
  unfold Re.datetime_re, Re.date_re. destruct (Re.ymd v) as [rest|]; [|discriminate].
  unfold Re.one_of. destruct rest as [|c r]; [discriminate|].
  destruct (existsb (Ascii.eqb c) ["T"; " "]%char) eqn:Hc; [|discriminate].
  intros _. simpl. destruct r; [|reflexivity].
  simpl in Hc. apply orb_true_iff in Hc as [Hc | Hc].
  - apply Ascii.eqb_eq in Hc. subst c. reflexivity.
  - rewrite orb_false_r in Hc. apply Ascii.eqb_eq in Hc. subst c. reflexivity.
Qed.

Lemma datetime_clean_value_eq `{Runtime} (self : filter) (q : qualifier) (v : string) :
  cls self = DateTimeFieldFilter ->
  fst (clean_value q v self) = DateTimeFieldFilter_clean_value self q v.
Proof.
  intros Hcls. rewrite clean_value_fst.
  destruct self as [k [fc m n b] cache]. simpl in Hcls. subst k. reflexivity.
Qed.

(** X7. For a date-time filter, [clean_value] returns a bare date only
    for a raw value that [date_re] accepts and [datetime_re] refuses, and
    the date is the one [parse_date] found; a raw value that [datetime_re]
    accepts is never read as a date: the result is what [parse_datetime]
    makes of it, and the key of a predicate for it (qualifier other than
    ['in'] and ['range']) never gets the ["__date"] part. *)
Theorem datetime_bare_date_origin `{Runtime} (self : filter) (q : qualifier)
        (v : string) :
  cls self = DateTimeFieldFilter ->
  (forall d, fst (clean_value q v self) = Ok (VDate d) ->
             Re.date_re v = true /\ Re.datetime_re v = false
             /\ parse_date v = Ok (Some d))
  /\ (Re.datetime_re v = true ->
      Re.date_re v = false
      /\ fst (clean_value q v self)
         = result_map (fun o => match o with
                                | Some t => VDateTime t
                                | None => VNone
                                end) (parse_datetime v))
  /\ (forall invert partial p self',
         Re.datetime_re v = true ->
         q <> Some "in" -> q <> Some "range" ->
         get_q q v invert partial self = (Ok p, self') ->
         key p = partial ++ name (field self) ++ suffix_of q).
Proof.
  intros Hcls.
  pose proof (datetime_clean_value_eq self q v Hcls) as Hc.
  unfold DateTimeFieldFilter_clean_value in Hc.
  split; [|split].
  - intros d Hd. rewrite Hc in Hd.
    destruct (Re.datetime_re v).
    + destruct (parse_datetime v) as [[t|]|]; discriminate.
    + destruct (Re.date_re v); [|discriminate].
      destruct (parse_date v) as [[d'|]|]; try discriminate.
      injection Hd as <-. auto.
  - intros Hre. split; [apply date_datetime_disjoint; exact Hre|].
    rewrite Hc, Hre. reflexivity.
  - intros invert partial p self' Hre Hin Hr Hres.
    destruct (get_q_key_shape _ _ _ _ _ _ _ Hres) as (Hq & _ & Hkey).
    rewrite Hkey.
    destruct (filter_cls_eq_dec (cls self) DateTimeFieldFilter); [|contradiction].
    assert (Hnd : date_valued (value p) = false).
    { destruct (qualifier_eq_dec q (Some "isnull")) as [-> | Hnull].
      - rewrite (isnull_result self v invert partial Hq) in Hres.
        injection Hres as <- _. reflexivity.
      - rewrite get_q_cases in Hres.
        destruct (filter_cls_eq_dec (cls self) DateTimeFieldFilter); [|contradiction].
        rewrite (DateTimeFieldFilter_get_q_single _ _ _ _ _ Hq
                   (qual_multi_false _ Hin Hr) (qual_is_false _ _ Hnull)) in Hres.
        rewrite Hc, Hre in Hres.
        destruct (parse_datetime v) as [[t|]|err]; simpl in Hres.
        + injection Hres as <- _. reflexivity.
        + injection Hres as <- _. reflexivity.
        + destruct err; discriminate. }
    rewrite Hnd. reflexivity.
Qed.

Lemma datetime_bare_date_origin_witness :
  let self := new_filter DateTimeFieldFilter Sample.animal_birth in
  Re.date_re "2020-02-29T10:20:30Z" = false
  /\ fst (clean_value (RT := Sample.runtime) (Some "gte") "2020-02-29T10:20:30Z" self)
     = Ok (VDateTime (mkDateTime (mkDate 2020 2 29) (mkTime 10 20 30 0 (Some UTC))))
  /\ key (mkQ false "birth__gte"
            (VDateTime (mkDateTime (mkDate 2020 2 29) (mkTime 10 20 30 0 (Some UTC)))))
     = "" ++ "birth" ++ "__gte".
Proof.
  intros self.
  pose proof (datetime_bare_date_origin (H := Sample.runtime) self (Some "gte")
                "2020-02-29T10:20:30Z" eq_refl) as (_ & Hdt & Hkey).
  destruct (Hdt eq_refl) as [Hre Hval].
  split; [exact Hre|]. split; [exact Hval|].
  apply (Hkey false "" _ self eq_refl); try discriminate. reflexivity.
Defined.

(** X8. Whatever a time filter returns from [clean_value] is a time with
    a time zone, an hour from 0 to 23, a minute and a second from 0 to 59
    and microseconds from 0 to 999999, and the raw value matched
    [time_re]. *)
Theorem time_clean_value_valid `{Runtime} (self : filter) (q : qualifier)
        (v : string) (c : pyval) :
  cls self = TimeFieldFilter ->
  fst (clean_value q v self) = Ok c ->
  exists t zone,
    c = VTime t /\ tz t = Some zone
    /\ (0 <= hour t <= 23)%Z /\ (0 <= minute t <= 59)%Z
    /\ (0 <= second t <= 59)%Z /\ (0 <= microsecond t <= 999999)%Z
    /\ Re.time_re v <> None.
Proof.
  intros Hcls. rewrite (clean_value_time _ _ _ Hcls).
  unfold TimeFieldFilter_clean_value.
  destruct (Re.time_re v) as [[[[[h m] s] f] z]|]; [|discriminate].
  destruct (py_int h) as [hh|]; [|discriminate].
  destruct (py_int m) as [mm|]; [|discriminate].
  destruct (py_int s) as [ss|]; [|discriminate].
  cbn [result_bind].
  destruct (py_int (microsecond_digits f)) as [us|]; [|discriminate].
  cbn [result_bind].
  destruct (time_tzinfo z) as [zone|]; [|discriminate].
  cbn [result_bind]. unfold py_time.
  destruct (_ && _)%bool eqn:Hrange; [|discriminate].
  intros [= <-]. exists (mkTime hh mm ss us (Some zone)), zone.
  repeat (apply andb_true_iff in Hrange as [Hrange ?]).
  cbn [hour minute second microsecond tz].
  repeat split; try lia; discriminate.
Qed.

Lemma time_clean_value_valid_witness :
  exists t zone,
    VTime (mkTime 12 30 59 500000 (Some (FixedOffset 120))) = VTime t
    /\ tz t = Some zone
    /\ (0 <= hour t <= 23)%Z /\ (0 <= minute t <= 59)%Z
    /\ (0 <= second t <= 59)%Z /\ (0 <= microsecond t <= 999999)%Z
    /\ Re.time_re "12:30:59.5+0200" <> None.
Proof.
  apply (time_clean_value_valid (H := Sample.runtime)
           (new_filter TimeFieldFilter Sample.animal_fed) None "12:30:59.5+0200").
  - reflexivity.
  - reflexivity.
Defined.

(** X9. [ArrayFieldFilter.get_field_filter] caches what it finds in
    [self._field_filter] and changes nothing else of the filter object.
    With [reset] it searches anew.  Once a filter class is cached, a later
    call without [reset] returns that class for every [field_class] it is
    asked about, and leaves the object alone; while nothing is found the
    next call searches again. *)
Theorem get_field_filter_cache (fc fc' : field_cls) (reset : bool) (self : filter) :
  let first := get_field_filter fc reset self in
  (reset = true -> fst first = Ok (find_field_filter fc))
  /\ (exists r, fst first = Ok r /\ _field_filter (snd first) = r)
  /\ cls (snd first) = cls self /\ field (snd first) = field self
  /\ (forall c, fst first = Ok (Some c) ->
                get_field_filter fc' false (snd first) = (Ok (Some c), snd first))
  /\ (fst first = Ok None ->
      fst (get_field_filter fc' false (snd first)) = Ok (find_field_filter fc')).
Proof.
  destruct self as [k f cache]. unfold get_field_filter.
  cbn [cls field _field_filter].
  assert (Hsearch :
    let first := (Ok (find_field_filter fc), mkFilter k f (find_field_filter fc)) in
    fst first = Ok (find_field_filter fc)
    /\ (exists r, fst first = Ok r /\ _field_filter (snd first) = r)
    /\ cls (snd first) = k /\ field (snd first) = f
    /\ (forall c, fst first = Ok (Some c) ->
          match (if negb false then _field_filter (snd first) else None) with
          | Some c0 => (Ok (Some c0), snd first)
          | None => (Ok (find_field_filter fc'),
                     mkFilter (cls (snd first)) (field (snd first))
                              (find_field_filter fc'))
          end = (Ok (Some c), snd first))
    /\ (fst first = Ok None ->
        fst match (if negb false then _field_filter (snd first) else None) with
            | Some c0 => (Ok (Some c0), snd first)
            | None => (Ok (find_field_filter fc'),
                       mkFilter (cls (snd first)) (field (snd first))
                                (find_field_filter fc'))
            end = Ok (find_field_filter fc'))).
  { cbn. split; [reflexivity|]. split; [eauto|]. split; [reflexivity|].
    split; [reflexivity|]. split.
    - intros c Hc. injection Hc as Hc. rewrite Hc. reflexivity.
    - intros Hc. injection Hc as Hc. rewrite Hc. reflexivity. }
  destruct reset; cbn [negb].
  - destruct Hsearch as (H1 & H2 & H3 & H4 & H5 & H6).
    split; [intros _; exact H1|]. split; [exact H2|]. split; [exact H3|].
    split; [exact H4|]. split; [exact H5 | exact H6].
  - destruct cache as [c|].
    + cbn. split; [discriminate|]. split; [eauto|]. split; [reflexivity|].
      split; [reflexivity|]. split; [|discriminate].
      intros c0 Hc. injection Hc as <-. reflexivity.
    + destruct Hsearch as (H1 & H2 & H3 & H4 & H5 & H6).
      split; [discriminate|]. split; [exact H2|]. split; [exact H3|].
      split; [exact H4|]. split; [exact H5 | exact H6].
Qed.

(** X10. The search of [get_field_filter] through the filter classes finds
    the class [c] for a field class exactly when [c] lists that field
    class in its [fields]: no field class is listed by two filter
    classes, so the last match of the loops is the only one. *)
Theorem find_field_filter_registry (fc : field_cls) (c : filter_cls) :
  find_field_filter fc = Some c <-> In fc (fields c).
Proof.
  split.
  - destruct fc; unfold find_field_filter; simpl; intros [= <-]; simpl; tauto.
  - destruct c; simpl; intros Hin;
      repeat (destruct Hin as [<- | Hin]; [reflexivity|]); contradiction.
Qed.

(* ================================================================== *)
(** ** [ChoiceEnum] and the case-folding fields *)

Example choice_enum_init :
  ChoiceEnum.init ["new"; "in progress"; ""; "on/off"] []
  = [("NEW", "new"); ("IN_PROGRESS", "in progress"); ("NONE", ""); ("ON_OFF", "on/off")].
Proof. reflexivity. Qed.

Example choice_enum_choices :
  ChoiceEnum.choices (ChoiceEnum.init ["new"; "in progress"; ""] [])
  = [("", "NONE"); ("in progress", "IN_PROGRESS"); ("new", "NEW")].
Proof. reflexivity. Qed.

Section ChoiceEnumFacts.
Import History ChoiceEnum.

Lemma pair_leb_total (a b : string * string) :
  pair_leb a b = true \/ pair_leb b a = true.
Proof.
  unfold pair_leb. rewrite (String.compare_antisym (fst b) (fst a)).
  destruct (String.compare (fst a) (fst b)); simpl; auto.
  apply String.leb_total.
Qed.

Lemma insert_sorted_perm (x : string * string) (l : list (string * string)) :
  Permutation (insert_sorted x l) (x :: l).
Proof.
  induction l as [|y r IH]; simpl; [reflexivity|].
  destruct (pair_leb x y); [reflexivity|].
  rewrite IH. apply perm_swap.
Qed.

Lemma insert_sorted_Sorted (x : string * string) (l : list (string * string)) :
  Sorted (fun a b => pair_leb a b = true) l ->
  Sorted (fun a b => pair_leb a b = true) (insert_sorted x l).
Proof.
  induction l as [|y r IH]; simpl; intros Hs.
  - repeat constructor.
  - destruct (pair_leb x y) eqn:Hxy.
    + constructor; [exact Hs | constructor; exact Hxy].
    + inversion Hs as [|? ? Hr Hhd]; subst.
      constructor; [apply IH; exact Hr|].
      assert (Hyx : pair_leb y x = true).
      { destruct (pair_leb_total x y) as [E | E]; [congruence | exact E]. }
      destruct r as [|z r']; simpl.
      * constructor. exact Hyx.
      * destruct (pair_leb x z); constructor; [exact Hyx|].
        inversion Hhd; subst. assumption.
Qed.

Lemma sorted_perm (l : list (string * string)) : Permutation (sorted l) l.
Proof.
  induction l as [|x r IH]; simpl; [reflexivity|].
  rewrite insert_sorted_perm, IH. reflexivity.
Qed.

Lemma sorted_Sorted (l : list (string * string)) :
  Sorted (fun a b => pair_leb a b = true) (sorted l).
Proof.
  induction l as [|x r IH]; simpl; [constructor|].
  apply insert_sorted_Sorted. exact IH.
Qed.


Lemma find_value_first (items : dict string) (v : string) (kv : string * string) :
  find (fun kv => String.eqb (snd kv) v) items = Some kv ->
  exists pre post,
    items = (pre ++ kv :: post)%list /\ snd kv = v
    /\ Forall (fun e => snd e <> v) pre.
Proof.
  induction items as [|[k0 v0] r IH]; simpl; [discriminate|].
  destruct (String.eqb v0 v) eqn:E.
  - intros [= <-]. apply String.eqb_eq in E. exists [], r. simpl. auto.
  - intros Hf. destruct (IH Hf) as (pre & post & -> & Hv & Hpre).
    exists ((k0, v0) :: pre), post. repeat split; auto.
    constructor; [|exact Hpre]. simpl. apply String.eqb_neq. exact E.
Qed.


Lemma fold_max_ge (r : dict string) (m : nat) :
  m <= fold_left (fun m kv => Nat.max m (String.length (snd kv))) r m
  /\ Forall (fun kv => String.length (snd kv)
                       <= fold_left (fun m kv => Nat.max m (String.length (snd kv))) r m) r.
Proof.
  revert m. induction r as [|kv r IH]; intros m; simpl.
  - split; [lia | constructor].
  - destruct (IH (Nat.max m (String.length (snd kv)))) as [Hm Hall].
    split; [lia|]. constructor; [lia | exact Hall].
Qed.

Lemma fold_max_attained (r : dict string) (m : nat) :
  fold_left (fun m kv => Nat.max m (String.length (snd kv))) r m = m
  \/ exists kv, In kv r
      /\ String.length (snd kv)
         = fold_left (fun m kv => Nat.max m (String.length (snd kv))) r m.
Proof.
  revert m. induction r as [|kv r IH]; intros m; simpl; [auto|].
  destruct (IH (Nat.max m (String.length (snd kv)))) as [E | (kv' & Hin & E)].
  - rewrite E. destruct (Nat.max_spec m (String.length (snd kv))) as [[_ Hmax] | [_ Hmax]].
    + right. exists kv. split; [auto | lia].
    + left. lia.
  - right. exists kv'. auto.
Qed.

(* ---------- __init__ ---------- *)

Lemma init_step (k : string) (items : dict string) :
  (if String.eqb k "" then dict_set items "NONE" ""
   else dict_set items (upper (sub_separators k)) k)
  = dict_set items (key_of k) k.
Proof.
  unfold key_of. destruct (String.eqb k "") eqn:E; [|reflexivity].
  apply String.eqb_eq in E. subst k. reflexivity.
Qed.

Lemma init_snoc (args : list string) (k : string) (kwargs : dict string) :
  init (args ++ [k]) kwargs = dict_set (init args kwargs) (key_of k) k.
Proof.
  unfold init. rewrite fold_left_app. simpl. apply init_step.
Qed.

Lemma key_char_normal (c : ascii) :
  let c' := (fun c => if is_lower c then ascii_of_nat (nat_of_ascii c - 32) else c)
              (if is_separator c then "_"%char else c) in
  negb (is_separator c') && negb (is_lower c') = true.
Proof.
  destruct c as [[] [] [] [] [] [] [] []]; reflexivity.
Qed.

Lemma key_of_normal (k : string) :
  string_forall (fun c => negb (is_separator c) && negb (is_lower c)) (key_of k) = true.
Proof.
  unfold key_of. destruct (String.eqb k ""); [reflexivity|].
  unfold upper, sub_separators.
  induction k as [|c r IH]; [reflexivity|].
  cbn [string_map string_forall]. rewrite IH, andb_true_r.
  apply key_char_normal.
Qed.

(** X14. [ChoiceEnum.__init__] keeps every key of [self.items] once; the
    item under a key is the last positional argument that normalises to
    this key, and the keyword argument of this name when there is none;
    the key of a positional argument holds no blank, slash, plus, minus or
    lower-case letter, and an argument that normalises to it is filed
    under it; and unless a keyword argument is called [items], the
    attribute [self.items] still is this dict after
    [self.__dict__.update]. *)
Theorem init_items (args : list string) (kwargs : dict string) :
  NoDup (keys kwargs) ->
  NoDup (keys (init args kwargs))
  /\ (forall key,
         dict_get (init args kwargs) key
         = match find (fun k => String.eqb (key_of k) key) (rev args) with
           | Some k => Some k
           | None => dict_get kwargs key
           end)
  /\ (forall k, In k args ->
         string_forall (fun c => negb (is_separator c) && negb (is_lower c))
                       (key_of k) = true
         /\ exists k', dict_get (init args kwargs) (key_of k) = Some k'
                       /\ key_of k' = key_of k)
  /\ (dict_get kwargs "items" = None ->
      items_attribute args kwargs = inl (init args kwargs)).
Proof.
  intros Hnd.
  assert (Hget : forall key,
    dict_get (init args kwargs) key
    = match find (fun k => String.eqb (key_of k) key) (rev args) with
      | Some k => Some k
      | None => dict_get kwargs key
      end).
  { induction args as [|k r IH] using rev_ind; intros key; [reflexivity|].
    rewrite init_snoc, rev_app_distr. simpl.
    destruct (String.eqb (key_of k) key) eqn:E.
    - apply String.eqb_eq in E. subst key. apply dict_get_set_same.
    - apply String.eqb_neq in E. rewrite dict_get_set_other by exact E. apply IH. }
  split; [|split; [exact Hget|split]].
  - clear Hget. induction args as [|k r IH] using rev_ind; [exact Hnd|].
    rewrite init_snoc. apply keys_set_NoDup. exact IH.
  - intros k Hin. split; [apply key_of_normal|].
    rewrite Hget.
    destruct (find (fun k0 => String.eqb (key_of k0) (key_of k)) (rev args)) as [k'|] eqn:Hf.
    + exists k'. split; [reflexivity|].
      apply find_some in Hf as [_ E]. apply String.eqb_eq in E. exact E.
    + exfalso. apply in_rev in Hin.
      pose proof (find_none _ _ Hf _ Hin) as E. simpl in E.
      rewrite String.eqb_refl in E. discriminate.
  - intros Hkw. unfold items_attribute. rewrite Hget, Hkw.
    destruct (find (fun k => String.eqb (key_of k) "items") (rev args)) as [k|] eqn:Hf;
      [|reflexivity].
    apply find_some in Hf as [_ E]. apply String.eqb_eq in E.
    pose proof (key_of_normal k) as Hk. rewrite E in Hk. discriminate Hk.
Qed.

Lemma init_distinct (args : list string) :
  NoDup (map key_of args) ->
  init args [] = map (fun k => (key_of k, k)) args.
Proof.
  induction args as [|k r IH] using rev_ind; intros Hnd; [reflexivity|].
  rewrite init_snoc, map_app in *. simpl in *.
  apply NoDup_remove in Hnd as [Hnd Hnin]. rewrite app_nil_r in *.
  rewrite (IH Hnd). clear IH Hnd.
  induction r as [|x r IH]; simpl; [reflexivity|].
  simpl in Hnin.
  destruct (String.eqb (key_of x) (key_of k)) eqn:E.
  - apply String.eqb_eq in E. exfalso. apply Hnin. left. exact E.
  - rewrite IH; [reflexivity|]. intros Hin. apply Hnin. right. exact Hin.
Qed.

Lemma init_lookup (args : list string) (kwargs : dict string) (key : string) :
  dict_get (init args kwargs) key
  = match find (fun k => String.eqb (key_of k) key) (rev args) with
    | Some k => Some k
    | None => dict_get kwargs key
    end.
Proof.
  induction args as [|k r IH] using rev_ind; [reflexivity|].
  rewrite init_snoc, rev_app_distr. simpl.
  destruct (String.eqb (key_of k) key) eqn:E.
  - apply String.eqb_eq in E. subst key. apply dict_get_set_same.
  - apply String.eqb_neq in E. rewrite dict_get_set_other by exact E. apply IH.
Qed.

(** A name with a lower-case letter or a separator in it is the key of no
    positional argument. *)
Lemma init_lookup_keyword (args : list string) (kwargs : dict string) (key : string) :
  string_forall (fun c => negb (is_separator c) && negb (is_lower c)) key = false ->
  dict_get (init args kwargs) key = dict_get kwargs key.
Proof.
  intros Hkey. rewrite init_lookup.
  destruct (find (fun k => String.eqb (key_of k) key) (rev args)) as [k|] eqn:Hf;
    [|reflexivity].
  apply find_some in Hf as [_ E]. apply String.eqb_eq in E.
  pose proof (key_of_normal k) as Hk. rewrite E in Hk. congruence.
Qed.

Lemma init_keys_NoDup (args : list string) (kwargs : dict string) :
  NoDup (keys kwargs) -> NoDup (keys (init args kwargs)).
Proof.
  intros Hnd. induction args as [|k r IH] using rev_ind; [exact Hnd|].
  rewrite init_snoc. apply keys_set_NoDup. exact IH.
Qed.

Lemma dict_get_item (items : dict string) (k v : string) :
  dict_get items k = Some v -> In (k, v) items.
Proof.
  induction items as [|[k0 v0] r IH]; simpl; [discriminate|].
  destruct (String.eqb k0 k) eqn:E.
  - apply String.eqb_eq in E. intros [= ->]. subst. auto.
  - intros Hg. right. apply IH. exact Hg.
Qed.

(** With keys that are all different, [name] finds a key of the value
    when there is one. *)
Lemma name_finds (items : dict string) (k v : string) (default : option string) :
  NoDup (keys items) -> dict_get items k = Some v ->
  exists k', ChoiceEnum.name items (Some v) default = Ok (Some k')
             /\ dict_get items k' = Some v.
Proof.
  intros Hnd Hk. unfold ChoiceEnum.name.
  destruct (find (fun kv => String.eqb (snd kv) v) items) as [[k' v']|] eqn:Hf.
  - exists k'. split; [reflexivity|].
    apply find_some in Hf as [Hin Hv]. apply String.eqb_eq in Hv. simpl in Hv.
    subst v'. apply dict_get_In; assumption.
  - exfalso. apply dict_get_item in Hk.
    pose proof (find_none _ _ Hf _ Hk) as Hv. simpl in Hv.
    rewrite String.eqb_refl in Hv. discriminate.
Qed.

(** X13. [ChoiceEnum.__call__] raises [TypeError] when an item is called
    [choices], and else [AttributeError] when one is called [items]: the
    item stands in the place of the method or of the dict.  Otherwise, on
    an enum without items it raises the [ValueError] of [max], and on one
    with items the [CharField] it makes gets the sorted choices and a
    [max_length] that no value exceeds and that the longest value has.
    Only a keyword argument can be in the way: [__init__] files no
    positional argument under [choices] or [items]. *)
Theorem call_max_length (items : dict string) :
  (forall v, dict_get items "choices" = Some v -> call items = Raise TypeError)
  /\ (forall v, dict_get items "choices" = None -> dict_get items "items" = Some v ->
                call items = Raise AttributeError)
  /\ (dict_get items "choices" = None -> dict_get items "items" = None ->
      (items = [] -> call items = Raise ValueError)
      /\ (items <> [] ->
          exists n,
            call items = Ok (mkCharField (choices items) n)
            /\ (forall v k, In (v, k) (choices items) -> String.length v <= n)
            /\ (exists v k, In (v, k) (choices items) /\ String.length v = n)))
  /\ (forall args kwargs,
         items = init args kwargs ->
         dict_get items "choices" = dict_get kwargs "choices"
         /\ dict_get items "items" = dict_get kwargs "items").
Proof.
  split; [|split; [|split]].
  - intros v Hc. unfold call. rewrite Hc. reflexivity.
  - intros v Hc Hi. unfold call. rewrite Hc, Hi. reflexivity.
  - intros Hc Hi. unfold call. rewrite Hc, Hi. clear Hc Hi.
    split; [intros ->; reflexivity|].
    intros Hne. destruct items as [|kv r]; [contradiction|].
    unfold max_length.
    set (n := fold_left (fun m kv => Nat.max m (String.length (snd kv))) r
                        (String.length (snd kv))).
    exists n. split; [reflexivity|].
    assert (Hmem : forall k v, In (v, k) (choices (kv :: r)) <-> In (k, v) (kv :: r)).
    { intros k v. unfold choices. split.
      - intros Hin. apply (Permutation_in _ (sorted_perm _)) in Hin.
        apply in_map_iff in Hin as ([k' v'] & [= <- <-] & Hin). exact Hin.
      - intros Hin. apply (Permutation_in _ (Permutation_sym (sorted_perm _))).
        apply in_map_iff. exists (k, v). auto. }
    destruct (fold_max_ge r (String.length (snd kv))) as [Hfirst Hrest].
    split.
    + intros v k Hin. apply Hmem in Hin. destruct Hin as [-> | Hin].
      * exact Hfirst.
      * rewrite Forall_forall in Hrest. apply (Hrest _ Hin).
    + destruct (fold_max_attained r (String.length (snd kv))) as [E | (kv' & Hin & E)].
      * exists (snd kv), (fst kv). split; [|symmetry; exact E].
        apply Hmem. left. destruct kv; reflexivity.
      * exists (snd kv'), (fst kv'). split; [|exact E].
        apply Hmem. right. destruct kv'; exact Hin.
  - intros args kwargs ->. split; apply init_lookup_keyword; reflexivity.
Qed.

(** X15. When no keyword argument of a [ChoiceEnum] is called [items] or
    [name], its positional arguments normalise to different keys, and
    every keyword argument that holds the value [k] has the key of a
    positional argument (which then takes its place): [name] of the
    positional argument [k] is its normalised key, and the item under this
    key is [k] again. *)
Theorem init_name_round_trip (args : list string) (kwargs : dict string)
        (k : string) (default : option string) :
  NoDup (keys kwargs) ->
  dict_get kwargs "items" = None -> dict_get kwargs "name" = None ->
  NoDup (map key_of args) -> In k args ->
  (forall key, dict_get kwargs key = Some k -> In key (map key_of args)) ->
  name_on_object (init args kwargs) (Some k) default = Ok (Some (key_of k))
  /\ dict_get (init args kwargs) (key_of k) = Some k.
Proof.
  intros Hkw Hitems Hname Hnd Hin Hvals.
  assert (Hfind : forall a, In a args ->
            find (fun x => String.eqb (key_of x) (key_of a)) (rev args) = Some a).
  { intros a Ha.
    destruct (find (fun x => String.eqb (key_of x) (key_of a)) (rev args)) as [a'|] eqn:Hf.
    - apply find_some in Hf as [Ha' E]. apply String.eqb_eq in E.
      apply in_rev in Ha'. f_equal.
      clear - Hnd Ha Ha' E. induction args as [|x r IH]; [contradiction|].
      simpl in Hnd. inversion Hnd as [|? ? Hnin Hr]; subst.
      destruct Ha as [-> | Ha], Ha' as [-> | Ha']; try reflexivity.
      + exfalso. apply Hnin. rewrite <- E. apply in_map. exact Ha'.
      + exfalso. apply Hnin. rewrite E. apply in_map. exact Ha.
      + apply IH; assumption.
    - exfalso. apply in_rev in Ha.
      pose proof (find_none _ _ Hf _ Ha) as E. simpl in E.
      rewrite String.eqb_refl in E. discriminate. }
  assert (Hitem : dict_get (init args kwargs) (key_of k) = Some k).
  { rewrite init_lookup, (Hfind k Hin). reflexivity. }
  split; [|exact Hitem].
  unfold name_on_object.
  rewrite (init_lookup_keyword args kwargs "name" eq_refl), Hname.
  rewrite (init_lookup_keyword args kwargs "items" eq_refl), Hitems.
  destruct (name_finds _ _ _ default (init_keys_NoDup args kwargs Hkw) Hitem)
    as (k' & Hres & Hk').
  rewrite Hres. do 2 f_equal.
  rewrite init_lookup in Hk'.
  destruct (find (fun x => String.eqb (key_of x) k') (rev args)) as [a|] eqn:Hf.
  - apply find_some in Hf as [_ E]. apply String.eqb_eq in E.
    injection Hk' as ->. symmetry. exact E.
  - exfalso. apply Hvals, in_map_iff in Hk' as (a & Ea & Ha).
    apply in_rev in Ha. pose proof (find_none _ _ Hf _ Ha) as E. simpl in E.
    rewrite Ea, String.eqb_refl in E. discriminate.
Qed.

(** A keyword argument with the value of a positional one comes first:
    [ChoiceEnum('new', A='new').name('new')] is ['A']. *)
Example name_keyword_first :
  name_on_object (init ["new"] [("A", "new")]) (Some "new") None = Ok (Some "A").
Proof. reflexivity. Qed.

(* ---------- upper / lower ---------- *)

Lemma upper_char_idem (c : ascii) :
  let up := fun c => if is_lower c then ascii_of_nat (nat_of_ascii c - 32) else c in
  up (up c) = up c /\ is_lower (up c) = false.
Proof.
  destruct c as [[] [] [] [] [] [] [] []]; split; reflexivity.
Qed.

Lemma lower_char_idem (c : ascii) :
  let low := fun c => if is_upper c then ascii_of_nat (nat_of_ascii c + 32) else c in
  low (low c) = low c /\ is_upper (low c) = false.
Proof.
  destruct c as [[] [] [] [] [] [] [] []]; split; reflexivity.
Qed.

Lemma string_map_length (f : ascii -> ascii) (s : string) :
  String.length (string_map f s) = String.length s.
Proof. induction s as [|c r IH]; simpl; [reflexivity | rewrite IH; reflexivity]. Qed.

(** X16. On ASCII strings, [UpperCaseCharField.get_prep_value] and
    [LowerCaseCharField.get_prep_value] return [None] for [None] only,
    keep the length of a string, leave no lower-case (upper-case) letter
    in it, and preparing a prepared value changes nothing. *)
Theorem case_fields_get_prep_value (value : option string) :
  (upper_get_prep_value value = None <-> value = None)
  /\ (lower_get_prep_value value = None <-> value = None)
  /\ upper_get_prep_value (upper_get_prep_value value) = upper_get_prep_value value
  /\ lower_get_prep_value (lower_get_prep_value value) = lower_get_prep_value value
  /\ (forall s, upper_get_prep_value value = Some s ->
                string_forall (fun c => negb (is_lower c)) s = true
                /\ exists v, value = Some v /\ String.length s = String.length v)
  /\ (forall s, lower_get_prep_value value = Some s ->
                string_forall (fun c => negb (is_upper c)) s = true
                /\ exists v, value = Some v /\ String.length s = String.length v).
Proof.
  destruct value as [v|]; simpl.
  2:{ repeat split; try discriminate; auto. }
  split; [split; discriminate|]. split; [split; discriminate|].
  split; [|split; [|split]].
  - f_equal. unfold upper. induction v as [|c r IH]; [reflexivity|].
    cbn [string_map]. rewrite IH. f_equal. apply upper_char_idem.
  - f_equal. unfold lower. induction v as [|c r IH]; [reflexivity|].
    cbn [string_map]. rewrite IH. f_equal. apply lower_char_idem.
  - intros s [= <-]. split.
    + unfold upper. induction v as [|c r IH]; [reflexivity|].
      cbn [string_map string_forall]. rewrite IH, andb_true_r.
      rewrite (proj2 (upper_char_idem c)). reflexivity.
    + exists v. split; [reflexivity | apply string_map_length].
  - intros s [= <-]. split.
    + unfold lower. induction v as [|c r IH]; [reflexivity|].
      cbn [string_map string_forall]. rewrite IH, andb_true_r.
      rewrite (proj2 (lower_char_idem c)). reflexivity.
    + exists v. split; [reflexivity | apply string_map_length].
Qed.

End ChoiceEnumFacts.


Lemma status_keys_NoDup : NoDup (History.keys ChoiceEnum.Sample.status).
Proof. repeat constructor; simpl; intuition discriminate. Defined.


Lemma init_items_witness :
  History.dict_get
    (ChoiceEnum.init ChoiceEnum.Sample.status_names [("NEW", "legacy"); ("OLD", "old")])
    "NEW"
  = Some "new"
  /\ History.dict_get
       (ChoiceEnum.init ChoiceEnum.Sample.status_names [("NEW", "legacy"); ("OLD", "old")])
       "OLD"
     = Some "old".
Proof.
  assert (Hkw : NoDup (History.keys [("NEW", "legacy"); ("OLD", "old")]))
    by (repeat constructor; simpl; intuition discriminate).
  pose proof (init_items ChoiceEnum.Sample.status_names _ Hkw) as (_ & Hget & _).
  split; [exact (Hget "NEW") | exact (Hget "OLD")].
Defined.

Lemma init_name_round_trip_witness :
  ChoiceEnum.name_on_object
    (ChoiceEnum.init ChoiceEnum.Sample.status_names [("NEW", "in progress"); ("OLD", "old")])
    (Some "in progress") None
  = Ok (Some "IN_PROGRESS")
  /\ History.dict_get
       (ChoiceEnum.init ChoiceEnum.Sample.status_names
          [("NEW", "in progress"); ("OLD", "old")])
       "IN_PROGRESS"
     = Some "in progress".
Proof.
  apply (init_name_round_trip ChoiceEnum.Sample.status_names
           [("NEW", "in progress"); ("OLD", "old")] "in progress" None).
  - repeat constructor; simpl; intuition discriminate.
  - reflexivity.
  - reflexivity.
  - repeat constructor; simpl; intuition discriminate.
  - simpl. tauto.
  - intros key. cbn [History.dict_get].
    destruct (String.eqb "NEW" key) eqn:E.
    + apply String.eqb_eq in E. subst key. intros _. left. reflexivity.
    + destruct (String.eqb "OLD" key); intros Hk; discriminate Hk.
Defined.

Lemma call_max_length_witness :
  ChoiceEnum.call [("choices", "x")] = Raise TypeError
  /\ ChoiceEnum.call [("items", "x")] = Raise AttributeError
  /\ ChoiceEnum.call [] = Raise ValueError.
Proof.
  split; [|split].
  - apply (proj1 (call_max_length [("choices", "x")]) "x"). reflexivity.
  - apply (proj1 (proj2 (call_max_length [("items", "x")])) "x"); reflexivity.
  - apply (proj1 (proj2 (proj2 (call_max_length []))) eq_refl eq_refl). reflexivity.
Defined.

(* ================================================================== *)
(** ** The concrete fields and the history handlers, once more *)

Section HistoryMore.
Import History HistoryNotions.
Context {V : Type} (py_str : V -> V) (py_ne : V -> V -> bool)
        (truthy : V -> bool).

Lemma fields_dict_taken (self : model_instance V) (skip : bool) :
  binder_concrete_fields_as_dict py_str self skip
  = fold_left (fun fields field =>
                 dict_set fields (mf_name field) (field_value py_str self field))
              (List.filter (taken self skip) (get_fields self)) [].
Proof.
  unfold binder_concrete_fields_as_dict.
  generalize (@nil (string * V)).
  induction (get_fields self) as [|f r IH]; intros d; [reflexivity|].
  unfold taken in *. cbn [List.filter].
  destruct (concrete f && negb (many_to_many f)) eqn:Hc; cbn [andb fold_left].
  - destruct (skip && existsb (String.eqb (attname f)) (get_deferred_fields self));
      cbn [negb fold_left]; rewrite IH; [reflexivity|].
    unfold field_value. destruct (kind f); reflexivity.
  - apply IH.
Qed.

Lemma fold_set_get {F : Type} (nm : F -> string) (val : F -> V) (l : list F)
      (d : dict V) (n : string) :
  dict_get (fold_left (fun fields field => dict_set fields (nm field) (val field)) l d) n
  = match find (fun f => String.eqb (nm f) n) (rev l) with
    | Some f => Some (val f)
    | None => dict_get d n
    end.
Proof.
  revert d. induction l as [|f r IH] using rev_ind; intros d; [reflexivity|].
  rewrite fold_left_app, rev_app_distr. simpl.
  destruct (String.eqb (nm f) n) eqn:E.
  - apply String.eqb_eq in E. subst n. apply dict_get_set_same.
  - apply String.eqb_neq in E. rewrite dict_get_set_other by exact E. apply IH.
Qed.

Lemma fields_dict_get (self : model_instance V) (skip : bool) (n : string) :
  dict_get (binder_concrete_fields_as_dict py_str self skip) n
  = option_map (field_value py_str self)
      (find (fun f => String.eqb (mf_name f) n)
            (rev (List.filter (taken self skip) (get_fields self)))).
Proof.
  rewrite fields_dict_taken, fold_set_get. destruct (find _ _); reflexivity.
Qed.

Lemma fields_dict_keys (self : model_instance V) (skip : bool) (n : string) :
  In n (keys (binder_concrete_fields_as_dict py_str self skip)) <->
  exists f, In f (get_fields self) /\ taken self skip f = true /\ mf_name f = n.
Proof.
  split.
  - intros Hin.
    destruct (dict_get (binder_concrete_fields_as_dict py_str self skip) n) eqn:Hg.
    + rewrite fields_dict_get in Hg.
      destruct (find _ _) as [f|] eqn:Hf; [|discriminate].
      apply find_some in Hf as [Hf E]. apply String.eqb_eq in E.
      apply in_rev, filter_In in Hf as [Hf Ht]. exists f. auto.
    + apply dict_get_None in Hg. contradiction.
  - intros (f & Hf & Ht & Hn).
    destruct (dict_get (binder_concrete_fields_as_dict py_str self skip) n) eqn:Hg.
    + destruct (in_dec string_dec n
                  (keys (binder_concrete_fields_as_dict py_str self skip)))
        as [Hin | Hnin]; [exact Hin|].
      apply dict_get_None in Hnin. congruence.
    + exfalso. rewrite fields_dict_get in Hg.
      destruct (find _ _) as [f'|] eqn:Hf'; [discriminate|].
      assert (Hin : In f (rev (List.filter (taken self skip) (get_fields self)))).
      { apply -> in_rev. apply filter_In. auto. }
      pose proof (find_none _ _ Hf' _ Hin) as E. simpl in E.
      subst n. rewrite String.eqb_refl in E. discriminate.
Qed.

(** X17. [binder_concrete_fields_as_dict] has a key for exactly the names
    of the fields that are concrete, not many-to-many and, with
    [skip_deferred_fields], not deferred; every key once; under a name it
    holds the value of the last such field of this name: the attribute
    [<name>_id] for a foreign key, [str] of the attribute for a file
    field, the attribute itself otherwise.  The keys with
    [skip_deferred_fields] are among the keys without. *)
Theorem fields_dict_lookup (self : model_instance V) (skip : bool) (n : string) :
  dict_get (binder_concrete_fields_as_dict py_str self skip) n
  = option_map (field_value py_str self)
      (find (fun f => String.eqb (mf_name f) n)
            (rev (List.filter (taken self skip) (get_fields self))))
  /\ (In n (keys (binder_concrete_fields_as_dict py_str self skip)) <->
      exists f, In f (get_fields self) /\ taken self skip f = true /\ mf_name f = n)
  /\ (In n (keys (binder_concrete_fields_as_dict py_str self true)) ->
      In n (keys (binder_concrete_fields_as_dict py_str self false)))
  /\ NoDup (keys (binder_concrete_fields_as_dict py_str self skip)).
Proof.
  split; [apply fields_dict_get|]. split; [apply fields_dict_keys|].
  split; [|apply fields_dict_NoDup].
  intros Hin. apply fields_dict_keys in Hin as (f & Hf & Ht & Hn).
  apply fields_dict_keys.
  exists f. split; [exact Hf|]. split; [|exact Hn].
  unfold taken in *. apply andb_true_iff in Ht as [Ht _]. rewrite Ht. reflexivity.
Qed.

Lemma fields_dict_set_history (i : model_instance V) (h : dict (snapshot_value V))
      (skip : bool) :
  binder_concrete_fields_as_dict py_str (set_history i h) skip
  = binder_concrete_fields_as_dict py_str i skip.
Proof. reflexivity. Qed.

(** X18. When no value differs from itself, [history_obj_post_save] is
    idempotent: a second call on the instance and the log that the first
    one left adds no record and changes no snapshot. *)
Theorem post_save_twice (sender : string) (inst : model_instance V)
        (log : list (change_record V)) :
  (forall v, py_ne v v = false) ->
  let first := history_obj_post_save py_str py_ne sender inst log in
  history_obj_post_save py_str py_ne sender (snd first) (fst first) = first.
Proof.
  intros Hirr first.
  assert (Hfirst : first
    = ((log ++ emitted py_ne sender (pk inst) (_history inst)
                 (binder_concrete_fields_as_dict py_str inst false))%list,
       set_history inst
         (refreshed py_ne (_history inst)
                    (binder_concrete_fields_as_dict py_str inst false)))).
  { unfold first, history_obj_post_save.
    apply post_save_fold. apply fields_dict_NoDup. }
  rewrite Hfirst. cbn [fst snd].
  rewrite <- Hfirst at 1. rewrite Hfirst.
  apply post_save_unchanged.
  rewrite fields_dict_set_history. cbn [_history set_history].
  intros n v old Hin Hget.
  destruct (dict_get (_history inst) n) as [old0|] eqn:Hold.
  - rewrite (refreshed_item py_str py_ne (fun _ => true) _ _ n v old0
               (fields_dict_NoDup py_str inst false) Hin Hold) in Hget.
    injection Hget as <-.
    destruct (differs py_ne old0 v) eqn:Hd; [apply Hirr | exact Hd].
  - rewrite (refreshed_absent py_ne _ _ _ Hold) in Hget. discriminate.
Qed.

(** X19. [history_obj_post_save] only appends to the log, at most one
    record for each concrete field and no two for one field.  Every
    record it adds carries the sender and the primary key of the instance,
    the name and the current value of a concrete field, and as old value
    the snapshot of this field, which differs from the current value;
    afterwards the snapshot of this field is the current value.  The
    snapshot of every other field, the fields and the primary key of the
    instance stay as they were. *)
Theorem post_save_log (sender : string) (inst : model_instance V)
        (log : list (change_record V)) :
  let items := binder_concrete_fields_as_dict py_str inst false in
  let result := history_obj_post_save py_str py_ne sender inst log in
  exists added,
    fst result = (log ++ added)%list
    /\ length added <= length items
    /\ NoDup (map ch_field added)
    /\ (forall r, In r added ->
          ch_sender r = sender /\ ch_pk r = pk inst
          /\ In (ch_field r, ch_new r) items
          /\ dict_get (_history inst) (ch_field r) = Some (ch_old r)
          /\ differs py_ne (ch_old r) (ch_new r) = true
          /\ dict_get (_history (snd result)) (ch_field r) = Some (Known (ch_new r)))
    /\ (forall n, ~ In n (map ch_field added) ->
          dict_get (_history (snd result)) n = dict_get (_history inst) n)
    /\ get_fields (snd result) = get_fields inst /\ pk (snd result) = pk inst.
Proof.
  intros items result.
  pose proof (fields_dict_NoDup py_str inst false) as Hnd. fold items in Hnd.
  assert (Hres : result
    = ((log ++ emitted py_ne sender (pk inst) (_history inst) items)%list,
       set_history inst (refreshed py_ne (_history inst) items))).
  { unfold result, history_obj_post_save. apply post_save_fold. exact Hnd. }
  exists (emitted py_ne sender (pk inst) (_history inst) items).
  rewrite Hres. cbn [fst snd _history set_history get_fields pk].
  assert (Hin : forall r,
    In r (emitted py_ne sender (pk inst) (_history inst) items) ->
    ch_sender r = sender /\ ch_pk r = pk inst
    /\ In (ch_field r, ch_new r) items
    /\ dict_get (_history inst) (ch_field r) = Some (ch_old r)
    /\ differs py_ne (ch_old r) (ch_new r) = true).
  { intros r Hr. unfold emitted in Hr. apply in_flat_map in Hr as ([n v] & Hitem & Hr).
    cbn [fst snd] in Hr.
    destruct (dict_get (_history inst) n) as [old|] eqn:Hget; [|contradiction].
    destruct (differs py_ne old v) eqn:Hd; [|contradiction].
    destruct Hr as [<- | []]. cbn. auto. }
  split; [reflexivity|]. split; [|split; [|split; [|split]]].
  - clear. unfold emitted. induction items as [|[n v] r IH]; simpl; [lia|].
    rewrite length_app.
    destruct (dict_get (_history inst) n) as [old|]; [|simpl; lia].
    destruct (differs py_ne old v); simpl; lia.
  - clear - Hnd. unfold emitted.
    assert (Hsub : forall d n,
      In n (map ch_field
              (flat_map (fun item =>
                 match dict_get (_history inst) (fst item) with
                 | Some old_value =>
                     if differs py_ne old_value (snd item)
                     then [mkChange sender (pk inst) (fst item) old_value (snd item)]
                     else []
                 | None => []
                 end) d)) -> In n (keys d)).
    { intros d n Hn. apply in_map_iff in Hn as (r & <- & Hr).
      apply in_flat_map in Hr as ([n' v'] & Hitem & Hr). cbn [fst snd] in Hr.
      destruct (dict_get (_history inst) n'); [|contradiction].
      destruct (differs py_ne s v'); [|contradiction].
      destruct Hr as [<- | []]. cbn. apply (in_map fst) in Hitem. exact Hitem. }
    induction items as [|[n v] r IH]; simpl; [constructor|].
    inversion Hnd as [|? ? Hnin Hr]; subst.
    rewrite map_app. specialize (IH Hr).
    destruct (dict_get (_history inst) n) as [old|]; [|exact IH].
    destruct (differs py_ne old v); [|exact IH].
    simpl. constructor; [|exact IH].
    intros Hn. apply Hnin. apply Hsub. exact Hn.
  - intros r Hr. destruct (Hin r Hr) as (H1 & H2 & H3 & H4 & H5).
    repeat (split; [assumption|]).
    rewrite (refreshed_item py_str py_ne (fun _ => true) _ _ _ _ _ Hnd H3 H4), H5. reflexivity.
  - intros n Hn.
    destruct (in_dec string_dec n (keys items)) as [Hk | Hk].
    2:{ apply (refreshed_other py_str py_ne (fun _ => true)). exact Hk. }
    apply in_map_iff in Hk as ([n' v] & Hn' & Hitem). cbn in Hn'. subst n'.
    destruct (dict_get (_history inst) n) as [old|] eqn:Hget.
    + rewrite (refreshed_item py_str py_ne (fun _ => true) _ _ _ _ _ Hnd Hitem Hget).
      destruct (differs py_ne old v) eqn:Hd; [|reflexivity].
      exfalso. apply Hn. apply in_map_iff.
      exists (mkChange sender (pk inst) n old v). split; [reflexivity|].
      unfold emitted. apply in_flat_map. exists (n, v). split; [exact Hitem|].
      cbn [fst snd]. rewrite Hget, Hd. left. reflexivity.
    + apply (refreshed_absent py_ne). exact Hget.
  - split; reflexivity.
Qed.

(** X20. For an instance with a primary key whose concrete fields have
    different names, and values that do not differ from themselves:
    [history_obj_post_init] takes the snapshot of the loaded fields, and
    [history_obj_post_save] right after it records nothing and leaves the
    instance as it is. *)
Theorem load_then_save (sender : string) (inst : model_instance V)
        (log : list (change_record V)) :
  truthy (pk inst) = true ->
  (forall v, py_ne v v = false) ->
  NoDup (map mf_name (List.filter (fun f => concrete f && negb (many_to_many f))
                                  (get_fields inst))) ->
  let loaded := history_obj_post_init py_str truthy inst in
  _history loaded
  = map (fun kv => (fst kv, Known (snd kv)))
        (binder_concrete_fields_as_dict py_str inst true)
  /\ history_obj_post_save py_str py_ne sender loaded log = (log, loaded).
Proof.
  intros Hpk Hirr Hnames loaded.
  assert (Hh : _history loaded
               = map (fun kv => (fst kv, Known (snd kv)))
                     (binder_concrete_fields_as_dict py_str inst true)).
  { unfold loaded, history_obj_post_init. cbn [pk set_history]. rewrite Hpk.
    reflexivity. }
  split; [exact Hh|].
  apply post_save_unchanged.
  assert (Hd : binder_concrete_fields_as_dict py_str loaded false
               = binder_concrete_fields_as_dict py_str inst false).
  { unfold loaded, history_obj_post_init. cbn [pk set_history]. rewrite Hpk.
    reflexivity. }
  rewrite Hd, Hh. intros n v old Hin Hget.
  rewrite (dict_get_map (fun v => Known v)) in Hget.
  destruct (dict_get (binder_concrete_fields_as_dict py_str inst true) n) as [v'|] eqn:Hg;
    [|discriminate].
  injection Hget as <-. simpl.
  assert (Hv : dict_get (binder_concrete_fields_as_dict py_str inst false) n = Some v).
  { apply dict_get_In; [apply fields_dict_NoDup | exact Hin]. }
  assert (Heq : v' = v); [|subst; apply Hirr].
  rewrite fields_dict_taken, fold_set_get in Hg, Hv. simpl in Hg, Hv.
  destruct (find _ (rev (List.filter (taken inst true) _))) as [f1|] eqn:H1;
    [|discriminate].
  destruct (find _ (rev (List.filter (taken inst false) _))) as [f2|] eqn:H2;
    [|discriminate].
  injection Hg as <-. injection Hv as <-.
  apply find_some in H1 as [H1 E1], H2 as [H2 E2].
  apply String.eqb_eq in E1, E2.
  apply in_rev, filter_In in H1 as [H1 T1]. apply in_rev, filter_In in H2 as [H2 T2].
  assert (Hsame : f1 = f2); [|subst; reflexivity].
  assert (C1 : concrete f1 && negb (many_to_many f1) = true).
  { unfold taken in T1. apply andb_true_iff in T1 as [T1 _]. exact T1. }
  assert (C2 : concrete f2 && negb (many_to_many f2) = true).
  { unfold taken in T2. apply andb_true_iff in T2 as [T2 _]. exact T2. }
  clear - Hnames H1 H2 C1 C2 E1 E2.
  induction (get_fields inst) as [|f r IH]; [contradiction|].
  cbn [List.filter] in Hnames.
  destruct (concrete f && negb (many_to_many f)) eqn:Hc.
  - cbn [map] in Hnames. inversion Hnames as [|? ? Hnin Hr]; subst.
    assert (Hmem : forall g, In g r -> concrete g && negb (many_to_many g) = true ->
                             mf_name g = mf_name f -> False).
    { intros g Hg Cg Eg. apply Hnin. rewrite <- Eg. apply in_map.
      apply filter_In. auto. }
    destruct H1 as [<- | H1], H2 as [<- | H2].
    + reflexivity.
    + exfalso. apply (Hmem f2 H2 C2). congruence.
    + exfalso. apply (Hmem f1 H1 C1). congruence.
    + apply IH; assumption.
  - destruct H1 as [<- | H1]; [congruence|].
    destruct H2 as [<- | H2]; [congruence|].
    apply IH; assumption.
Qed.

End HistoryMore.


Lemma sample_ne_irreflexive (v : string) : History.Sample.ne v v = false.
Proof. unfold History.Sample.ne. rewrite String.eqb_refl. reflexivity. Defined.

Lemma post_save_twice_witness :
  let first := History.history_obj_post_save (fun v => v) History.Sample.ne "Animal"
                 History.Sample.scooby_saved [] in
  length (fst first) = 3
  /\ History.history_obj_post_save (fun v => v) History.Sample.ne "Animal"
       (snd first) (fst first) = first.
Proof.
  intros first. split; [reflexivity|].
  apply (post_save_twice (fun v => v) History.Sample.ne "Animal"
           History.Sample.scooby_saved []).
  exact sample_ne_irreflexive.
Defined.

Lemma load_then_save_witness :
  let loaded := History.history_obj_post_init (fun v => v) History.Sample.truthy
                  History.Sample.scooby_saved in
  History._history loaded
  = [("id", History.Known "7"); ("name", History.Known "Scooby");
     ("zoo", History.Known "3")]
  /\ History.history_obj_post_save (fun v => v) History.Sample.ne "Animal" loaded []
     = ([], loaded).
Proof.
  apply (load_then_save (fun v => v) History.Sample.ne History.Sample.truthy "Animal"
           History.Sample.scooby_saved []).
  - reflexivity.
  - exact sample_ne_irreflexive.
  - repeat constructor; simpl; intuition discriminate.
Defined.

(* ================================================================== *)
(** ** The many-to-many handler and the installation of the handlers *)

Section SignalFacts.
Import History Signals.

Lemma filter_first {A} (p : A -> bool) (l : list A) (x : A) :
  index0 (List.filter p l) = Ok x ->
  exists pre post, l = (pre ++ x :: post)%list /\ p x = true
                   /\ Forall (fun y => p y = false) pre.
Proof.
  induction l as [|y r IH]; simpl; [discriminate|].
  destruct (p y) eqn:Hy.
  - simpl. intros [= <-]. exists [], r. auto.
  - intros Hx. destruct (IH Hx) as (pre & post & -> & Hp & Hpre).
    exists (y :: pre), post. auto.
Qed.


(** Induction on a model and the classes below it. *)
Lemma model_class_induction (P : model_class -> Prop) :
  (forall n a h fs subs, Forall P subs -> P (mkModelClass n a h fs subs)) ->
  forall m, P m.
Proof.
  intros Hstep. fix IH 1. intros [n a h fs subs]. apply Hstep.
  induction subs as [|s r IHr]; constructor; [apply IH | exact IHr].
Qed.

Lemma install_spec (model : model_class) :
  install model
  = flat_map (fun m => if tracked m then connect_model m else []) (descendants model).
Proof.
  induction model as [n a h fs subs IH] using model_class_induction.
  cbn [install descendants flat_map]. unfold tracked at 1. cbn [meta_abstract binder_history].
  f_equal.
  induction IH as [|s r Hs _ IHr]; [reflexivity|].
  cbn [flat_map]. rewrite flat_map_app, Hs, IHr. reflexivity.
Qed.

(** X22. [install_history_signal_handlers] does nothing for [None].  For
    a model it connects the handlers of exactly the classes at or below
    the model on which [Meta.abstract] reads false and [Binder.history] is
    set: each such class gets [post_init], [post_save] and [post_delete]
    under its own name, and [m2m_changed] under the join table of each of
    its concrete many-to-many fields; no other connection is made; and
    [post_save] is connected once for every such class.  Where
    [Meta.abstract] reads false on every class, as on the classes that
    Django built, every class with [Binder.history] gets the handlers, a
    class that was declared abstract too. *)
Theorem install_tracked_descendants (model : model_class) :
  install_history_signal_handlers None = []
  /\ (forall m, In m (descendants model) -> tracked m = true ->
        In (mkConnection PostInit (mc_name m))
           (install_history_signal_handlers (Some model))
        /\ In (mkConnection PostSave (mc_name m))
              (install_history_signal_handlers (Some model))
        /\ In (mkConnection PostDelete (mc_name m))
              (install_history_signal_handlers (Some model))
        /\ (forall f, In f (model_fields m) ->
              many_to_many (rf_field f) = true -> concrete (rf_field f) = true ->
              In (mkConnection M2MChanged (through f))
                 (install_history_signal_handlers (Some model))))
  /\ (forall c, In c (install_history_signal_handlers (Some model)) ->
        exists m, In m (descendants model) /\ tracked m = true
                  /\ (conn_signal c = M2MChanged
                      /\ (exists f, In f (model_fields m)
                                    /\ many_to_many (rf_field f) = true
                                    /\ concrete (rf_field f) = true
                                    /\ through f = conn_sender c)
                      \/ conn_signal c <> M2MChanged /\ conn_sender c = mc_name m))
  /\ length (List.filter (fun c => match conn_signal c with PostSave => true | _ => false end)
                         (install_history_signal_handlers (Some model)))
     = length (List.filter tracked (descendants model))
  /\ (Forall (fun m => meta_abstract m = false) (descendants model) ->
      forall m, In m (descendants model) ->
                tracked m = binder_history m
                /\ (binder_history m = true ->
                    In (mkConnection PostSave (mc_name m))
                       (install_history_signal_handlers (Some model)))).
Proof.
  cbn [install_history_signal_handlers]. rewrite install_spec.
  split; [reflexivity|]. split; [|split; [|split]].
  - intros m Hm Ht.
    assert (Hsub : forall c, In c (connect_model m) ->
              In c (flat_map (fun m => if tracked m then connect_model m else [])
                             (descendants model))).
    { intros c Hc. apply in_flat_map. exists m. rewrite Ht. auto. }
    repeat split; try (apply Hsub; unfold connect_model; simpl; tauto).
    intros f Hf Hm2m Hc. apply Hsub. unfold connect_model.
    apply in_or_app. right. apply in_map_iff. exists f. split; [reflexivity|].
    apply filter_In. rewrite Hm2m, Hc. auto.
  - intros c Hc. apply in_flat_map in Hc as (m & Hm & Hc).
    destruct (tracked m) eqn:Ht; [|contradiction].
    exists m. split; [exact Hm|]. split; [exact Ht|].
    unfold connect_model in Hc. apply in_app_or in Hc as [Hc | Hc].
    + right. simpl in Hc. destruct Hc as [<- | [<- | [<- | []]]];
        split; try discriminate; reflexivity.
    + left. apply in_map_iff in Hc as (f & <- & Hf).
      apply filter_In in Hf as [Hf Hflags]. apply andb_true_iff in Hflags as [H1 H2].
      split; [reflexivity|]. exists f. auto.
  - induction (descendants model) as [|m r IH]; [reflexivity|].
    cbn [flat_map List.filter]. rewrite filter_app, length_app, IH.
    destruct (tracked m); [|reflexivity].
    unfold connect_model. rewrite filter_app, length_app. cbn [List.filter length].
    assert (Hnone : forall l,
      List.filter (fun c => match conn_signal c with PostSave => true | _ => false end)
                  (map (fun field => mkConnection M2MChanged (through field)) l) = []).
    { induction l as [|f l' IHl]; [reflexivity | exact IHl]. }
    rewrite Hnone. reflexivity.
  - intros Hall m Hm. rewrite Forall_forall in Hall.
    assert (Ht : tracked m = binder_history m).
    { unfold tracked. rewrite (Hall m Hm). reflexivity. }
    split; [exact Ht|]. intros Hh.
    apply in_flat_map. exists m. split; [exact Hm|].
    rewrite Ht, Hh. unfold connect_model. simpl. tauto.
Qed.

End SignalFacts.



Lemma install_tracked_descendants_witness :
  In (Signals.mkConnection Signals.PostSave "Lion")
     (Signals.install_history_signal_handlers (Some Signals.Sample.base))
  /\ In (Signals.mkConnection Signals.PostSave "TrackedModel")
        (Signals.install_history_signal_handlers (Some Signals.Sample.base))
  /\ In (Signals.mkConnection Signals.M2MChanged "Animal_costumes")
        (Signals.install_history_signal_handlers (Some Signals.Sample.base))
  /\ length (List.filter Signals.tracked (Signals.descendants Signals.Sample.base)) = 3.
Proof.
  pose proof (install_tracked_descendants Signals.Sample.base) as (_ & Hall & _ & _ & _).
  destruct (Hall Signals.Sample.lion) as (_ & Hlion & _ & _);
    [simpl; tauto | reflexivity |].
  destruct (Hall Signals.Sample.tracked_model) as (_ & Hbase & _ & _);
    [simpl; tauto | reflexivity |].
  destruct (Hall Signals.Sample.animal) as (_ & _ & _ & Hm2m);
    [simpl; tauto | reflexivity |].
  split; [exact Hlion|]. split; [exact Hbase|]. split; [|reflexivity].
  apply (Hm2m Signals.Sample.costumes); [simpl; tauto | reflexivity | reflexivity].
Defined.

(* ================================================================== *)
(** ** [BinderModel.full_clean] and [BinderModel.save] *)

Section FullCleanFacts.
Import History HistoryNotions FullClean.
Context {V E R : Type} (py_str : V -> V) (is_none : V -> bool) (null_error : E).

Lemma extend_keeps (errs : dict (list E)) (k k' : string) (v : list E) (e : E) :
  has_error errs k e -> has_error (errors_extend errs k' v) k e.
Proof.
  intros (es & Hget & Hin). unfold has_error, errors_extend.
  destruct (string_dec k' k) as [-> | Hne].
  - rewrite dict_get_set_same, Hget. eexists. split; [reflexivity|].
    apply in_or_app. left. exact Hin.
  - rewrite dict_get_set_other by exact Hne. eauto.
Qed.

Lemma extend_adds (errs : dict (list E)) (k : string) (v : list E) (e : E) :
  In e v -> has_error (errors_extend errs k v) k e.
Proof.
  intros Hin. unfold has_error, errors_extend. rewrite dict_get_set_same.
  eexists. split; [reflexivity|]. apply in_or_app. right. exact Hin.
Qed.

Lemma extend_inv (errs : dict (list E)) (k k' : string) (v : list E) (e : E) :
  has_error (errors_extend errs k v) k' e ->
  has_error errs k' e \/ (k' = k /\ In e v).
Proof.
  intros (es & Hget & Hin). unfold errors_extend in Hget.
  destruct (string_dec k k') as [-> | Hne].
  - rewrite dict_get_set_same in Hget. injection Hget as <-.
    apply in_app_or in Hin as [Hin | Hin]; [|auto].
    left. destruct (dict_get errs k') as [l|] eqn:Hl; [|contradiction].
    exists l. auto.
  - rewrite dict_get_set_other in Hget by exact Hne. left. exists es. auto.
Qed.

Lemma extend_not_nil (errs : dict (list E)) (k : string) (v : list E) :
  errors_extend errs k v <> [].
Proof.
  unfold errors_extend. generalize (match dict_get errs k with
                                    | Some l => l | None => [] end ++ v)%list.
  intros l. destruct errs as [|[k0 a0] r]; simpl; [discriminate|].
  destruct (String.eqb k0 k); discriminate.
Qed.

Lemma null_checks_step (self : clean_model) (f : clean_field) (errs : dict (list E)) :
  (if field_needs_nullability_check f then
     let name := cf_name f ++ (if is_foreign_key f then "_id" else "") in
     if is_none (getattr (instance self) name)
        && is_none (getattr (instance self) (cf_name f))
     then errors_extend errs (cf_name f) [null_error]
     else errs
   else errs)
  = if null_violation is_none self f
    then errors_extend errs (cf_name f) [null_error] else errs.
Proof.
  unfold null_violation. destruct (field_needs_nullability_check f); [|reflexivity].
  cbn [andb]. reflexivity.
Qed.

Lemma null_checks_spec (self : clean_model) (errs : dict (list E)) :
  null_checks is_none null_error self errs
  = fold_left (fun errors f =>
                 if null_violation is_none self f
                 then errors_extend errors (cf_name f) [null_error] else errors)
              (meta_fields self) errs.
Proof.
  unfold null_checks. revert errs.
  induction (meta_fields self) as [|f r IH]; intros errs; [reflexivity|].
  cbn [fold_left]. rewrite null_checks_step. apply IH.
Qed.

(** The second loop over any list of fields. *)
Local Abbreviation checks_from self :=
  (fold_left (fun errors f =>
                if null_violation is_none self f
                then errors_extend errors (cf_name f) [null_error] else errors)).

Lemma checks_keeps (self : clean_model) (l : list clean_field)
      (errs : dict (list E)) (k : string) (e : E) :
  has_error errs k e -> has_error (checks_from self l errs) k e.
Proof.
  revert errs. induction l as [|f r IH]; intros errs Hh; [exact Hh|].
  cbn [fold_left]. apply IH.
  destruct (null_violation is_none self f); [apply extend_keeps|]; exact Hh.
Qed.

Lemma checks_adds (self : clean_model) (l : list clean_field)
      (errs : dict (list E)) (f : clean_field) :
  In f l -> null_violation is_none self f = true ->
  has_error (checks_from self l errs) (cf_name f) null_error.
Proof.
  revert errs. induction l as [|g r IH]; intros errs Hin Hv; [contradiction|].
  cbn [fold_left]. destruct Hin as [-> | Hin]; [|apply IH; assumption].
  rewrite Hv. apply checks_keeps. apply extend_adds. left. reflexivity.
Qed.

Lemma checks_inv (self : clean_model) (l : list clean_field)
      (errs : dict (list E)) (k : string) (e : E) :
  has_error (checks_from self l errs) k e ->
  has_error errs k e
  \/ (e = null_error
      /\ exists f, In f l /\ null_violation is_none self f = true /\ cf_name f = k).
Proof.
  revert errs. induction l as [|g r IH]; intros errs Hh; [left; exact Hh|].
  cbn [fold_left] in Hh. apply IH in Hh as [Hh | (-> & f & Hf & Hv & Hk)].
  - destruct (null_violation is_none self g) eqn:Hg; [|left; exact Hh].
    apply extend_inv in Hh as [Hh | [-> [<- | []]]]; [left; exact Hh|].
    right. split; [reflexivity|]. exists g. simpl. auto.
  - right. split; [reflexivity|]. exists f. simpl. auto.
Qed.

Lemma checks_nil (self : clean_model) (l : list clean_field) (errs : dict (list E)) :
  checks_from self l errs = [] <->
  errs = [] /\ Forall (fun f => null_violation is_none self f = false) l.
Proof.
  revert errs. induction l as [|g r IH]; intros errs; cbn [fold_left].
  - split; [intros ->; auto | intros [-> _]; reflexivity].
  - rewrite IH. destruct (null_violation is_none self g) eqn:Hg.
    + split.
      * intros [Hnil _]. exfalso. exact (extend_not_nil _ _ _ Hnil).
      * intros [_ Hall]. inversion Hall; subst. congruence.
    + split.
      * intros [-> Hall]. auto.
      * intros [-> Hall]. inversion Hall; subst. auto.
Qed.

(** The first loop of the [except] clause over any list of items. *)
Local Abbreviation extend_all :=
  (fold_left (fun (errors : dict (list E)) (item : string * list E) =>
                errors_extend errors (fst item) (snd item))).

Lemma extend_all_keeps (d : list (string * list E)) (errs : dict (list E))
      (k : string) (e : E) :
  has_error errs k e -> has_error (extend_all d errs) k e.
Proof.
  revert errs. induction d as [|[k0 es0] r IH]; intros errs Hh; [exact Hh|].
  cbn [fold_left fst snd]. apply IH. apply extend_keeps. exact Hh.
Qed.

Lemma extend_all_adds (d : list (string * list E)) (errs : dict (list E))
      (k : string) (es : list E) (e : E) :
  In (k, es) d -> In e es -> has_error (extend_all d errs) k e.
Proof.
  revert errs. induction d as [|[k0 es0] r IH]; intros errs Hin He; [contradiction|].
  cbn [fold_left fst snd]. destruct Hin as [[= -> ->] | Hin]; [|apply IH; assumption].
  apply extend_all_keeps. apply extend_adds. exact He.
Qed.

Lemma extend_all_inv (d : list (string * list E)) (errs : dict (list E))
      (k : string) (e : E) :
  has_error (extend_all d errs) k e ->
  has_error errs k e \/ exists es, In (k, es) d /\ In e es.
Proof.
  revert errs. induction d as [|[k0 es0] r IH]; intros errs Hh; [left; exact Hh|].
  cbn [fold_left fst snd] in Hh. apply IH in Hh as [Hh | (es & Hin & He)].
  - apply extend_inv in Hh as [Hh | [-> He]]; [left; exact Hh|].
    right. exists es0. simpl. auto.
  - right. exists es. simpl. auto.
Qed.

Lemma extend_all_not_nil (d : list (string * list E)) (errs : dict (list E)) :
  errs <> [] -> extend_all d errs <> [].
Proof.
  revert errs. induction d as [|[k0 es0] r IH]; intros errs Hne; [exact Hne|].
  cbn [fold_left fst snd]. apply IH. apply extend_not_nil.
Qed.

Lemma error_list_items (l : list E) (errs : dict (list E)) :
  fold_left (fun errors e => errors_extend errors "null" [e]) l errs
  = extend_all (map (fun e => ("null", [e])) l) errs.
Proof.
  revert errs. induction l as [|e r IH]; intros errs; [reflexivity|].
  cbn [fold_left map fst snd]. apply IH.
Qed.

Lemma collect_nil (ve : validation_error (E:=E)) :
  collect ve = [] <-> empty_error ve = true.
Proof.
  destruct ve as [d | l]; cbn [collect empty_error].
  - destruct d as [|[k0 es0] r]; [split; reflexivity|].
    cbn [fold_left fst snd]. split; [|discriminate].
    intros Hnil. exfalso. revert Hnil. apply extend_all_not_nil, extend_not_nil.
  - rewrite error_list_items. destruct l as [|e r]; [split; reflexivity|].
    cbn [fold_left map fst snd]. split; [|discriminate].
    intros Hnil. exfalso. revert Hnil. apply extend_all_not_nil, extend_not_nil.
Qed.

Lemma no_error_nil (k : string) (e : E) : ~ has_error [] k e.
Proof. intros (es & Hget & _). discriminate Hget. Qed.

Lemma collect_spec (ve : validation_error (E:=E)) (k : string) (e : E) :
  has_error (collect ve) k e <-> raised_error ve k e.
Proof.
  destruct ve as [d | l]; cbn [collect raised_error].
  - split.
    + intros Hh. apply extend_all_inv in Hh as [Hh | Hh]; [|exact Hh].
      exfalso. exact (no_error_nil _ _ Hh).
    + intros (es & Hin & He). exact (extend_all_adds _ _ _ _ _ Hin He).
  - rewrite error_list_items. split.
    + intros Hh. apply extend_all_inv in Hh as [Hh | (es & Hin & He)].
      * exfalso. exact (no_error_nil _ _ Hh).
      * apply in_map_iff in Hin as (e0 & [= <- <-] & Hin).
        destruct He as [<- | []]. auto.
    + intros [-> Hin]. apply (extend_all_adds _ _ _ [e]); [|left; reflexivity].
      apply in_map_iff. exists e. auto.
Qed.

Lemma null_checks_nil (self : clean_model) (errs : dict (list E)) :
  null_checks is_none null_error self errs = [] <->
  errs = [] /\ Forall (fun f => null_violation is_none self f = false) (meta_fields self).
Proof. rewrite null_checks_spec. apply checks_nil. Qed.

Lemma null_checks_has (self : clean_model) (errs : dict (list E)) (k : string) (e : E) :
  has_error (null_checks is_none null_error self errs) k e <->
  has_error errs k e
  \/ (e = null_error
      /\ exists f, In f (meta_fields self)
                   /\ null_violation is_none self f = true /\ cf_name f = k).
Proof.
  rewrite null_checks_spec. split; [apply checks_inv|].
  intros [Hh | (-> & f & Hin & Hv & <-)].
  - apply checks_keeps. exact Hh.
  - apply checks_adds; assumption.
Qed.

Lemma clean_exclude_fold (fc : string -> bool) (l given : list string) (n : string) :
  In n (fold_left (fun exclude f => if negb (fc f) then (exclude ++ [f])%list
                                    else exclude) l given)
  <-> In n given \/ (In n l /\ fc n = false).
Proof.
  revert given. induction l as [|f r IH]; intros given; cbn [fold_left].
  - simpl. tauto.
  - rewrite IH. destruct (fc f) eqn:Hf; cbn [negb].
    + simpl. split; [tauto|]. intros [H | [[<- | H] Hn]]; [tauto|congruence|tauto].
    + rewrite in_app_iff. simpl. split.
      * intros [[H | [<- | []]] | [H Hn]]; tauto.
      * intros [H | [[<- | H] Hn]]; tauto.
Qed.

Lemma full_clean_Returned (super_full_clean : option (list string) -> super_result (E:=E) (R:=R))
        (self : clean_model) (exclude : option (list string)) (res : R) :
  full_clean py_str is_none null_error super_full_clean self exclude = Returned res
  <-> super_full_clean (clean_exclude py_str self exclude) = SuperReturned res
      /\ Forall (fun f => null_violation is_none self f = false) (meta_fields self).
Proof.
  unfold full_clean.
  destruct (super_full_clean (clean_exclude py_str self exclude)) as [r | ve] eqn:Hs.
  - destruct (null_checks is_none null_error self []) eqn:Hn.
    + apply null_checks_nil in Hn as [_ Hall]. split.
      * intros [= ->]. auto.
      * intros [[= ->] _]. reflexivity.
    + split; [discriminate|]. intros [_ Hall].
      assert (Hnil : null_checks is_none null_error self [] = [])
        by (apply null_checks_nil; auto).
      congruence.
  - destruct (null_checks is_none null_error self (collect ve));
      split; try discriminate; intros [[=] _].
Qed.

(** X23. [BinderModel.full_clean] returns, and then what
    [super().full_clean] returned, exactly when [super().full_clean]
    returns for the [exclude] that it gets and no field of
    [self._meta.fields] holds [None] where the extra check forbids it: a
    char, text or boolean field with [blank] and without [null] whose
    attribute is [None]. *)
Theorem full_clean_returns (super_full_clean : option (list string) -> super_result (E:=E) (R:=R))
        (self : clean_model) (exclude : option (list string)) (res : R) :
  full_clean py_str is_none null_error super_full_clean self exclude = Returned res
  <-> super_full_clean (clean_exclude py_str self exclude) = SuperReturned res
      /\ Forall (fun f => null_violation is_none self f = false) (meta_fields self).
Proof. apply full_clean_Returned. Qed.

(** X24. [BinderModel.full_clean] ends in reading the local [res] that
    was never bound exactly when [super().full_clean] raises a
    [ValidationError] that carries no error at all (an empty [error_dict]
    or [error_list]) and the extra check for [None] finds nothing. *)
Theorem full_clean_unbound (super_full_clean : option (list string) -> super_result (E:=E) (R:=R))
        (self : clean_model) (exclude : option (list string)) :
  full_clean py_str is_none null_error super_full_clean self exclude
  = RaisedUnboundLocalError
  <-> exists ve,
      super_full_clean (clean_exclude py_str self exclude) = SuperRaised ve
      /\ empty_error ve = true
      /\ Forall (fun f => null_violation is_none self f = false) (meta_fields self).
Proof.
  unfold full_clean.
  destruct (super_full_clean (clean_exclude py_str self exclude)) as [r | ve] eqn:Hs.
  - destruct (null_checks is_none null_error self []);
      split; try discriminate; intros (ve & [=] & _).
  - destruct (null_checks is_none null_error self (collect ve)) eqn:Hn.
    + apply null_checks_nil in Hn as [Hc Hall]. apply collect_nil in Hc.
      split; [|reflexivity]. intros _. exists ve. auto.
    + split; [discriminate|]. intros (ve' & [= <-] & He & Hall).
      assert (Hnil : null_checks is_none null_error self (collect ve) = []).
      { apply null_checks_nil. split; [apply collect_nil; exact He | exact Hall]. }
      congruence.
Qed.

(** X25. When [BinderModel.full_clean] raises its [ValidationError], the
    errors in it are exactly these: every error that the
    [ValidationError] of [super().full_clean] had, under its key (under
    ['null'] for an [error_list]), and the error 'This field cannot be
    null.' under the name of every field that the extra check finds to
    hold [None].  Nothing is lost and nothing else is added. *)
Theorem full_clean_errors (super_full_clean : option (list string) -> super_result (E:=E) (R:=R))
        (self : clean_model) (exclude : option (list string))
        (validation_errors : dict (list E)) (key : string) (e : E) :
  full_clean py_str is_none null_error super_full_clean self exclude
  = RaisedValidationError validation_errors ->
  (has_error validation_errors key e
   <-> (exists ve,
          super_full_clean (clean_exclude py_str self exclude) = SuperRaised ve
          /\ raised_error ve key e)
       \/ (e = null_error
           /\ exists f, In f (meta_fields self)
                        /\ null_violation is_none self f = true
                        /\ cf_name f = key)).
Proof.
  unfold full_clean.
  destruct (super_full_clean (clean_exclude py_str self exclude)) as [r | ve] eqn:Hs.
  - destruct (null_checks is_none null_error self []) eqn:Hn; [discriminate|].
    intros [= <-]. rewrite <- Hn, null_checks_has. split.
    + intros [Hh | Hh]; [exfalso; exact (no_error_nil _ _ Hh) | right; exact Hh].
    + intros [(ve & [=] & _) | Hh]. right. exact Hh.
  - destruct (null_checks is_none null_error self (collect ve)) eqn:Hn; [discriminate|].
    intros [= <-]. rewrite <- Hn, null_checks_has, collect_spec. split.
    + intros [Hh | Hh]; [left; exists ve; auto | right; exact Hh].
    + intros [(ve' & [= <-] & Hh) | Hh]; [left; exact Hh | right; exact Hh].
Qed.


(** X26. Without [field_changed], [full_clean] hands the [exclude] it got
    on to [super().full_clean].  With [field_changed] it hands on the
    names it got and, besides them, exactly the names of the loaded
    concrete fields (not many-to-many, not deferred) that did not
    change. *)
Theorem clean_exclude_spec (self : clean_model (V:=V)) (exclude : option (list string)) :
  (field_changed self = None -> clean_exclude py_str self exclude = exclude)
  /\ (forall changed, field_changed self = Some changed ->
      exists names,
        clean_exclude py_str self exclude = Some names
        /\ forall n,
             In n names <->
             In n (match exclude with Some given => given | None => [] end)
             \/ (changed n = false
                 /\ exists f, In f (get_fields (instance self))
                              /\ taken (instance self) true f = true
                              /\ mf_name f = n)).
Proof.
  unfold clean_exclude. split.
  - intros ->. reflexivity.
  - intros changed ->. eexists. split; [reflexivity|].
    intros n. rewrite clean_exclude_fold, (fields_dict_keys py_str). tauto.
Qed.

(** X27. [BinderModel.save] reaches [super().save], and returns what it
    gives, exactly when [full_clean] without [exclude] returns: when
    [super().full_clean] returns and the extra check for [None] finds
    nothing.  An invalid model is never saved. *)
Theorem save_validates {S : Type}
        (super_full_clean : option (list string) -> super_result (E:=E) (R:=R))
        (super_save : S) (self : clean_model (V:=V)) (s : S) :
  save py_str is_none null_error super_full_clean super_save self = Returned s
  <-> s = super_save
      /\ (exists res,
            super_full_clean (clean_exclude py_str self None) = SuperReturned res)
      /\ Forall (fun f => null_violation is_none self f = false) (meta_fields self).
Proof.
  unfold save.
  destruct (full_clean py_str is_none null_error super_full_clean self None)
    as [res | errs |] eqn:Hfc.
  - apply full_clean_Returned in Hfc as [Hs Hall]. split.
    + intros [= <-]. eauto.
    + intros (-> & _ & _). reflexivity.
  - split; [discriminate|]. intros (_ & (res & Hs) & Hall).
    rewrite (proj2 (full_clean_Returned super_full_clean self None res)) in Hfc
      by auto.
    discriminate.
  - split; [discriminate|]. intros (_ & (res & Hs) & Hall).
    rewrite (proj2 (full_clean_Returned super_full_clean self None res)) in Hfc
      by auto.
    discriminate.
Qed.

End FullCleanFacts.


Lemma full_clean_unbound_witness :
  FullClean.full_clean (fun v => v) FullClean.Sample.is_none "This field cannot be null."
    FullClean.Sample.rejects_empty FullClean.Sample.named None
  = FullClean.RaisedUnboundLocalError.
Proof.
  apply (proj2 (full_clean_unbound (fun v => v) FullClean.Sample.is_none
                  "This field cannot be null." FullClean.Sample.rejects_empty
                  FullClean.Sample.named None)).
  exists (FullClean.ErrorDict []). split; [reflexivity|]. split; [reflexivity|].
  repeat constructor.
Defined.

Lemma full_clean_errors_witness :
  FullClean.has_error [("name", ["too long"; "This field cannot be null."])]
    "name" "This field cannot be null."
  /\ ~ FullClean.has_error [("name", ["too long"; "This field cannot be null."])]
        "zoo" "This field cannot be null.".
Proof.
  pose proof (full_clean_errors (fun v => v) FullClean.Sample.is_none
                "This field cannot be null." FullClean.Sample.rejects
                FullClean.Sample.nameless None _ "name" "This field cannot be null."
                eq_refl) as Hname.
  pose proof (full_clean_errors (fun v => v) FullClean.Sample.is_none
                "This field cannot be null." FullClean.Sample.rejects
                FullClean.Sample.nameless None _ "zoo" "This field cannot be null."
                eq_refl) as Hzoo.
  split.
  - apply Hname. right. split; [reflexivity|].
    exists FullClean.Sample.name_field. simpl. auto.
  - intros Hh. apply Hzoo in Hh as [(ve & [= <-] & es & [[= _] | []] & _)
                                   | (_ & f & [<- | [<- | []]] & Hv & Hk)];
      discriminate.
Defined.

Lemma clean_exclude_spec_witness :
  exists names,
    FullClean.clean_exclude (fun v => v) FullClean.Sample.named (Some ["id"]) = Some names
    /\ In "zoo" names /\ In "id" names /\ ~ In "name" names.
Proof.
  destruct (proj2 (clean_exclude_spec (fun v => v) FullClean.Sample.named (Some ["id"]))
              _ eq_refl) as (names & Hnames & Hin).
  exists names. split; [exact Hnames|]. split; [|split].
  - apply Hin. right. split; [reflexivity|].
    exists (History.mkMetaField "zoo" "zoo_id" true false History.ForeignKeyKind).
    simpl. auto.
  - apply Hin. left. simpl. auto.
  - intros H. apply Hin in H as [[E | []] | [E _]]; discriminate.
Defined.

Lemma save_validates_witness :
  FullClean.save (fun v => v) FullClean.Sample.is_none "This field cannot be null."
    FullClean.Sample.accepts 7 FullClean.Sample.named
  = FullClean.Returned 7
  /\ FullClean.save (fun v => v) FullClean.Sample.is_none "This field cannot be null."
       FullClean.Sample.accepts 7 FullClean.Sample.nameless
     <> FullClean.Returned 7.
Proof.
  split.
  - apply (proj2 (save_validates (fun v => v) FullClean.Sample.is_none
                    "This field cannot be null." FullClean.Sample.accepts 7
                    FullClean.Sample.named 7)).
    split; [reflexivity|]. split; [exists tt; reflexivity|].
    repeat constructor.
  - intros H.
    apply (proj1 (save_validates (fun v => v) FullClean.Sample.is_none
                    "This field cannot be null." FullClean.Sample.accepts 7
                    FullClean.Sample.nameless 7)) in H as (_ & _ & Hall).
    inversion Hall as [|? ? Hname _]. discriminate Hname.
Defined.

(* ================================================================== *)
(** ** [BinderModel.binder_serialize_m2m_field] *)

Section SerializeFacts.
Import History SerializeM2M.
Context {V : Type}.

Lemma dict_get_remove (d : dict V) (k k' : string) :
  dict_get (dict_remove d k) k'
  = if String.eqb k k' then None else dict_get d k'.
Proof.
  unfold dict_remove. induction d as [|[k0 v0] r IH]; simpl.
  - destruct (String.eqb k k'); reflexivity.
  - destruct (String.eqb k0 k) eqn:E0; simpl.
    + apply String.eqb_eq in E0. subst k0. rewrite IH.
      destruct (String.eqb k k'); reflexivity.
    + rewrite IH. destruct (String.eqb k0 k') eqn:E1; [|reflexivity].
      apply String.eqb_eq in E1. subst k0.
      rewrite String.eqb_sym, E0. reflexivity.
Qed.

(** No name with ["_id"] at its end is ["id"]. *)
Lemma suffixed_not_id (n : string) : String.eqb "id" (n ++ "_id") = false.
Proof.
  apply String.eqb_neq. destruct n as [|c [|c' r]]; simpl; try discriminate.
  intros [= _ _ E]. destruct r; discriminate E.
Qed.

Lemma rename_row_ok (source target : string) (d : dict V) :
  poppable source target d = true -> exists d', rename_row source target d = Ok d'.
Proof.
  unfold poppable, rename_row, dict_pop.
  destruct (dict_get d "id") as [v0|]; [|discriminate].
  destruct (dict_get d (source ++ "_id")) as [v1|] eqn:H1; [|discriminate].
  destruct (dict_get d (target ++ "_id")) as [v2|] eqn:H2; [|discriminate].
  intros Hne. apply negb_true_iff in Hne.
  rewrite dict_get_remove, suffixed_not_id, H1.
  rewrite !dict_get_remove, suffixed_not_id, Hne, H2. eauto.
Qed.

Lemma rename_row_error (source target : string) (d : dict V) :
  poppable source target d = false ->
  rename_row source target d = Raise (OtherError "KeyError").
Proof.
  unfold poppable, rename_row, dict_pop.
  destruct (dict_get d "id") as [v0|]; [|reflexivity].
  rewrite dict_get_remove, suffixed_not_id.
  destruct (dict_get d (source ++ "_id")) as [v1|] eqn:H1; [|reflexivity].
  rewrite !dict_get_remove, suffixed_not_id.
  destruct (String.eqb (source ++ "_id") (target ++ "_id")); [reflexivity|].
  destruct (dict_get d (target ++ "_id")) as [v2|]; [discriminate | reflexivity].
Qed.

Lemma rename_rows (source target : string) (rows : list (dict V)) :
  if forallb (poppable source target) rows
  then exists data, map_result (rename_row source target) rows = Ok data
                    /\ length data = length rows
  else map_result (rename_row source target) rows = Raise (OtherError "KeyError").
Proof.
  induction rows as [|d r IH]; cbn [forallb map_result]; [exists []; auto|].
  destruct (poppable source target d) eqn:Hd; cbn [andb].
  - destruct (rename_row_ok _ _ _ Hd) as [d' ->].
    destruct (forallb (poppable source target) r).
    + destruct IH as (data & -> & Hlen). exists (d' :: data). simpl. auto.
    + rewrite IH. reflexivity.
  - rewrite (rename_row_error _ _ _ Hd). reflexivity.
Qed.

(** X28. [binder_serialize_m2m_field] returns the set of the target ids
    for a plain many-to-many relation.  For an extended one (the join
    table is a Binder model) it returns only when the join table has no
    row for the instance, and then the empty set; with at least one row it
    always raises: [KeyError] when some row lacks one of the keys ['id'],
    [<source>_id] and [<target>_id] that the loop pops, and else the
    [TypeError] of putting the list [sorted(d.items())] into a set. *)
Theorem serialize_m2m_outcome (field : related_manager (V:=V)) :
  let rows := through_values field in
  let ready := forallb (poppable (source_field_name field) (target_field_name field))
                       rows in
  (extended_m2m field = false ->
   binder_serialize_m2m_field field = Ok (IdSet (values_list_id field)))
  /\ (extended_m2m field = true ->
      (rows = [] -> binder_serialize_m2m_field field = Ok (RowSet []))
      /\ (rows <> [] -> ready = true -> binder_serialize_m2m_field field = Raise TypeError)
      /\ (ready = false ->
          binder_serialize_m2m_field field = Raise (OtherError "KeyError"))
      /\ (forall s, binder_serialize_m2m_field field = Ok s ->
                    rows = [] /\ s = RowSet [])).
Proof.
  intros rows ready. unfold binder_serialize_m2m_field.
  split; [intros ->; reflexivity|]. intros ->. cbn [negb].
  pose proof (rename_rows (source_field_name field) (target_field_name field) rows)
    as Hrows.
  fold rows. fold ready in Hrows.
  split; [|split; [|split]].
  - intros Hnil. rewrite Hnil. reflexivity.
  - intros Hne Hready. rewrite Hready in Hrows. destruct Hrows as (data & -> & Hlen).
    destruct data as [|d0 data]; [|reflexivity].
    destruct rows; [contradiction | discriminate Hlen].
  - intros Hready. rewrite Hready in Hrows. rewrite Hrows. reflexivity.
  - intros s. destruct ready.
    + destruct Hrows as (data & -> & Hlen).
      destruct data as [|d0 data]; [|discriminate].
      intros [= <-]. destruct rows; [auto | discriminate Hlen].
    + rewrite Hrows. discriminate.
Qed.

End SerializeFacts.

Lemma serialize_m2m_outcome_witness :
  SerializeM2M.binder_serialize_m2m_field SerializeM2M.Sample.costumes = Raise TypeError.
Proof.
  pose proof (serialize_m2m_outcome SerializeM2M.Sample.costumes) as [_ Hext].
  destruct (Hext eq_refl) as (_ & Hrows & _ & _).
  apply Hrows; [discriminate | reflexivity].
Defined.

